(** * Cura Profile Builder: validation, partitioning and serialization

    A shallow embedding of the setting validation engine
    ([SettingMetadata.validate_value]), the batch validator and the
    global / per-extruder separation of [CuraBuilder.build_curaprofile],
    the [.inst.cfg] writer [CuraBuilder.generate_inst_cfg], the settings
    collection loop of [CuraBuilder.build_from_json], the preset merge of
    [CuraBuilder.build_from_preset], the reading of the --settings argument
    in [run_cli], the discovery of the machine definitions
    ([CuraBuilder._discover_definitions]) and the schema index
    ([extract_settings_from_def], [parse_def_json], [SettingMetadata.load]),
    all of
    [cura_profile_builder.py], followed by the properties proved of them. *)

From Stdlib Require Import ZArith QArith Lqa String Ascii List Lia.
From stdpp Require Import base option gmap strings list pretty.

Local Open Scope Z_scope.
Local Set Warnings "-register-all".

(** ** Python values

    Setting values, schema fields and JSON documents are dynamically typed:
    they are the values [json.load] produces (None, bool, int, float, str,
    list, dict with string keys) and the tuples functions return.

    Strings are byte strings (UTF-8); the case conversions below act on the
    ASCII letters only, which is what [str.lower] does on ASCII text. *)

Module Py.

(** A float is NaN, an infinity, the negative zero or a finite value; a
    finite double is a rational number, and the code only compares floats,
    truncates them and tests them against zero, all of which are exact on
    the rational it denotes. *)
Inductive pyfloat : Type :=
| FNan
| FInf (negative : bool)
| FNegZero
| FFin (q : Q).

Inductive pyval : Type :=
| PNone
| PBool (b : bool)
| PInt (z : Z)
| PFloat (f : pyfloat)
| PStr (s : string)
| PList (l : list pyval)
| PTuple (l : list pyval)
| PDict (d : list (string * pyval)).

(** A dict keeps its keys in insertion order; keys are unique. *)
Abbreviation pydict := (list (string * pyval)).

Inductive pyexn : Type :=
| ValueError (msg : string)
| TypeError (msg : string)
| OverflowError (msg : string)
| AttributeError (msg : string)
| KeyError (msg : string)
| ConfigError (msg : string).

(** A computation that returns or raises. *)
Inductive result (A : Type) : Type :=
| Ret (a : A)
| Raise (e : pyexn).
Arguments Ret {A} a.
Arguments Raise {A} e.

#[global] Instance result_bind : MBind result :=
  λ A B f m, match m with Ret a => f a | Raise e => Raise e end.

(** try: ... except (ValueError, TypeError) as e: handler *)
Definition try_except {A} (body : result A) (handler : string → result A) : result A :=
  match body with
  | Raise (ValueError msg) | Raise (TypeError msg) => handler msg
  | other => other
  end.

(** *** Dictionaries *)

Fixpoint dict_get {A} (d : list (string * A)) (k : string) : option A :=
  match d with
  | [] => None
  | (k', v) :: rest => if String.eqb k' k then Some v else dict_get rest k
  end.

Definition dict_mem {A} (d : list (string * A)) (k : string) : bool :=
  match dict_get d k with Some _ => true | None => false end.

(** d[k] = v: an existing key keeps its position, a new one goes last. *)
Fixpoint dict_set {A} (d : list (string * A)) (k : string) (v : A) : list (string * A) :=
  match d with
  | [] => [(k, v)]
  | (k', v') :: rest =>
      if String.eqb k' k then (k', v) :: rest else (k', v') :: dict_set rest k v
  end.

(** d.update(src) *)
Definition dict_update {A} (d src : list (string * A)) : list (string * A) :=
  fold_left (λ acc kv, dict_set acc kv.1 kv.2) src d.

Definition dict_keys {A} (d : list (string * A)) : list string := map fst d.

(** The same three operations on a dict with int keys
    ([Dict[int, Dict[str, Any]]]). *)
Fixpoint idict_get {A} (d : list (Z * A)) (k : Z) : option A :=
  match d with
  | [] => None
  | (k', v) :: rest => if Z.eqb k' k then Some v else idict_get rest k
  end.

Fixpoint idict_set {A} (d : list (Z * A)) (k : Z) (v : A) : list (Z * A) :=
  match d with
  | [] => [(k, v)]
  | (k', v') :: rest =>
      if Z.eqb k' k then (k', v) :: rest else (k', v') :: idict_set rest k v
  end.

(** info.get(k) and info.get(k, default) on a dict *)
Definition get_or (d : pydict) (k : string) (default : pyval) : pyval :=
  match dict_get d k with Some v => v | None => default end.

Definition get (d : pydict) (k : string) : pyval := get_or d k PNone.

(** *** Truth value, types *)

Definition float_is_zero (f : pyfloat) : bool :=
  match f with
  | FNegZero => true
  | FFin q => Z.eqb (Qnum q) 0
  | _ => false
  end.

Definition truthy (v : pyval) : bool :=
  match v with
  | PNone => false
  | PBool b => b
  | PInt z => negb (Z.eqb z 0)
  | PFloat f => negb (float_is_zero f)
  | PStr s => negb (String.eqb s "")
  | PList l | PTuple l => match l with [] => false | _ => true end
  | PDict d => match d with [] => false | _ => true end
  end.

(** a or b *)
Definition py_or (a b : pyval) : pyval := if truthy a then a else b.

Definition is_none (v : pyval) : bool :=
  match v with PNone => true | _ => false end.

Definition type_name (v : pyval) : string :=
  match v with
  | PNone => "NoneType"
  | PBool _ => "bool"
  | PInt _ => "int"
  | PFloat _ => "float"
  | PStr _ => "str"
  | PList _ => "list"
  | PTuple _ => "tuple"
  | PDict _ => "dict"
  end.

(** v == "literal" *)
Definition eq_str (v : pyval) (s : string) : bool :=
  match v with PStr t => String.eqb t s | _ => false end.

(** *** Numbers and their order *)

(** The value of a number on the extended real line. *)
Inductive xreal : Type :=
| XNan
| XNegInf
| XFin (q : Q)
| XPosInf.

Definition float_xreal (f : pyfloat) : xreal :=
  match f with
  | FNan => XNan
  | FInf true => XNegInf
  | FInf false => XPosInf
  | FNegZero => XFin 0
  | FFin q => XFin q
  end.

(** bool is a subclass of int: True is 1 and False is 0. *)
Definition as_num (v : pyval) : option xreal :=
  match v with
  | PBool b => Some (XFin (inject_Z (Z.b2z b)))
  | PInt z => Some (XFin (inject_Z z))
  | PFloat f => Some (float_xreal f)
  | _ => None
  end.

Definition Qltb (p q : Q) : bool :=
  match Qcompare p q with Lt => true | _ => false end.

(** x < y on numbers: exact, and false as soon as one side is NaN. *)
Definition xreal_ltb (x y : xreal) : bool :=
  match x, y with
  | XNan, _ | _, XNan => false
  | _, XNegInf => false
  | XNegInf, _ => true
  | XPosInf, _ => false
  | _, XPosInf => true
  | XFin p, XFin q => Qltb p q
  end.

(** x == y on numbers. *)
Definition xreal_eqb (x y : xreal) : bool :=
  match x, y with
  | XNegInf, XNegInf | XPosInf, XPosInf => true
  | XFin p, XFin q => Qeq_bool p q
  | _, _ => false
  end.

Definition not_supported (op : string) (a b : pyval) : pyexn :=
  TypeError ("'" +:+ op +:+ "' not supported between instances of '"
             +:+ type_name a +:+ "' and '" +:+ type_name b +:+ "'").

(** a < b.  Numbers compare by value and two strings lexicographically; a
    number against None, a string or a container raises TypeError.  (Two
    lists or two tuples also compare in Python; the left operand of the
    comparisons of this program is always a number, see [type_check], and
    that case is left out.) *)
Definition py_lt (a b : pyval) : result bool :=
  match as_num a, as_num b with
  | Some x, Some y => Ret (xreal_ltb x y)
  | _, _ =>
      match a, b with
      | PStr s, PStr t => Ret (String.ltb s t)
      | _, _ => Raise (not_supported "<" a b)
      end
  end.

(** a > b *)
Definition py_gt (a b : pyval) : result bool :=
  match as_num a, as_num b with
  | Some x, Some y => Ret (xreal_ltb y x)
  | _, _ =>
      match a, b with
      | PStr s, PStr t => Ret (String.ltb t s)
      | _, _ => Raise (not_supported ">" a b)
      end
  end.

(** *** Builtins taken as parameters

    The text forms of floats and strings and the parsers behind [int(s)]
    and [float(s)] belong to the interpreter, not to this program; so does
    the [in] operator on a right operand that is not a dict.  The
    development is parametric in them. *)
Class Builtins : Type := {
  (** int(s) on a string; None stands for ValueError *)
  int_of_str : string → option Z;
  (** float(s) on a string; None stands for ValueError *)
  float_of_str : string → option pyfloat;
  (** repr(f) of a float, which is also str(f) *)
  float_repr : pyfloat → string;
  (** repr(s) of a string: quoted and escaped *)
  str_repr : string → string;
  (** [x in c] for c a string, a list, a tuple or not a container at all *)
  contains_other : pyval → pyval → result bool;
}.

Section WithBuiltins.
Context `{Builtins}.

Fixpoint py_repr (v : pyval) : string :=
  match v with
  | PNone => "None"
  | PBool true => "True"
  | PBool false => "False"
  | PInt z => pretty z
  | PFloat f => float_repr f
  | PStr s => str_repr s
  | PList l => "[" +:+ String.concat ", " (map py_repr l) +:+ "]"
  | PTuple l =>
      match l with
      | [x] => "(" +:+ py_repr x +:+ ",)"
      | _ => "(" +:+ String.concat ", " (map py_repr l) +:+ ")"
      end
  | PDict d =>
      "{" +:+ String.concat ", "
                (map (λ kv, match kv with (k, x) => str_repr k +:+ ": " +:+ py_repr x end) d)
          +:+ "}"
  end.

(** str(v), which is also what an f-string field {v} inserts *)
Definition py_str (v : pyval) : string :=
  match v with
  | PStr s => s
  | _ => py_repr v
  end.

(** repr of a list of strings, as in f"{list(options.keys())}" *)
Definition str_list_repr (l : list string) : string :=
  "[" +:+ String.concat ", " (map str_repr l) +:+ "]".

(** int(v) *)
Definition py_int (v : pyval) : result pyval :=
  match v with
  | PBool b => Ret (PInt (Z.b2z b))
  | PInt z => Ret (PInt z)
  | PFloat FNan => Raise (ValueError "cannot convert float NaN to integer")
  | PFloat (FInf _) => Raise (OverflowError "cannot convert float infinity to integer")
  | PFloat FNegZero => Ret (PInt 0)
  | PFloat (FFin q) => Ret (PInt (Z.quot (Qnum q) (Zpos (Qden q))))
  | PStr s =>
      match int_of_str s with
      | Some z => Ret (PInt z)
      | None => Raise (ValueError ("invalid literal for int() with base 10: " +:+ str_repr s))
      end
  | _ => Raise (TypeError
                  ("int() argument must be a string, a bytes-like object or a real number, not '"
                   +:+ type_name v +:+ "'"))
  end.

(** float(v).  On an int the conversion is exact up to 2^53 and rounds
    beyond; [validate_value] never converts an int. *)
Definition py_float (v : pyval) : result pyval :=
  match v with
  | PBool b => Ret (PFloat (FFin (inject_Z (Z.b2z b))))
  | PInt z => Ret (PFloat (FFin (inject_Z z)))
  | PFloat f => Ret (PFloat f)
  | PStr s =>
      match float_of_str s with
      | Some f => Ret (PFloat f)
      | None => Raise (ValueError ("could not convert string to float: " +:+ str_repr s))
      end
  | _ => Raise (TypeError
                  ("float() argument must be a string or a real number, not '"
                   +:+ type_name v +:+ "'"))
  end.

(** hash(v) succeeds *)
Fixpoint hashable (v : pyval) : bool :=
  match v with
  | PList _ | PDict _ => false
  | PTuple l => forallb hashable l
  | _ => true
  end.

(** [x in c].  The keys of a dict are strings: only an equal string is a
    member, and looking up an unhashable value raises. *)
Definition py_in (x c : pyval) : result bool :=
  match c with
  | PDict d =>
      if hashable x
      then Ret (match x with PStr s => dict_mem d s | _ => false end)
      else Raise (TypeError ("unhashable type: '" +:+ type_name x +:+ "'"))
  | _ => contains_other x c
  end.

(** list(c.keys()) *)
Definition py_keys (c : pyval) : result (list string) :=
  match c with
  | PDict d => Ret (dict_keys d)
  | _ => Raise (AttributeError
                  ("'" +:+ type_name c +:+ "' object has no attribute 'keys'"))
  end.

(** c.get(k), on a value that need not be a dict *)
Definition py_get (c : pyval) (k : string) : result pyval :=
  match c with
  | PDict d => Ret (get d k)
  | _ => Raise (AttributeError
                  ("'" +:+ type_name c +:+ "' object has no attribute 'get'"))
  end.

End WithBuiltins.

(** *** Strings *)

Definition lower_ascii (c : ascii) : ascii :=
  let n := nat_of_ascii c in
  if (Nat.leb 65 n && Nat.leb n 90)%bool then ascii_of_nat (n + 32) else c.

(** s.lower() *)
Fixpoint lower (s : string) : string :=
  match s with
  | EmptyString => EmptyString
  | String c rest => String (lower_ascii c) (lower rest)
  end.

(** s.replace(c, by) for a one-character pattern *)
Fixpoint replace_char (c : ascii) (by_ : string) (s : string) : string :=
  match s with
  | EmptyString => EmptyString
  | String x rest =>
      if Ascii.eqb x c then by_ +:+ replace_char c by_ rest
      else String x (replace_char c by_ rest)
  end.

Definition NL : ascii := ascii_of_nat 10.
Definition TAB : ascii := ascii_of_nat 9.
Definition BACKSLASH : ascii := ascii_of_nat 92.

End Py.

Import Py.

(** ** SettingMetadata

    [settings] is the flat schema index that [load] builds from
    fdmprinter.def.json: setting key to the dict of its properties. *)

Record SettingMetadata : Type := {
  settings : gmap string pydict;
  loaded : bool;
}.

(** What the [try] block of [validate_value] leaves behind: it falls
    through with the (possibly converted) local [value], or the function
    returns from inside it. *)
Inductive flow : Type :=
| Continue (value : pyval)
| Return (r : bool * string).

Definition isinstance_int (v : pyval) : bool :=
  match v with PInt _ | PBool _ => true | _ => false end.

Definition isinstance_int_float (v : pyval) : bool :=
  match v with PInt _ | PBool _ | PFloat _ => true | _ => false end.

Definition isinstance_bool (v : pyval) : bool :=
  match v with PBool _ => true | _ => false end.

(** value.lower() in ("true", "1", "yes") *)
Definition str_is_true (s : string) : bool :=
  let l := lower s in
  (String.eqb l "true" || String.eqb l "1" || String.eqb l "yes")%bool.

Section Validation.
Context `{Builtins}.

Definition get_type (self : SettingMetadata) (setting_key : string) : pyval :=
  match settings self !! setting_key with
  | None => PStr "unknown"
  | Some info => get_or info "type" (PStr "unknown")
  end.

Definition is_per_extruder (self : SettingMetadata) (setting_key : string) : pyval :=
  match settings self !! setting_key with
  | None => PBool false
  | Some info => get_or info "settable_per_extruder" (PBool false)
  end.

(** The body of the [try] block ("Type checking"). *)
Definition type_check_body (info : pydict) (setting_type value : pyval) : result flow :=
  if eq_str setting_type "int" then
    if (negb (isinstance_int value) || isinstance_bool value)%bool
    then value ← py_int value; Ret (Continue value)
    else Ret (Continue value)
  else if eq_str setting_type "float" then
    if (negb (isinstance_int_float value) || isinstance_bool value)%bool
    then value ← py_float value; Ret (Continue value)
    else Ret (Continue value)
  else if eq_str setting_type "bool" then
    match value with
    | PBool _ => Ret (Continue value)
    | PStr s => Ret (Continue (PBool (str_is_true s)))
    | _ => Ret (Continue (PBool (truthy value)))
    end
  else if eq_str setting_type "enum" then
    let options := get_or info "options" (PDict []) in
    member ← py_in value options;
    if negb member then
      keys ← py_keys options;
      Ret (Return (false, "Invalid option '" +:+ py_str value +:+ "'. Valid: "
                           +:+ str_list_repr keys))
    else Ret (Continue value)
  else Ret (Continue value).

(** The [try] block with its handler. *)
Definition type_check (info : pydict) (setting_type value : pyval) : result flow :=
  try_except (type_check_body info setting_type value)
    (λ e, Ret (Return (false, "Type conversion failed: " +:+ e))).

(** [bound is not None and test], evaluated left to right. *)
Definition bound_crossed (bound : pyval) (test : result bool) : result bool :=
  if is_none bound then Ret false else test.

(** The block "Range checking for numeric types". *)
Definition range_check (info : pydict) (value : pyval) : result (bool * string) :=
  let min_val := get info "minimum_value" in
  let max_val := get info "maximum_value" in
  let min_warn := get info "minimum_value_warning" in
  let max_warn := get info "maximum_value_warning" in
  below ← bound_crossed min_val (py_lt value min_val);
  if below : bool then
    Ret (false, "Value " +:+ py_str value +:+ " below minimum " +:+ py_str min_val)
  else
  above ← bound_crossed max_val (py_gt value max_val);
  if above : bool then
    Ret (false, "Value " +:+ py_str value +:+ " above maximum " +:+ py_str max_val)
  else
  low ← bound_crossed min_warn (py_lt value min_warn);
  let warnings := if low : bool then ["below recommended " +:+ py_str min_warn] else [] in
  high ← bound_crossed max_warn (py_gt value max_warn);
  let warnings :=
    if high : bool then warnings ++ ["above recommended " +:+ py_str max_warn] else warnings in
  match warnings with
  | [] => Ret (true, "")
  | _ => Ret (true, "Value " +:+ py_str value +:+ " " +:+ String.concat ", " warnings)
  end.

Definition validate_value (self : SettingMetadata) (setting_key : string) (value : pyval)
  : result (bool * string) :=
  match settings self !! setting_key with
  | None => Ret (true, "")
  | Some info =>
      let setting_type := get_or info "type" (PStr "unknown") in
      after ← type_check info setting_type value;
      match after with
      | Return r => Ret r
      | Continue value =>
          if (eq_str setting_type "int" || eq_str setting_type "float")%bool
          then range_check info value
          else Ret (true, "")
      end
  end.

Definition format_value_for_cfg (self : SettingMetadata) (setting_key : string)
    (value : pyval) : string :=
  let setting_type := get_type self setting_key in
  if eq_str setting_type "bool" then
    if truthy value then "True" else "False"
  else if (eq_str setting_type "str" || eq_str setting_type "extruder")%bool then
    match value with
    | PStr s =>
        replace_char TAB (String BACKSLASH "t") (replace_char NL (String BACKSLASH "n") s)
    | _ => py_str value
    end
  else py_str value.

End Validation.

(** ** configparser.ConfigParser(interpolation=None)

    The parser keeps its sections in the order they were added and, in each
    section, the options in the order they were first set.  Option names go
    through [optionxform], which lower-cases them.  This is the parser of
    CPython 3.6 to 3.13, whose [write] takes any option name. *)

Module ConfigParser.

Abbreviation section := (list (string * string)).
Abbreviation t := (list (string * section)).

Definition optionxform (optionstr : string) : string := lower optionstr.

(** parser.set(section, option, value), as [config[section][option] = value]
    reaches it; [config[section]] raises KeyError on a missing section. *)
Definition set (config : t) (sect option value : string) : result t :=
  match dict_get config sect with
  | None => Raise (KeyError sect)
  | Some options => Ret (dict_set config sect (dict_set options (optionxform option) value))
  end.

(** The options of [read_dict]: set one after the other, a name seen twice
    (after [optionxform]) is a DuplicateOptionError of the strict parser. *)
Fixpoint read_options (options : section) (added : list string) (items : section)
  : result section :=
  match items with
  | [] => Ret options
  | (key, value) :: rest =>
      let key := optionxform key in
      if existsb (String.eqb key) added
      then Raise (ConfigError ("option '" +:+ key +:+ "' already exists"))
      else read_options (dict_set options key value) (key :: added) rest
  end.

(** config[name] = items: the section is emptied when it exists, added
    last when it does not, and filled from [items]. *)
Definition setitem (config : t) (name : string) (items : section) : result t :=
  options ← read_options [] [] items;
  Ret (dict_set config name options).

Definition write_option (kv : string * string) : string :=
  kv.1 +:+ " = " +:+ replace_char NL (String NL (String TAB "")) kv.2 +:+ String NL "".

Definition write_section (s : string * section) : string :=
  "[" +:+ s.1 +:+ "]" +:+ String NL ""
  +:+ String.concat "" (map write_option s.2) +:+ String NL "".

(** config.write(fp), as the text written *)
Definition write (config : t) : string :=
  String.concat "" (map write_section config).

End ConfigParser.

(** ** CuraBuilder *)

Record CuraBuilder : Type := {
  metadata : option SettingMetadata;
  setting_version : option Z;
  available_definitions : list string;
}.

(** [self.metadata and self.metadata.loaded]: the metadata when both hold. *)
Definition loaded_metadata (self : CuraBuilder) : option SettingMetadata :=
  match metadata self with
  | Some m => if loaded m then Some m else None
  | None => None
  end.

Definition validate_definition (self : CuraBuilder) (definition_name : string) : bool :=
  (existsb (String.eqb definition_name) (available_definitions self)
   || String.eqb definition_name "fdmprinter")%bool.

(** What [build_curaprofile] hands to the archive writer, or the message
    of its early (False, message, None) return. *)
Inductive build : Type :=
| BuildFailed (message : string)
| BuildFiles (global_cfg : string) (extruder_cfgs : list (Z * string)).

Section Builder.
Context `{Builtins}.

(** The loop of [validate_settings]. *)
Fixpoint validate_loop (m : SettingMetadata) (items : pydict)
    (errors warnings : list string) : result (list string * list string) :=
  match items with
  | [] => Ret (errors, warnings)
  | (key, value) :: rest =>
      r ← validate_value m key value;
      let '(valid, msg) := r in
      if negb valid then validate_loop m rest (errors ++ [key +:+ ": " +:+ msg]) warnings
      else if negb (String.eqb msg "")
           then validate_loop m rest errors (warnings ++ [key +:+ ": " +:+ msg])
           else validate_loop m rest errors warnings
  end.

Definition validate_settings (self : CuraBuilder) (settings : pydict)
  : result (bool * list string * list string) :=
  match loaded_metadata self with
  | None => Ret (true, [], ["Validation skipped - metadata not loaded"])
  | Some m =>
      r ← validate_loop m settings [] [];
      let '(errors, warnings) := r in
      Ret (match errors with [] => true | _ => false end, errors, warnings)
  end.

(** The formatted text of one value of the [values] section. *)
Definition formatted (self : CuraBuilder) (key : string) (value : pyval) : string :=
  match loaded_metadata self with
  | Some m => format_value_for_cfg m key value
  | None => py_str value
  end.

(** The loop filling [config["values"]]. *)
Fixpoint write_values (self : CuraBuilder) (config : ConfigParser.t) (items : pydict)
  : result ConfigParser.t :=
  match items with
  | [] => Ret config
  | (key, value) :: rest =>
      config ← ConfigParser.set config "values" key (formatted self key value);
      write_values self config rest
  end.

Definition generate_inst_cfg (self : CuraBuilder)
    (profile_name definition quality_type : string) (settings : pydict)
    (is_extruder : bool) (extruder_position : Z) : result string :=
  let config : ConfigParser.t := [] in
  config ← ConfigParser.setitem config "general"
             [("version", "4"); ("name", profile_name); ("definition", definition)];
  let version := match setting_version self with
                 | Some v => if Z.eqb v 0 then 23 else v
                 | None => 23
                 end in
  config ← ConfigParser.setitem config "metadata"
             [("type", "quality_changes"); ("quality_type", quality_type);
              ("setting_version", pretty version)];
  config ← (if is_extruder
            then ConfigParser.set config "metadata" "position" (pretty extruder_position)
            else Ret config);
  config ← match settings with
           | [] => Ret config
           | _ =>
               config ← ConfigParser.setitem config "values" [];
               write_values self config settings
           end;
  Ret (ConfigParser.write config).

(** "Separate global vs extruder settings": (global_only, extruder_only). *)
Definition separate (self : CuraBuilder) (global_settings : pydict) : pydict * pydict :=
  fold_left
    (λ acc kv,
       let '(global_only, extruder_only) := acc in
       let '(key, value) := kv in
       match loaded_metadata self with
       | Some m =>
           if truthy (is_per_extruder m key)
           then (global_only, dict_set extruder_only key value)
           else (dict_set global_only key value, extruder_only)
       | None => (dict_set global_only key value, extruder_only)
       end)
    global_settings ([], []).

(** [merged_extruder]: extruder 0 starts from a copy of [extruder_only] and
    every position of [extruder_settings] is updated with the caller's
    settings. *)
Definition merge_extruder (extruder_only : pydict)
    (extruder_settings : option (list (Z * pydict))) : list (Z * pydict) :=
  fold_left
    (λ merged_extruder ps,
       let '(pos, settings) := ps in
       let current := match idict_get merged_extruder pos with
                      | Some d => d
                      | None => []
                      end in
       idict_set merged_extruder pos (dict_update current settings))
    (match extruder_settings with Some es => es | None => [] end)
    [(0, extruder_only)].

(** The per-extruder groups that get a file: none at all when there is
    neither a per-extruder setting nor a caller's map, and no empty group. *)
Definition extruder_groups (extruder_only : pydict)
    (extruder_settings : option (list (Z * pydict))) : list (Z * pydict) :=
  match extruder_only, extruder_settings with
  | [], None | [], Some [] => []
  | _, _ =>
      List.filter (λ ps, match ps.2 with [] => false | _ => true end)
                  (merge_extruder extruder_only extruder_settings)
  end.

Fixpoint extruder_files (self : CuraBuilder) (profile_name definition quality_type : string)
    (groups : list (Z * pydict)) : result (list (Z * string)) :=
  match groups with
  | [] => Ret []
  | (pos, settings) :: rest =>
      cfg ← generate_inst_cfg self profile_name definition quality_type settings true pos;
      files ← extruder_files self profile_name definition quality_type rest;
      Ret ((pos, cfg) :: files)
  end.

(** [build_curaprofile] up to the texts of the archive members; logging
    the warnings and packing the texts into the ZIP file are input/output
    and not part of the model. *)
Definition build_curaprofile (self : CuraBuilder)
    (profile_name definition quality_type : string) (global_settings : pydict)
    (extruder_settings : option (list (Z * pydict))) : result build :=
  if (match available_definitions self with [] => false | _ => true end
      && negb (validate_definition self definition))%bool
  then Ret (BuildFailed ("Unknown definition: " +:+ definition +:+ ". Examples: "
                          +:+ str_list_repr (take 10 (available_definitions self)) +:+ "..."))
  else
  r ← validate_settings self global_settings;
  let '(valid, errors, warnings) := r in
  if negb valid
  then Ret (BuildFailed ("Validation errors:" +:+ String NL ""
                          +:+ String.concat (String NL "") errors))
  else
  let '(global_only, extruder_only) := separate self global_settings in
  global_cfg ← generate_inst_cfg self profile_name definition quality_type global_only false 0;
  extruder_cfgs ← extruder_files self profile_name definition quality_type
                    (extruder_groups extruder_only extruder_settings);
  Ret (BuildFiles global_cfg extruder_cfgs).

(** *** build_from_json: collecting the settings *)

(** c[k] for a string key *)
Definition py_getitem (c : pyval) (k : string) : result pyval :=
  match c with
  | PDict d =>
      match dict_get d k with
      | Some v => Ret v
      | None => Raise (KeyError k)
      end
  | PStr _ => Raise (TypeError "string indices must be integers, not 'str'")
  | PList _ | PTuple _ =>
      Raise (TypeError (type_name c +:+ " indices must be integers or slices, not str"))
  | _ => Raise (TypeError ("'" +:+ type_name c +:+ "' object is not subscriptable"))
  end.

(** c.items() *)
Definition py_items (c : pyval) : result pydict :=
  match c with
  | PDict d => Ret d
  | _ => Raise (AttributeError ("'" +:+ type_name c +:+ "' object has no attribute 'items'"))
  end.

(** One turn of the loop over [data["_key_settings"]]. *)
Definition key_settings_step (settings : pydict) (key : string) (info : pyval) : pydict :=
  match info with
  | PDict d =>
      let val := get d "value" in
      if is_none val then settings else dict_set settings key val
  | _ => dict_set settings key info
  end.

(** One turn of the loop over [data["machine"]["effective_settings"]]. *)
Definition effective_settings_step (settings : pydict) (key : string) (info : pyval)
  : result pydict :=
  if dict_mem settings key then Ret settings
  else
    effective_value ← py_get info "effective_value";
    value ← (if truthy effective_value then Ret effective_value
             else
               value ← py_get info "value";
               if truthy value then Ret value else py_get info "default_value");
    if is_none value then Ret settings else Ret (dict_set settings key value).

Fixpoint effective_settings_loop (settings : pydict) (items : pydict) : result pydict :=
  match items with
  | [] => Ret settings
  | (key, info) :: rest =>
      settings ← effective_settings_step settings key info;
      effective_settings_loop settings rest
  end.

(** The settings [build_from_json] collects from the parsed extraction
    document [data] (a JSON object) before it calls [build_curaprofile]. *)
Definition build_from_json_settings (data : pydict) (setting_filter : option (list string))
  : result pydict :=
  settings ← (match dict_get data "_key_settings" with
              | Some ks =>
                  items ← py_items ks;
                  Ret (fold_left (λ s kv, key_settings_step s kv.1 kv.2) items [])
              | None => Ret []
              end);
  settings ← (match dict_get data "machine" with
              | Some machine =>
                  has ← py_in (PStr "effective_settings") machine;
                  if has : bool then
                    es ← py_getitem machine "effective_settings";
                    items ← py_items es;
                    effective_settings_loop settings items
                  else Ret settings
              | None => Ret settings
              end);
  match setting_filter with
  | Some ((_ :: _) as names) =>
      Ret (List.filter (λ kv, existsb (String.eqb kv.1) names) settings)
  | _ => Ret settings
  end.

End Builder.

(** ** A decimal instance of the builtins

    Used by the examples: integers and decimal fractions are read and
    printed exactly, as CPython does for short literals such as [0.05] or
    [150] (the double nearest to such a fraction compares with the bounds
    of the examples as the fraction does); a string prints between single
    quotes.  The literals of the examples carry no blank, underscore,
    exponent, quote or backslash, on which CPython does more; their floats
    are decimal fractions (another value prints as a quotient here) and
    their options are dicts. *)

Module Decimal.

Definition digit_of (c : ascii) : option Z :=
  let n := nat_of_ascii c in
  if (Nat.leb 48 n && Nat.leb n 57)%bool then Some (Z.of_nat (n - 48)) else None.

Fixpoint digits (s : string) (acc : Z) : option Z :=
  match s with
  | EmptyString => Some acc
  | String c rest => d ← digit_of c; digits rest (10 * acc + d)
  end.

Definition unsigned (s : string) : option Z :=
  match s with
  | EmptyString => None
  | _ => digits s 0
  end.

(** Splits a literal into its sign and the rest. *)
Definition signed (s : string) : bool * string :=
  match s with
  | String "-" rest => (true, rest)
  | String "+" rest => (false, rest)
  | _ => (false, s)
  end.

Definition parse_int (s : string) : option Z :=
  let '(neg, body) := signed s in
  z ← unsigned body; Some (if neg : bool then - z else z).

(** The text before and after the first dot, if there is a dot. *)
Fixpoint split_dot (s : string) : string * option string :=
  match s with
  | EmptyString => (EmptyString, None)
  | String "." rest => (EmptyString, Some rest)
  | String c rest => let '(a, b) := split_dot rest in (String c a, b)
  end.

Definition parse_float (s : string) : option pyfloat :=
  let '(neg, body) := signed s in
  if String.eqb (lower body) "nan" then Some FNan
  else if (String.eqb (lower body) "inf" || String.eqb (lower body) "infinity")%bool
  then Some (FInf neg)
  else
    match split_dot body with
    | (whole, None) =>
        z ← unsigned whole;
        Some (if (neg && Z.eqb z 0)%bool then FNegZero
              else FFin (inject_Z (if neg then - z else z)))
    | (whole, Some frac) =>
        match whole, frac with
        | EmptyString, EmptyString => None
        | _, _ =>
            a ← digits whole 0;
            b ← digits frac 0;
            let scale := 10 ^ Z.of_nat (String.length frac) in
            let n := a * scale + b in
            Some (if (neg && Z.eqb n 0)%bool then FNegZero
                  else FFin (Qred (Qmake (if neg then - n else n) (Z.to_pos scale))))
        end
    end.

(** The least k up to [fuel] with 10^k a multiple of d. *)
Fixpoint decimal_places (fuel : nat) (k : Z) (d : Z) : option Z :=
  if Z.eqb ((10 ^ k) mod d) 0 then Some k
  else match fuel with
       | O => None
       | S fuel => decimal_places fuel (k + 1) d
       end.

Fixpoint pad_zeros (n : nat) (s : string) : string :=
  match n with
  | O => s
  | S n => if Nat.ltb (String.length s) (S n) then pad_zeros n ("0" +:+ s) else s
  end.

Definition print_float (f : pyfloat) : string :=
  match f with
  | FNan => "nan"
  | FInf true => "-inf"
  | FInf false => "inf"
  | FNegZero => "-0.0"
  | FFin q =>
      let d := Zpos (Qden q) in
      match decimal_places 30 0 d with
      | None => pretty (Qnum q) +:+ "/" +:+ pretty d
      | Some k =>
          let scaled := Z.abs (Qnum q) * (10 ^ k / d) in
          let sign := if Z.ltb (Qnum q) 0 then "-" else "" in
          let frac := if Z.eqb k 0 then "0"
                      else pad_zeros (Z.to_nat k) (pretty (scaled mod 10 ^ k)) in
          sign +:+ pretty (scaled / 10 ^ k) +:+ "." +:+ frac
      end
  end.

Definition quote (s : string) : string := "'" +:+ s +:+ "'".

Definition not_iterable (x c : pyval) : result bool :=
  Raise (TypeError ("argument of type '" +:+ type_name c +:+ "' is not iterable")).

#[global] Instance builtins : Builtins := {|
  int_of_str := parse_int;
  float_of_str := parse_float;
  float_repr := print_float;
  str_repr := quote;
  contains_other := not_iterable;
|}.

End Decimal.

(** ** Example schema *)

Definition layer_height_info : pydict :=
  [("type", PStr "float"); ("minimum_value", PFloat (FFin (1 # 100)));
   ("maximum_value", PFloat (FFin 1)); ("settable_per_extruder", PBool false)].

Definition cool_fan_speed_info : pydict :=
  [("type", PStr "int"); ("minimum_value", PInt 0); ("maximum_value", PInt 100);
   ("maximum_value_warning", PInt 100); ("settable_per_extruder", PBool true)].

Definition retraction_amount_info : pydict :=
  [("type", PStr "float"); ("minimum_value", PInt 0); ("maximum_value", PInt 20);
   ("minimum_value_warning", PFloat (FFin (1 # 2)));
   ("maximum_value_warning", PInt 10); ("settable_per_extruder", PBool true)].

Definition adhesion_type_info : pydict :=
  [("type", PStr "enum");
   ("options", PDict [("skirt", PStr "Skirt"); ("brim", PStr "Brim"); ("raft", PStr "Raft")])].

Definition retraction_enable_info : pydict :=
  [("type", PStr "bool"); ("settable_per_extruder", PBool true)].

Definition example_metadata : SettingMetadata := {|
  settings :=
    <["layer_height" := layer_height_info]>
    (<["cool_fan_speed" := cool_fan_speed_info]>
    (<["retraction_amount" := retraction_amount_info]>
    (<["adhesion_type" := adhesion_type_info]>
    (<["retraction_enable" := retraction_enable_info]> ∅))));
  loaded := true;
|}.

Definition example_builder : CuraBuilder := {|
  metadata := Some example_metadata;
  setting_version := Some 23;
  available_definitions := [];
|}.

Definition example_batch : pydict :=
  [("layer_height", PFloat (FFin (28 # 100))); ("cool_fan_speed", PInt 100);
   ("my_custom_flag", PStr "on"); ("retraction_amount", PFloat (FFin (8 # 10)))].


Definition example_effective_info : pydict :=
  [("effective_value", PInt 0); ("value", PStr ""); ("default_value", PInt 60)].

(** A batch with an error and a warning, and its verdicts. *)
Definition example_checked_batch : pydict :=
  [("cool_fan_speed", PInt 150); ("retraction_amount", PFloat (FFin (3 # 10)));
   ("layer_height", PFloat (FFin (2 # 10)))].

Definition example_verdicts : list (bool * string) :=
  [(false, "Value 150 above maximum 100"); (true, "Value 0.3 below recommended 0.5");
   (true, "")].

(** A builder whose metadata were not loaded. *)
Definition example_bare_builder : CuraBuilder := {|
  metadata := None;
  setting_version := None;
  available_definitions := ["creality_ender3pro"];
|}.

(** A schema with a text setting, and one whose minimum is a formula. *)
Definition example_gcode_metadata : SettingMetadata := {|
  settings := <["machine_start_gcode" := [("type", PStr "str")]]> ∅;
  loaded := true;
|}.

Definition example_formula_info : pydict :=
  [("type", PStr "float"); ("minimum_value", PStr "0.001")].

Definition example_formula_metadata : SettingMetadata := {|
  settings := <["layer_height" := example_formula_info]> ∅;
  loaded := true;
|}.

(** An extraction document. *)
Definition example_extraction : pydict :=
  [("_key_settings",
    PDict [("layer_height", PDict [("value", PFloat (FFin (2 # 10)))]);
           ("adhesion_type", PStr "brim")]);
   ("machine",
    PDict [("effective_settings",
            PDict [("layer_height", PDict [("effective_value", PFloat (FFin (3 # 10)))]);
                   ("material_bed_temperature", PDict example_effective_info)])])].

(** A definition document: a category, a setting in it that has a setting
    below it, and two overrides. *)
Definition example_layer_height_0 : pydict :=
  [("type", PStr "float"); ("default_value", PFloat (FFin (3 # 10)));
   ("minimum_value", PFloat (FFin (1 # 1000)))].

Definition example_layer_height : pydict :=
  [("label", PStr "Layer Height"); ("type", PStr "float");
   ("default_value", PFloat (FFin (1 # 10))); ("comments", PStr "not a listed property");
   ("children", PDict [("layer_height_0", PDict example_layer_height_0)])].

Definition example_resolution : pydict :=
  [("label", PStr "Quality"); ("type", PStr "category");
   ("children", PDict [("layer_height", PDict example_layer_height)])].

Definition example_overrides : pydict :=
  [("layer_height", PDict [("default_value", PFloat (FFin (2 # 10)))]);
   ("machine_gantry_height", PDict [("default_value", PInt 55)])].

Definition example_document : pydict :=
  [("name", PStr "FDM Printer Base Description");
   ("settings", PDict [("resolution", PDict example_resolution)]);
   ("overrides", PDict example_overrides)].

(** The index of the settings of the example document. *)
Definition example_index : list (string * pydict) :=
  [("layer_height_0",
    [("_category", PStr "resolution"); ("default_value", PFloat (FFin (3 # 10)));
     ("type", PStr "float"); ("minimum_value", PFloat (FFin (1 # 1000)))]);
   ("layer_height",
    [("_category", PStr "resolution"); ("default_value", PFloat (FFin (1 # 10)));
     ("type", PStr "float"); ("label", PStr "Layer Height")])].

(** [d.update(other)] for the examples, whose overrides are objects: what
    the interpreter does for [other] a number, a boolean or None. *)
Definition not_iterable_update (d : pydict) (other : pyval) : pydict * option pyexn :=
  (d, Some (TypeError ("'" +:+ type_name other +:+ "' object is not iterable"))).

(** ** Notions used in the statements *)

(** The test of the separation loop of [build_curaprofile]:
    [self.metadata and self.metadata.loaded and
     self.metadata.is_per_extruder(key)]. *)
Definition routed_to_extruder `{Builtins} (self : CuraBuilder) (key : string) : bool :=
  match loaded_metadata self with
  | Some m => truthy (is_per_extruder m key)
  | None => false
  end.

(** The per-extruder group of position [pos], looked up at [key]. *)
Definition group_get (groups : list (Z * pydict)) (pos : Z) (key : string) : option pyval :=
  match idict_get groups pos with
  | Some group => dict_get group key
  | None => None
  end.

(** Two strings equal up to the case of their ASCII letters. *)
Fixpoint eq_nocase (s t : string) : bool :=
  match s, t with
  | EmptyString, EmptyString => true
  | String a s', String b t' =>
      (Ascii.eqb (lower_ascii a) (lower_ascii b) && eq_nocase s' t')%bool
  | _, _ => false
  end.

Definition is_true_word (s : string) : bool :=
  (eq_nocase s "true" || eq_nocase s "1" || eq_nocase s "yes")%bool.

(** The coercion to bool as the specification words it: a native boolean
    as it is, one of the three words true, everything else false. *)
Definition bool_coercion_spec (v : pyval) : bool :=
  match v with
  | PBool b => b
  | PStr s => is_true_word s
  | _ => false
  end.

(** The coercion to bool of the code: what is neither a boolean nor a
    string goes by its truth value. *)
Definition bool_coercion (v : pyval) : bool :=
  match v with
  | PBool b => b
  | PStr s => is_true_word s
  | _ => truthy v
  end.

(** [t] occurs in [s]. *)
Definition occurs_in (t s : string) : Prop := ∃ a b, s = a +:+ t +:+ b.




(** A bound the range check can use: absent (None) or a number. *)
Definition bound_ok (b : pyval) : Prop := b = PNone ∨ is_Some (as_num b).

(** The schema type of the record is "int" or "float". *)
Definition numeric_type (info : pydict) : Prop :=
  get_or info "type" (PStr "unknown") = PStr "int"
  ∨ get_or info "type" (PStr "unknown") = PStr "float".

(** A decision procedure for [occurs_in]. *)
Fixpoint occursb (t s : string) : bool :=
  (String.prefix t s
   || match s with
      | EmptyString => false
      | String _ s' => occursb t s'
      end)%bool.

(** The candidate is one of the options (the keys of the options dict). *)
Definition in_options (d : pydict) (v : pyval) : bool :=
  match v with PStr s => dict_mem d s | _ => false end.

Definition invalid_option_message `{Builtins} (v : pyval) (d : pydict) : string :=
  "Invalid option '" +:+ py_str v +:+ "'. Valid: " +:+ str_list_repr (dict_keys d).

Definition unhashable_message (v : pyval) : string :=
  "Type conversion failed: unhashable type: '" +:+ type_name v +:+ "'".

(** [c < b] and [c > b] as the range check needs them: false when a side
    is not a number. *)
Definition below (c b : pyval) : bool :=
  match as_num c, as_num b with
  | Some x, Some y => xreal_ltb x y
  | _, _ => false
  end.

Definition above (c b : pyval) : bool :=
  match as_num c, as_num b with
  | Some x, Some y => xreal_ltb y x
  | _, _ => false
  end.

Section Messages.
Context `{Builtins}.



Definition below_recommended_message (c min_warn : pyval) : string :=
  "Value " +:+ py_str c +:+ " below recommended " +:+ py_str min_warn.

Definition above_recommended_message (c max_warn : pyval) : string :=
  "Value " +:+ py_str c +:+ " above recommended " +:+ py_str max_warn.

Definition both_recommended_message (c min_warn max_warn : pyval) : string :=
  "Value " +:+ py_str c +:+ " below recommended " +:+ py_str min_warn
  +:+ ", above recommended " +:+ py_str max_warn.

(** The advisory of a value inside the hard bounds: the soft bounds it
    crosses, the minimum first, or nothing. *)
Definition advisory (c min_warn max_warn : pyval) : string :=
  match below c min_warn, above c max_warn with
  | false, false => ""
  | true, false => below_recommended_message c min_warn
  | false, true => above_recommended_message c max_warn
  | true, true => both_recommended_message c min_warn max_warn
  end.

End Messages.

(** What the type check leaves in [value] for a raw value it lets
    through, by schema type: an int for "int"; for "float" the raw int
    untouched or else a float; for "bool" the coerced boolean; the raw
    value itself for any other type. *)
Definition coerced_as (setting_type raw c : pyval) : Prop :=
  if eq_str setting_type "int" then ∃ z, c = PInt z
  else if eq_str setting_type "float" then
    (∃ z, raw = PInt z ∧ c = PInt z) ∨ (∃ f, c = PFloat f)
  else if eq_str setting_type "bool" then c = PBool (bool_coercion raw)
  else c = raw.

(** The tuple object a [return flag, message] statement builds. *)
Definition returned_tuple (r : bool * string) : pyval :=
  PTuple [PBool r.1; PStr r.2].

(** The options of the [values] section after the loop of
    [generate_inst_cfg]: each key is set under its lower-cased name. *)
Definition values_options `{Builtins} (self : CuraBuilder) (settings : pydict)
  : ConfigParser.section :=
  fold_left
    (λ options kv,
       dict_set options (ConfigParser.optionxform kv.1) (formatted self kv.1 kv.2))
    settings [].


(** The three sections of an [.inst.cfg] file, given its [values]. *)
Definition inst_cfg_sections (self : CuraBuilder)
    (profile_name definition quality_type : string) (values : ConfigParser.section)
    (is_extruder : bool) (extruder_position : Z) : ConfigParser.t :=
  [("general",
    [("version", "4"); ("name", profile_name); ("definition", definition)]);
   ("metadata",
    [("type", "quality_changes"); ("quality_type", quality_type);
     ("setting_version",
      pretty (match setting_version self with
              | Some v => if Z.eqb v 0 then 23 else v
              | None => 23
              end))]
    ++ (if is_extruder then [("position", pretty extruder_position)] else []))]
  ++ match values with
     | [] => []
     | _ => [("values", values)]
     end.

(** [c in s] for a character *)
Fixpoint char_in (c : ascii) (s : string) : bool :=
  match s with
  | EmptyString => false
  | String x rest => (Ascii.eqb x c || char_in c rest)%bool
  end.

(** ** Preset templates *)

(** The floats of the tables are the doubles the literals denote. *)
Definition double_0_8 : Q := 3602879701896397 # 4503599627370496.
Definition double_0_28 : Q := 1261007895663739 # 4503599627370496.
Definition double_0_2 : Q := 3602879701896397 # 18014398509481984.
Definition double_0_12 : Q := 1080863910568919 # 9007199254740992.
Definition double_0_08 : Q := 5764607523034235 # 72057594037927936.
Definition double_0_16 : Q := 5764607523034235 # 36028797018963968.

(** A preset: its description and its settings. *)
Abbreviation preset := (string * pydict)%type.

Definition material_settings (temperature bed speed : Z) (retraction : Q)
    (retraction_speed fan : Z) : pydict :=
  [("material_print_temperature", PInt temperature);
   ("material_bed_temperature", PInt bed);
   ("speed_print", PInt speed);
   ("retraction_amount", PFloat (FFin retraction));
   ("retraction_speed", PInt retraction_speed);
   ("cool_fan_speed", PInt fan)].

Definition MATERIAL_PRESETS : list (string * preset) :=
  [("PLA", ("Standard PLA - good all-around starter settings",
            material_settings 200 60 50 double_0_8 45 100));
   ("PETG", ("PETG - higher temps, slower speeds, less cooling",
             material_settings 240 80 40 1 35 50));
   ("ABS", ("ABS - high temps, minimal cooling, enclosure recommended",
            material_settings 240 100 50 double_0_8 45 0));
   ("TPU", ("TPU/Flexible - slow and careful, direct drive recommended",
            material_settings 230 60 25 2 25 100));
   ("ASA", ("ASA - like ABS but better UV resistance",
            material_settings 260 100 50 double_0_8 45 30))].

Definition quality_settings (layer_height layer_height_0 : Q) : pydict :=
  [("layer_height", PFloat (FFin layer_height));
   ("layer_height_0", PFloat (FFin layer_height_0))].

Definition QUALITY_PRESETS : list (string * preset) :=
  [("draft", ("Fast draft - 0.28mm layers, quick prints",
              quality_settings double_0_28 double_0_28));
   ("normal", ("Standard quality - 0.2mm layers, balanced",
               quality_settings double_0_2 double_0_2));
   ("fine", ("Fine quality - 0.12mm layers, detailed prints",
             quality_settings double_0_12 double_0_2));
   ("ultra", ("Ultra fine - 0.08mm layers, maximum detail",
              quality_settings double_0_08 double_0_16))].

Definition upper_ascii (c : ascii) : ascii :=
  let n := nat_of_ascii c in
  if (Nat.leb 97 n && Nat.leb n 122)%bool then ascii_of_nat (n - 32) else c.

(** The characters of two bytes whose upper case is made of ASCII
    letters: U+00DF (sharp s), U+0131 (dotless i) and U+017F (long s). *)
Definition upper_two_bytes (b1 b2 : nat) : option string :=
  if (Nat.eqb b1 195 && Nat.eqb b2 159)%bool then Some "SS"
  else if (Nat.eqb b1 196 && Nat.eqb b2 177)%bool then Some "I"
  else if (Nat.eqb b1 197 && Nat.eqb b2 191)%bool then Some "S"
  else None.

(** Those of three bytes: the ligatures U+FB00 to U+FB06. *)
Definition upper_three_bytes (b1 b2 b3 : nat) : option string :=
  if (Nat.eqb b1 239 && Nat.eqb b2 172)%bool then
    if Nat.eqb b3 128 then Some "FF"
    else if Nat.eqb b3 129 then Some "FI"
    else if Nat.eqb b3 130 then Some "FL"
    else if Nat.eqb b3 131 then Some "FFI"
    else if Nat.eqb b3 132 then Some "FFL"
    else if (Nat.eqb b3 133 || Nat.eqb b3 134)%bool then Some "ST"
    else None
  else None.

(** s.upper(), as far as its result is ASCII text: on the ASCII letters and
    on the ten characters above.  The upper case of any other character has
    a character that is not ASCII; such a character is left as it is, which
    is all the same to the comparison with the names of the materials. *)
Fixpoint upper (s : string) : string :=
  match s with
  | EmptyString => EmptyString
  | String a r1 =>
      match r1 with
      | String b r2 =>
          match upper_two_bytes (nat_of_ascii a) (nat_of_ascii b) with
          | Some text => text +:+ upper r2
          | None =>
              match r2 with
              | String c r3 =>
                  match upper_three_bytes (nat_of_ascii a) (nat_of_ascii b)
                                          (nat_of_ascii c) with
                  | Some text => text +:+ upper r3
                  | None => String (upper_ascii a) (upper r1)
                  end
              | EmptyString => String (upper_ascii a) (upper r1)
              end
          end
      | EmptyString => String (upper_ascii a) EmptyString
      end
  end.

(** The merge of [build_from_preset]: quality first, then material, then
    the custom overrides when there are some. *)
Definition merged_preset_settings (quality material : pydict)
    (custom_overrides : option pydict) : pydict :=
  let settings := dict_update [] quality in
  let settings := dict_update settings material in
  match custom_overrides with
  | Some ((_ :: _) as overrides) => dict_update settings overrides
  | _ => settings
  end.

Section Presets.
Context `{Builtins}.

Definition build_from_preset (self : CuraBuilder) (profile_name definition : string)
    (material_preset quality_preset : string) (custom_overrides : option pydict)
  : result build :=
  let material_upper := upper material_preset in
  let quality_lower := lower quality_preset in
  match dict_get MATERIAL_PRESETS material_upper with
  | None =>
      Ret (BuildFailed ("Unknown material: " +:+ material_preset +:+ ". Available: "
                        +:+ str_list_repr (dict_keys MATERIAL_PRESETS)))
  | Some material =>
      match dict_get QUALITY_PRESETS quality_lower with
      | None =>
          Ret (BuildFailed ("Unknown quality: " +:+ quality_preset +:+ ". Available: "
                            +:+ str_list_repr (dict_keys QUALITY_PRESETS)))
      | Some quality =>
          build_curaprofile self profile_name definition quality_lower
            (merged_preset_settings quality.2 material.2 custom_overrides) None
      end
  end.

End Presets.

(** ** The --settings argument of the command line *)

(** s.split(c) for a one-character separator *)
Fixpoint split_char (c : ascii) (s : string) : list string :=
  match s with
  | EmptyString => [EmptyString]
  | String x rest =>
      if Ascii.eqb x c then EmptyString :: split_char c rest
      else match split_char c rest with
           | first :: others => String x first :: others
           | [] => [String x EmptyString]
           end
  end.

(** s.split(c, 1) when [c in s]: the text before the first [c] and the
    text after it; None when [c] is not in [s]. *)
Fixpoint split_once (c : ascii) (s : string) : option (string * string) :=
  match s with
  | EmptyString => None
  | String x rest =>
      if Ascii.eqb x c then Some (EmptyString, rest)
      else match split_once c rest with
           | Some (before, after) => Some (String x before, after)
           | None => None
           end
  end.

(** The white space of [str.strip]: the ASCII blanks and controls 9 to 13
    and 28 to 31, and the characters U+0085, U+00A0, U+1680, U+2000 to
    U+200A, U+2028, U+2029, U+202F, U+205F and U+3000 in UTF-8. *)
Definition ascii_space (n : nat) : bool :=
  ((Nat.leb 9 n && Nat.leb n 13) || (Nat.leb 28 n && Nat.leb n 31) || Nat.eqb n 32)%bool.

Definition space_bytes (b1 b2 b3 : nat) : bool :=
  ((Nat.eqb b1 225 && Nat.eqb b2 154 && Nat.eqb b3 128)
   || (Nat.eqb b1 226 && Nat.eqb b2 128
       && ((Nat.leb 128 b3 && Nat.leb b3 138) || Nat.eqb b3 168 || Nat.eqb b3 169
           || Nat.eqb b3 175))
   || (Nat.eqb b1 226 && Nat.eqb b2 129 && Nat.eqb b3 159)
   || (Nat.eqb b1 227 && Nat.eqb b2 128 && Nat.eqb b3 128))%bool.

(** The text without its first character when that one is white space. *)
Definition drop_space (s : string) : option string :=
  match s with
  | String a r1 =>
      if ascii_space (nat_of_ascii a) then Some r1
      else match r1 with
           | String b r2 =>
               if (Nat.eqb (nat_of_ascii a) 194
                   && (Nat.eqb (nat_of_ascii b) 133 || Nat.eqb (nat_of_ascii b) 160))%bool
               then Some r2
               else match r2 with
                    | String c r3 =>
                        if space_bytes (nat_of_ascii a) (nat_of_ascii b) (nat_of_ascii c)
                        then Some r3 else None
                    | EmptyString => None
                    end
           | EmptyString => None
           end
  | EmptyString => None
  end.

(** The same from the end, on the reversed text. *)
Definition drop_space_rev (s : string) : option string :=
  match s with
  | String a r1 =>
      if ascii_space (nat_of_ascii a) then Some r1
      else match r1 with
           | String b r2 =>
               if (Nat.eqb (nat_of_ascii b) 194
                   && (Nat.eqb (nat_of_ascii a) 133 || Nat.eqb (nat_of_ascii a) 160))%bool
               then Some r2
               else match r2 with
                    | String c r3 =>
                        if space_bytes (nat_of_ascii c) (nat_of_ascii b) (nat_of_ascii a)
                        then Some r3 else None
                    | EmptyString => None
                    end
           | EmptyString => None
           end
  | EmptyString => None
  end.

(** At most [n] droppings; the length of the text is enough of them. *)
Fixpoint drop_spaces (drop : string → option string) (n : nat) (s : string) : string :=
  match n with
  | O => s
  | S n => match drop s with
           | Some rest => drop_spaces drop n rest
           | None => s
           end
  end.

Definition lstrip (s : string) : string := drop_spaces drop_space (String.length s) s.

Definition rstrip (s : string) : string :=
  String.rev (drop_spaces drop_space_rev (String.length s) (String.rev s)).

(** s.strip() *)
Definition strip (s : string) : string := rstrip (lstrip s).

Section ManualSettings.
Context `{Builtins}.

(** The typing of one value: the [try] block of the loop.  [float] and
    [int] of a string raise nothing but ValueError, which keeps the
    string. *)
Definition sniff_value (value : string) : pyval :=
  if (String.eqb (lower value) "true" || String.eqb (lower value) "false")%bool
  then PBool (String.eqb (lower value) "true")
  else if char_in "." value then
    match float_of_str value with
    | Some f => PFloat f
    | None => PStr value
    end
  else
    match int_of_str value with
    | Some z => PInt z
    | None => PStr value
    end.

(** One turn of the loop of [run_cli] over [args.settings.split(",")]. *)
Definition settings_item (settings : pydict) (item : string) : pydict :=
  match split_once "=" item with
  | Some (key, value) => dict_set settings (strip key) (sniff_value value)
  | None => settings
  end.

(** The settings [run_cli] reads from the --settings argument. *)
Definition parse_settings (arg : string) : pydict :=
  fold_left settings_item (split_char "," arg) [].

End ManualSettings.

(** ** The discovery of the machine definitions *)

(** name.rfind(c): the last position of [c] in [name], None for -1 *)
Fixpoint rfind (c : ascii) (name : string) : option nat :=
  match name with
  | EmptyString => None
  | String x rest =>
      match rfind c rest with
      | Some i => Some (S i)
      | None => if Ascii.eqb x c then Some O else None
      end
  end.

(** [PurePath.stem] of a file name: the name without its last suffix,
    where a suffix starts at a dot that is neither the first nor the last
    character of the name. *)
Definition stem (name : string) : string :=
  match rfind "." name with
  | Some i =>
      if (Nat.ltb 0 i && Nat.ltb i (String.length name - 1))%bool
      then String.substring 0 i name
      else name
  | None => name
  end.

Fixpoint insert_sorted (x : string) (l : list string) : list string :=
  match l with
  | [] => [x]
  | y :: rest => if String.leb x y then x :: l else y :: insert_sorted x rest
  end.

(** sorted(l) for a list of strings: the list in the order of the code
    points, which is the order of the bytes of UTF-8. *)
Definition sorted (l : list string) : list string := fold_right insert_sorted [] l.

(** [_discover_definitions].  [install_path] is None when the builder has
    no install path; [definition_files] is None when the definitions
    directory does not exist, and else the names of the files that
    [glob("*.def.json")] finds there, in the order it yields them. *)
Definition _discover_definitions (install_path : option string)
    (definition_files : option (list string)) : list string :=
  match install_path with
  | None => []
  | Some _ =>
      sorted
        (match definition_files with
         | Some files =>
             List.filter
               (λ name, negb (String.eqb name "fdmprinter" || String.eqb name "fdmextruder"))
               (map stem files)
         | None => []
         end)
  end.

(** [s] ends with [suffix]. *)
Fixpoint has_suffix (suffix s : string) : bool :=
  (String.eqb s suffix
   || match s with
      | String _ rest => has_suffix suffix rest
      | EmptyString => false
      end)%bool.

(** ** The schema index: extract_settings_from_def and SettingMetadata.load *)

(** The properties [recurse] copies from a node, in the order of its
    list. *)
Definition extracted_props : list string :=
  ["default_value"; "value"; "type"; "description"; "unit";
   "minimum_value"; "maximum_value"; "minimum_value_warning";
   "maximum_value_warning"; "enabled"; "settable_per_mesh";
   "settable_per_extruder"; "settable_globally"; "options"; "label"].

(** The flat index under construction: setting key to its record. *)
Abbreviation schema := (list (string * pydict)).

(** [body] on the value under [k], [missing] when there is none: [d[k]]
    followed by [body], by a walk along the dict. *)
Definition at_key {A} (k : string) (body : pyval → A) (missing : A) : pydict → A :=
  fix find (d : pydict) : A :=
    match d with
    | [] => missing
    | (k', v) :: rest => if String.eqb k' k then body v else find rest
    end.

(** for key, value in items: body, the state going from turn to turn *)
Definition for_items {S} (body : string → pyval → S → result S) : pydict → S → result S :=
  fix loop (items : pydict) (s : S) : result S :=
    match items with
    | [] => Ret s
    | (key, value) :: rest => s ← body key value s; loop rest s
    end.

(** str(e) of a caught exception *)
Definition exn_str `{Builtins} (e : pyexn) : string :=
  match e with
  | KeyError k => str_repr k
  | ValueError msg | TypeError msg | OverflowError msg | AttributeError msg
  | ConfigError msg => msg
  end.

(** What a file holds for [parse_def_json]: nothing, something that
    [open] or [json.load] refuses (with the text of the exception), or a
    JSON document. *)
Inductive def_file : Type :=
| NotFound
| Unreadable (message : string)
| Parsed (data : pyval).

(** The type of the value hashing fails on, if it fails. *)
Fixpoint unhashable (v : pyval) : option string :=
  match v with
  | PList _ => Some "list"
  | PDict _ => Some "dict"
  | PTuple l =>
      (fix first (l : list pyval) : option string :=
         match l with
         | [] => None
         | x :: rest => match unhashable x with Some t => Some t | None => first rest end
         end) l
  | _ => None
  end.

(** Two hashable values are the same dict key: equal numbers, whatever
    their types, equal strings, None and None, tuples of such.  Every NaN of
    a JSON document is the one object of the decoder, which a dict finds by
    identity. *)
Fixpoint key_eqb (a b : pyval) : bool :=
  match a, b with
  | PNone, PNone => true
  | PStr s, PStr t => String.eqb s t
  | PTuple l, PTuple m =>
      (fix all (l m : list pyval) : bool :=
         match l, m with
         | [], [] => true
         | x :: l, y :: m => (key_eqb x y && all l m)%bool
         | _, _ => false
         end) l m
  | PFloat FNan, PFloat FNan => true
  | _, _ =>
      match as_num a, as_num b with
      | Some x, Some y => xreal_eqb x y
      | _, _ => false
      end
  end.

(** [self.categories]: category to the keys of its settings. *)
Abbreviation categories := (list (pyval * list string)).

Fixpoint categories_get (cats : categories) (category : pyval) : option (list string) :=
  match cats with
  | [] => None
  | (c, keys) :: rest => if key_eqb c category then Some keys else categories_get rest category
  end.

Fixpoint categories_set (cats : categories) (category : pyval) (keys : list string)
  : categories :=
  match cats with
  | [] => [(category, keys)]
  | (c, keys') :: rest =>
      if key_eqb c category then (c, keys) :: rest
      else (c, keys') :: categories_set rest category keys
  end.

(** The loop of [load] that builds the category index. *)
Fixpoint categories_loop (items : schema) (cats : categories) : result categories :=
  match items with
  | [] => Ret cats
  | (key, info) :: rest =>
      let category := get_or info "_category" (PStr "other") in
      match unhashable category with
      | Some t => Raise (TypeError ("unhashable type: '" +:+ t +:+ "'"))
      | None =>
          let cats := match categories_get cats category with
                      | Some _ => cats
                      | None => categories_set cats category []
                      end in
          categories_loop rest
            (categories_set cats category
               (default [] (categories_get cats category) ++ [key]))
      end
  end.

Definition get_category (self : SettingMetadata) (setting_key : string) : pyval :=
  match settings self !! setting_key with
  | None => PStr "unknown"
  | Some info => get_or info "_category" (PStr "unknown")
  end.

(** [self.categories.get(category, [])], which hashes the category. *)
Definition get_settings_in_category (cats : categories) (category : pyval)
  : result (list string) :=
  match unhashable category with
  | Some t => Raise (TypeError ("unhashable type: '" +:+ t +:+ "'"))
  | None => Ret (default [] (categories_get cats category))
  end.

Section SchemaIndex.
Context `{Builtins}.

(** [d.update(other)] for [other] that is not a dict: what [d] holds
    afterwards under its string keys and the exception raised, if one is.
    This is the interpreter's; the development is parametric in it. *)
Variable update_other : pydict → pyval → pydict * option pyexn.

(** d.update(other) *)
Definition dict_update_any (d : pydict) (other : pyval) : pydict * option pyexn :=
  match other with
  | PDict o => (dict_update d o, None)
  | _ => update_other d other
  end.

(** "type" in node and node["type"] == "category" *)
Definition type_is_category (node : pyval) : result bool :=
  has_type ← py_in (PStr "type") node;
  if has_type : bool
  then type ← py_getitem node "type"; Ret (eq_str type "category")
  else Ret false.

(** "type" in node and node["type"] != "category" *)
Definition type_is_setting (node : pyval) : result bool :=
  has_type ← py_in (PStr "type") node;
  if has_type : bool
  then type ← py_getitem node "type"; Ret (negb (eq_str type "category"))
  else Ret false.

(** The loop over the properties. *)
Fixpoint copy_props (node : pyval) (props : list string) (setting_info : pydict)
  : result pydict :=
  match props with
  | [] => Ret setting_info
  | prop :: rest =>
      has ← py_in (PStr prop) node;
      if has : bool
      then value ← py_getitem node prop;
           copy_props node rest (dict_set setting_info prop value)
      else copy_props node rest setting_info
  end.

(** [recurse], with the [settings] of the enclosing function passed in and
    out.  The recursion is on the node: [node["children"].items()] is
    reached by a walk along the node, see [recurse_children] below for the
    plain reading. *)
Fixpoint recurse (node : pyval) (path category : string) (settings : schema) {struct node}
  : result schema :=
  is_category ← type_is_category node;
  let current_category := if is_category : bool then path else category in
  has_children ← py_in (PStr "children") node;
  settings ←
    (if has_children : bool
     then match node with
          | PDict d =>
              at_key "children"
                (λ children,
                   match children with
                   | PDict items =>
                       for_items (λ key child s, recurse child key current_category s)
                                 items settings
                   | _ => _ ← py_items children; Ret settings
                   end)
                (Raise (KeyError "children")) d
          | _ => _ ← py_getitem node "children"; Ret settings
          end
     else Ret settings);
  is_setting ← type_is_setting node;
  if is_setting : bool
  then
    setting_info ← copy_props node extracted_props [("_category", PStr current_category)];
    match setting_info with
    | [] => Ret settings
    | _ => Ret (dict_set settings path setting_info)
    end
  else Ret settings.

(** One turn of the loop over [def_data["overrides"]]. *)
Definition apply_override (def_data : pydict) (settings : schema) (key : string)
    (override : pyval) : result schema :=
  let settings := if dict_mem settings key then settings else dict_set settings key [] in
  let '(record, raised) := dict_update_any (default [] (dict_get settings key)) override in
  match raised with
  | Some e => Raise e
  | None =>
      Ret (dict_set settings key
             (dict_set record "_source" (get_or def_data "_filename" (PStr "unknown"))))
  end.

(** The first loop of [extract_settings_from_def], over
    [def_data["settings"]]. *)
Definition settings_of_tree (def_data : pydict) : result schema :=
  match dict_get def_data "settings" with
  | Some tree =>
      items ← py_items tree;
      for_items (λ category_key category s, recurse category category_key category_key s)
                items []
  | None => Ret []
  end.

(** Its second loop, over [def_data["overrides"]]. *)
Definition settings_with_overrides (def_data : pydict) (settings : schema) : result schema :=
  match dict_get def_data "overrides" with
  | Some overrides =>
      items ← py_items overrides;
      for_items (λ key override s, apply_override def_data s key override) items settings
  | None => Ret settings
  end.

Definition extract_settings_from_def (def_data : pydict) : result schema :=
  settings ← settings_of_tree def_data;
  settings_with_overrides def_data settings.

(** [parse_def_json] on the file at [filepath], whose last component is
    [filename]. *)
Definition parse_def_json (filepath filename : string) (file : def_file) : pydict :=
  let result := [("_filepath", PStr filepath); ("_filename", PStr filename)] in
  match file with
  | NotFound => dict_set result "_error" (PStr "File not found")
  | Unreadable message => dict_set result "_error" (PStr message)
  | Parsed data =>
      let '(result, raised) := dict_update_any result data in
      match raised with
      | Some e => dict_set result "_error" (PStr (exn_str e))
      | None => result
      end
  end.

(** [load]: the value returned, the metadata and its category index
    afterwards.  [filepath] is the path of fdmprinter.def.json under the
    install path and [file] what is there. *)
Definition load (self : SettingMetadata) (cats : categories) (filepath : string)
    (file : def_file) : result (bool * SettingMetadata * categories) :=
  match file with
  | NotFound => Ret (false, self, cats)
  | _ =>
      let def_data := parse_def_json filepath "fdmprinter.def.json" file in
      if dict_mem def_data "_error" then Ret (false, self, cats)
      else
        extracted ← extract_settings_from_def def_data;
        cats ← categories_loop extracted cats;
        Ret (true, {| settings := list_to_map extracted; loaded := true |}, cats)
  end.

End SchemaIndex.

(** ** Notions for the schema index *)

(** The node is an object whose children, when it has some, are an object
    of such nodes: the shape of the settings of a definition file. *)
Fixpoint setting_tree (node : pyval) : bool :=
  match node with
  | PDict d =>
      at_key "children"
        (λ children,
           match children with
           | PDict items => forallb (λ '(_, child), setting_tree child) items
           | _ => false
           end)
        true d
  | _ => false
  end.

(** The node is an object of type "category". *)
Definition category_node (node : pyval) : bool :=
  match node with
  | PDict d => match dict_get d "type" with Some t => eq_str t "category" | None => false end
  | _ => false
  end.

(** No node below this one is a category. *)
Fixpoint no_category_below (node : pyval) : bool :=
  match node with
  | PDict d =>
      at_key "children"
        (λ children,
           match children with
           | PDict items =>
               forallb (λ '(_, child), negb (category_node child) && no_category_below child)
                       items
           | _ => true
           end)
        true d
  | _ => true
  end.

(** The category in force below a node: its own key when it is a category,
    else the one it was given. *)
Definition category_in_force (node : pyval) (path category : string) : string :=
  if category_node node then path else category.

(** The record of a setting: its category, then those of the listed
    properties that the node has, in the order of the list. *)
Definition record_of (d : pydict) (category : string) : pydict :=
  ("_category", PStr category) :: omap (λ prop, pair prop <$> dict_get d prop) extracted_props.

(** A record as the walk makes them: a category that is a string, a type
    that is not "category", and nothing but listed properties. *)
Definition leaf_record (record : pydict) : Prop :=
  (∃ category, dict_get record "_category" = Some (PStr category))
  ∧ (∃ t, dict_get record "type" = Some t ∧ eq_str t "category" = false)
  ∧ ∀ prop, dict_mem record prop = true → prop = "_category" ∨ prop ∈ extracted_props.

(** What the walk may do to the index: the keys it had stay where they
    are, and a record is the old one or a leaf record, tagged with
    [category] when [tagged] holds. *)
Definition walked (tagged : bool) (category : string) (before after : schema) : Prop :=
  dict_keys before `prefix_of` dict_keys after
  ∧ ∀ key record,
      dict_get after key = Some record →
      dict_get before key = Some record
      ∨ (leaf_record record
         ∧ (tagged = true → dict_get record "_category" = Some (PStr category))).

(** The record of an overridden key: the old record, or an empty one,
    updated with the override and given its source. *)
Definition overridden (old : option pydict) (override : pydict) (source : pyval) : pydict :=
  dict_set (dict_update (default [] old) override) "_source" source.

(** ** Notions for the batch, the build and the formatting *)

(** The overrides [build_from_preset] merges: none when the argument is
    None. *)
Definition overrides_of (custom_overrides : option pydict) : pydict :=
  match custom_overrides with Some overrides => overrides | None => [] end.

(** What an entry of [_key_settings] contributes: the entry itself when it
    is no object, else its "value" unless that is None. *)
Definition curated_value (info : pyval) : option pyval :=
  match info with
  | PDict d => if is_none (get d "value") then None else Some (get d "value")
  | _ => Some info
  end.

(** What an object of the effective settings contributes:
    [effective_value or value or default_value] unless that is None. *)
Definition effective_of (info : pyval) : option pyval :=
  match info with
  | PDict d =>
      let chosen := py_or (py_or (get d "effective_value") (get d "value"))
                          (get d "default_value") in
      if is_none chosen then None else Some chosen
  | _ => None
  end.

(** The key passes the filter of [build_from_json]: there is none, or it
    is empty, or it names the key. *)
Definition passes_filter (setting_filter : option (list string)) (key : string) : bool :=
  match setting_filter with
  | Some ((_ :: _) as names) => existsb (String.eqb key) names
  | _ => true
  end.

(** The "key: message" lines of the settings whose verdict is invalid, and
    of the valid ones that come with a message. *)
Definition error_lines (items : pydict) (verdicts : list (bool * string)) : list string :=
  flat_map (λ iv, if iv.2.1 : bool then [] else [iv.1.1 +:+ ": " +:+ iv.2.2])
           (zip items verdicts).

Definition warning_lines (items : pydict) (verdicts : list (bool * string)) : list string :=
  flat_map (λ iv, if (iv.2.1 && negb (String.eqb iv.2.2 ""))%bool
                  then [iv.1.1 +:+ ": " +:+ iv.2.2] else [])
           (zip items verdicts).

(** The definition passes the first test of [build_curaprofile]. *)
Definition definition_accepted (self : CuraBuilder) (definition : string) : bool :=
  negb (match available_definitions self with [] => false | _ => true end
        && negb (validate_definition self definition)).

Section BuildNotions.
Context `{Builtins}.

Definition unknown_definition_message (self : CuraBuilder) (definition : string) : string :=
  "Unknown definition: " +:+ definition +:+ ". Examples: "
  +:+ str_list_repr (take 10 (available_definitions self)) +:+ "...".

Definition validation_errors_message (errors : list string) : string :=
  "Validation errors:" +:+ String NL "" +:+ String.concat (String NL "") errors.

(** The text of the [.inst.cfg] file of a group. *)
Definition inst_cfg_text (self : CuraBuilder) (profile_name definition quality_type : string)
    (settings : pydict) (is_extruder : bool) (extruder_position : Z) : string :=
  ConfigParser.write
    (inst_cfg_sections self profile_name definition quality_type
       (values_options self settings) is_extruder extruder_position).

End BuildNotions.

(** A builder after the discovery of two definition files. *)
Definition example_discovered_builder : CuraBuilder := {|
  metadata := Some example_metadata;
  setting_version := Some 23;
  available_definitions :=
    _discover_definitions (Some "/opt/cura")
      (Some ["fdmprinter.def.json"; "creality_ender3pro.def.json"]);
|}.

(** The example document as [parse_def_json] returns it. *)
Definition example_def_data : pydict :=
  parse_def_json not_iterable_update
    "/opt/cura/share/cura/resources/definitions/fdmprinter.def.json" "fdmprinter.def.json"
    (Parsed (PDict example_document)).

(** * Properties *)

(** ** Dictionaries *)

Section DictFacts.
Context {A : Type}.
Implicit Types (d s : list (string * A)) (k : string) (v : A).

Lemma dict_get_set_eq d k v : dict_get (dict_set d k v) k = Some v.
Proof.
  induction d as [|[k' v'] d IH]; simpl.
  - by rewrite String.eqb_refl.
  - destruct (String.eqb k' k) eqn:E; simpl; rewrite E; auto.
Qed.

Lemma dict_get_set_ne d k k' v :
  k ≠ k' → dict_get (dict_set d k v) k' = dict_get d k'.
Proof.
  intros Hne. induction d as [|[k0 v0] d IH]; simpl.
  - apply String.eqb_neq in Hne. by rewrite Hne.
  - destruct (String.eqb k0 k) eqn:E; simpl.
    + apply String.eqb_eq in E; subst k0.
      apply String.eqb_neq in Hne. by rewrite Hne.
    + by rewrite IH.
Qed.

Lemma dict_get_None d k : dict_get d k = None ↔ k ∉ dict_keys d.
Proof.
  rewrite list_elem_of_In.
  induction d as [|[k' v'] d IH]; simpl; [tauto|].
  destruct (String.eqb_spec k' k) as [->|Hne].
  - split; [discriminate | tauto].
  - rewrite IH. tauto.
Qed.

Lemma dict_get_Some_elem d k v : dict_get d k = Some v → (k, v) ∈ d.
Proof.
  rewrite list_elem_of_In.
  induction d as [|[k' v'] d IH]; simpl; [discriminate|].
  destruct (String.eqb_spec k' k) as [->|Hne]; [injection 1 as ->; auto | auto].
Qed.

Lemma elem_dict_keys d k v : (k, v) ∈ d → k ∈ dict_keys d.
Proof.
  rewrite !list_elem_of_In. intros Hin.
  change k with (k, v).1. by apply in_map.
Qed.

Lemma dict_get_elem d k v : NoDup (dict_keys d) → (k, v) ∈ d → dict_get d k = Some v.
Proof.
  induction d as [|[k' v'] d IH]; simpl.
  - intros _ Hin. by apply elem_of_nil in Hin.
  - intros [Hk Hnd]%NoDup_cons [Heq|Hin]%elem_of_cons.
    + injection Heq as -> ->. by rewrite String.eqb_refl.
    + destruct (String.eqb_spec k' k) as [->|Hne]; [|auto].
      exfalso. apply Hk. by eapply elem_dict_keys.
Qed.

Lemma dict_set_fresh d k v : dict_get d k = None → dict_set d k v = d ++ [(k, v)].
Proof.
  induction d as [|[k' v'] d IH]; simpl; [done|].
  destruct (String.eqb k' k); [discriminate|]. intros Hn. by rewrite IH.
Qed.

Lemma dict_get_app d s k :
  dict_get (d ++ s) k = match dict_get d k with Some v => Some v | None => dict_get s k end.
Proof.
  induction d as [|[k' v'] d IH]; simpl; [done|].
  by destruct (String.eqb k' k).
Qed.

(** After [d.update(s)] a key has the value [s] gives it, else its old one. *)
Lemma dict_get_update d s k :
  NoDup (dict_keys s) →
  dict_get (dict_update d s) k
  = match dict_get s k with Some v => Some v | None => dict_get d k end.
Proof.
  unfold dict_update. revert d.
  induction s as [|[k' v'] s IH]; intros d Hnd; simpl; [done|].
  apply NoDup_cons in Hnd as [Hk Hnd].
  rewrite IH by done.
  destruct (String.eqb_spec k' k) as [->|Hne].
  - assert (dict_get s k = None) as ->.
    { by apply dict_get_None. }
    apply dict_get_set_eq.
  - destruct (dict_get s k); [done|]. by apply dict_get_set_ne.
Qed.

End DictFacts.

Section IntDictFacts.
Context {A : Type}.
Implicit Types (d : list (Z * A)) (k : Z) (v : A).

Lemma idict_get_set_eq d k v : idict_get (idict_set d k v) k = Some v.
Proof.
  induction d as [|[k' v'] d IH]; simpl.
  - by rewrite Z.eqb_refl.
  - destruct (Z.eqb k' k) eqn:E; simpl; rewrite E; auto.
Qed.

Lemma idict_get_set_ne d k k' v :
  k ≠ k' → idict_get (idict_set d k v) k' = idict_get d k'.
Proof.
  intros Hne. induction d as [|[k0 v0] d IH]; simpl.
  - apply Z.eqb_neq in Hne. by rewrite Hne.
  - destruct (Z.eqb_spec k0 k) as [->|E]; simpl.
    + apply Z.eqb_neq in Hne. by rewrite Hne.
    + by rewrite IH.
Qed.

Lemma idict_get_None d k : k ∉ d.*1 → idict_get d k = None.
Proof.
  induction d as [|[k' v'] d IH]; simpl; [done|].
  intros [Hne Hk]%not_elem_of_cons.
  destruct (Z.eqb_spec k' k) as [->|_]; [done | auto].
Qed.

Lemma idict_set_keys d k v :
  (idict_set d k v).*1 = if bool_decide (k ∈ d.*1) then d.*1 else d.*1 ++ [k].
Proof.
  induction d as [|[k' v'] d IH]; [done|]. cbn [idict_set].
  destruct (Z.eqb_spec k' k) as [->|Hne].
  - cbn. rewrite bool_decide_eq_true_2; [done | left].
  - cbn. rewrite IH. destruct (bool_decide (k ∈ d.*1)) eqn:Hin.
    + apply bool_decide_eq_true in Hin.
      rewrite bool_decide_eq_true_2; [done | by right].
    + apply bool_decide_eq_false in Hin.
      rewrite bool_decide_eq_false_2; [done|].
      intros [?|?]%elem_of_cons; congruence.
Qed.

Lemma idict_set_NoDup d k v : NoDup d.*1 → NoDup (idict_set d k v).*1.
Proof.
  intros Hnd. rewrite idict_set_keys.
  destruct (bool_decide (k ∈ d.*1)) eqn:Hin; [done|].
  apply bool_decide_eq_false in Hin.
  apply NoDup_app. split; [done|]. split; [|apply NoDup_singleton].
  intros x Hx ->%list_elem_of_singleton. done.
Qed.

End IntDictFacts.

(** ** Separation into global and per-extruder settings *)

Section Separation.
Context `{Builtins}.
Implicit Types (self : CuraBuilder) (gs g e : pydict).

(** With the accumulators free of the keys still to come, the loop appends
    each setting to one of them. *)
Lemma separate_fold self gs : ∀ g e,
  NoDup (dict_keys gs) →
  (∀ k, k ∈ dict_keys gs → dict_get g k = None ∧ dict_get e k = None) →
  fold_left
    (λ acc kv,
       let '(global_only, extruder_only) := acc in
       let '(key, value) := kv in
       match loaded_metadata self with
       | Some m =>
           if truthy (is_per_extruder m key)
           then (global_only, dict_set extruder_only key value)
           else (dict_set global_only key value, extruder_only)
       | None => (dict_set global_only key value, extruder_only)
       end)
    gs (g, e)
  = (g ++ List.filter (λ kv, negb (routed_to_extruder self kv.1)) gs,
     e ++ List.filter (λ kv, routed_to_extruder self kv.1) gs).
Proof.
  induction gs as [|[k v] gs IH]; intros g e Hnd Hfresh.
  - simpl. by rewrite !app_nil_r.
  - simpl in Hnd. apply NoDup_cons in Hnd as [Hk Hnd].
    destruct (Hfresh k) as [Hg He]; [simpl; left|].
    assert (∀ k', k' ∈ dict_keys gs → k ≠ k') as Hother.
    { intros k' Hin ->. by apply Hk. }
    cbn [fold_left List.filter fst].
    match goal with |- fold_left ?f gs ?acc = _ =>
      assert (acc = if routed_to_extruder self k
                    then (g, dict_set e k v) else (dict_set g k v, e)) as ->
    end.
    { unfold routed_to_extruder. destruct (loaded_metadata self); [|done].
      by destruct (truthy _). }
    destruct (routed_to_extruder self k) eqn:Hr; cbn [negb].
    + rewrite IH; [by rewrite (dict_set_fresh e), <- app_assoc | done |].
      intros k' Hin. destruct (Hfresh k') as [? ?]; [simpl; by right|].
      split; [done|]. rewrite dict_get_set_ne; auto.
    + rewrite IH; [by rewrite (dict_set_fresh g), <- app_assoc | done |].
      intros k' Hin. destruct (Hfresh k') as [? ?]; [simpl; by right|].
      split; [|done]. rewrite dict_get_set_ne; auto.
Qed.

(** The two groups are the two halves of the batch, in its order. *)
Lemma separate_filter self gs :
  NoDup (dict_keys gs) →
  separate self gs
  = (List.filter (λ kv, negb (routed_to_extruder self kv.1)) gs,
     List.filter (λ kv, routed_to_extruder self kv.1) gs).
Proof.
  intros Hnd. unfold separate. by rewrite separate_fold.
Qed.

Lemma dict_get_filter (p : string → bool) gs k :
  dict_get (List.filter (λ kv, p kv.1) gs) k = if p k then dict_get gs k else None.
Proof.
  induction gs as [|[k' v'] gs IH]; simpl; [by destruct (p k)|].
  destruct (p k') eqn:Hp; simpl; destruct (String.eqb_spec k' k) as [->|Hne]; auto.
  - by rewrite Hp.
  - by rewrite IH, Hp.
Qed.

(** Where a setting of the batch is after the separation. *)
Lemma separate_get self gs k :
  NoDup (dict_keys gs) →
  dict_get (separate self gs).1 k
  = (if routed_to_extruder self k then None else dict_get gs k) ∧
  dict_get (separate self gs).2 k
  = (if routed_to_extruder self k then dict_get gs k else None).
Proof.
  intros Hnd. rewrite separate_filter by done. cbn [fst snd].
  rewrite (dict_get_filter (λ k, negb (routed_to_extruder self k))), dict_get_filter.
  by destruct (routed_to_extruder self k).
Qed.

(** The groups after the caller's map has been merged in. *)
Lemma merge_fold (es : list (Z * pydict)) : ∀ (acc : list (Z * pydict)) pos,
  NoDup es.*1 →
  idict_get
    (fold_left
       (λ merged_extruder ps,
          let '(pos, settings) := ps in
          let current := match idict_get merged_extruder pos with
                         | Some d => d
                         | None => []
                         end in
          idict_set merged_extruder pos (dict_update current settings))
       es acc) pos
  = match idict_get es pos with
    | Some s => Some (dict_update (default [] (idict_get acc pos)) s)
    | None => idict_get acc pos
    end.
Proof.
  induction es as [|[p s] es IH]; intros acc pos Hnd; [done|].
  cbn [fmap list_fmap fst] in Hnd. apply NoDup_cons in Hnd as [Hp Hnd].
  cbn [fold_left idict_get]. rewrite IH by done.
  destruct (Z.eqb_spec p pos) as [->|Hne].
  - rewrite (idict_get_None es pos) by done.
    rewrite idict_get_set_eq. by destruct (idict_get acc pos).
  - rewrite idict_get_set_ne by done. done.
Qed.

Lemma merge_extruder_get e (es : list (Z * pydict)) pos k :
  NoDup es.*1 →
  (∀ p s, idict_get es p = Some s → NoDup (dict_keys s)) →
  group_get (merge_extruder e (Some es)) pos k
  = match group_get es pos k with
    | Some v => Some v
    | None => if Z.eqb pos 0 then dict_get e k else None
    end.
Proof.
  intros Hnd Hkeys. unfold group_get, merge_extruder.
  rewrite merge_fold by done. cbn [idict_get].
  destruct (idict_get es pos) as [s|] eqn:Hs.
  - rewrite dict_get_update by eauto.
    destruct (dict_get s k); [done|].
    rewrite (Z.eqb_sym pos 0). by destruct (Z.eqb 0 pos).
  - rewrite (Z.eqb_sym pos 0). by destruct (Z.eqb 0 pos).
Qed.

Lemma merge_extruder_NoDup e (es : option (list (Z * pydict))) :
  NoDup (merge_extruder e es).*1.
Proof.
  unfold merge_extruder.
  assert (NoDup [(0, e)].*1) as Hstart by apply NoDup_singleton.
  revert Hstart. generalize [(0, e)].
  induction (match es with Some es => es | None => [] end) as [|[p s] l IH];
    intros acc Hacc; [done|].
  cbn [fold_left]. apply IH. by apply idict_set_NoDup.
Qed.

(** Leaving the empty groups out loses no setting. *)
Lemma group_get_nonempty (groups : list (Z * pydict)) pos k :
  NoDup groups.*1 →
  group_get (List.filter (λ ps, match ps.2 with [] => false | _ => true end) groups) pos k
  = group_get groups pos k.
Proof.
  unfold group_get. induction groups as [|[p g] groups IH]; [done|].
  cbn [fmap list_fmap fst]. intros [Hp Hnd]%NoDup_cons.
  cbn [List.filter snd idict_get].
  destruct g as [|kv g].
  - rewrite IH by done. destruct (Z.eqb_spec p pos) as [->|Hne]; [|done].
    by rewrite (idict_get_None groups pos).
  - cbn [idict_get]. destruct (Z.eqb p pos); [done | by apply IH].
Qed.

Lemma extruder_groups_get e (es : option (list (Z * pydict))) pos k :
  group_get (extruder_groups e es) pos k = group_get (merge_extruder e es) pos k.
Proof.
  assert (group_get
            (List.filter (λ ps, match ps.2 with [] => false | _ => true end)
                         (merge_extruder e es)) pos k
          = group_get (merge_extruder e es) pos k) as Hfilter.
  { apply group_get_nonempty, merge_extruder_NoDup. }
  unfold extruder_groups.
  destruct e as [|kv e]; [destruct es as [[|ps es]|]|]; try done;
    unfold group_get, merge_extruder; cbn [fold_left idict_get];
    by destruct (Z.eqb 0 pos).
Qed.

End Separation.

Section SeparationTheorems.
Context `{Builtins}.
Implicit Types (self : CuraBuilder) (gs : pydict).

Lemma validate_value_no_record (m : SettingMetadata) (key : string) (value : pyval) :
  settings m !! key = None → validate_value m key value = Ret (true, "").
Proof. intros Hk. unfold validate_value. by rewrite Hk. Qed.

(** C6.  A key with no record in the schema is accepted whatever the
    value: [validate_value] returns (True, "") for it, and the batch, which
    validation never rewrites, keeps the candidate value as it was. *)
Theorem validate_value_unknown_key (m : SettingMetadata) (key : string) (value : pyval) :
  settings m !! key = None →
  validate_value m key value = Ret (true, "")
  ∧ ∀ rest errors warnings,
      validate_loop m ((key, value) :: rest) errors warnings
      = validate_loop m rest errors warnings.
Proof.
  intros Hk. pose proof (validate_value_no_record m key value Hk) as Hv.
  split; [done|]. intros rest errors warnings.
  cbn [validate_loop]. by rewrite Hv.
Qed.

(** C5.  Every setting of the batch lands in exactly one of [global_only]
    and [extruder_only], with its value, and nothing else does; a setting
    whose record is flagged [settable_per_extruder] goes to extruder 0,
    the only group of the default routing; the caller's map is merged over
    it, its values taking precedence key by key; and the groups that get a
    file hold the same settings, only the empty groups being left out. *)
Theorem separation_total self gs :
  NoDup (dict_keys gs) →
  let global_only := (separate self gs).1 in
  let extruder_only := (separate self gs).2 in
  (∀ k v, dict_get gs k = Some v →
     (routed_to_extruder self k = false
      ∧ dict_get global_only k = Some v ∧ dict_get extruder_only k = None)
     ∨ (routed_to_extruder self k = true
        ∧ dict_get extruder_only k = Some v ∧ dict_get global_only k = None))
  ∧ (∀ k, dict_get gs k = None →
       dict_get global_only k = None ∧ dict_get extruder_only k = None)
  ∧ (∀ m info k v,
       loaded_metadata self = Some m → settings m !! k = Some info →
       dict_get info "settable_per_extruder" = Some (PBool true) →
       dict_get gs k = Some v →
       group_get (merge_extruder extruder_only None) 0 k = Some v
       ∧ dict_get global_only k = None)
  ∧ merge_extruder extruder_only None = [(0, extruder_only)]
  ∧ (∀ es pos k,
       NoDup es.*1 →
       (∀ p s, idict_get es p = Some s → NoDup (dict_keys s)) →
       group_get (merge_extruder extruder_only (Some es)) pos k
       = match group_get es pos k with
         | Some v => Some v
         | None => if Z.eqb pos 0 then dict_get extruder_only k else None
         end)
  ∧ (∀ es pos k,
       group_get (extruder_groups extruder_only es) pos k
       = group_get (merge_extruder extruder_only es) pos k).
Proof.
  intros Hnd global_only extruder_only.
  assert (∀ k, dict_get global_only k
               = (if routed_to_extruder self k then None else dict_get gs k)
             ∧ dict_get extruder_only k
               = (if routed_to_extruder self k then dict_get gs k else None)) as Hget.
  { intros k. by apply separate_get. }
  split; [|split; [|split; [|split; [|split]]]];
    [| | | | |intros es pos k; apply extruder_groups_get].
  - intros k v Hk. destruct (Hget k) as [Hg He]. rewrite Hg, He, Hk.
    destruct (routed_to_extruder self k); [right | left]; done.
  - intros k Hk. destruct (Hget k) as [-> ->]. rewrite Hk.
    by destruct (routed_to_extruder self k).
  - intros m info k v Hm Hinfo Hflag Hk.
    assert (routed_to_extruder self k = true) as Hr.
    { unfold routed_to_extruder, is_per_extruder, get_or. by rewrite Hm, Hinfo, Hflag. }
    destruct (Hget k) as [-> He]. rewrite Hr in He |- *. split; [|done].
    unfold group_get, merge_extruder. cbn. by rewrite He.
  - done.
  - intros es pos k Hes Hkeys. by apply merge_extruder_get.
Qed.

(** C9.  For a key absent from the schema [is_per_extruder] answers False,
    so the setting, which validation accepts, is put in the global group
    and in no per-extruder group that gets a file: it is in one only where
    the caller's map has it. *)
Theorem unknown_key_stays_global self m key :
  metadata self = Some m →
  settings m !! key = None →
  is_per_extruder m key = PBool false
  ∧ ∀ gs v,
      NoDup (dict_keys gs) → dict_get gs key = Some v →
      validate_value m key v = Ret (true, "")
      ∧ dict_get (separate self gs).1 key = Some v
      ∧ dict_get (separate self gs).2 key = None
      ∧ (∀ pos, group_get (extruder_groups (separate self gs).2 None) pos key = None)
      ∧ (∀ es pos w,
           NoDup es.*1 →
           (∀ p s, idict_get es p = Some s → NoDup (dict_keys s)) →
           group_get (extruder_groups (separate self gs).2 (Some es)) pos key = Some w →
           group_get es pos key = Some w).
Proof.
  intros Hm Hk.
  assert (is_per_extruder m key = PBool false) as Hper.
  { unfold is_per_extruder. by rewrite Hk. }
  assert (routed_to_extruder self key = false) as Hroute.
  { unfold routed_to_extruder, loaded_metadata. rewrite Hm.
    destruct (loaded m); [by rewrite Hper | done]. }
  split; [done|]. intros gs v Hnd Hv.
  destruct (separate_get self gs key Hnd) as [Hg He].
  rewrite Hroute in Hg, He. rewrite Hv in Hg.
  split; [by apply validate_value_no_record|].
  split; [done|]. split; [done|]. split.
  - intros pos. rewrite extruder_groups_get.
    unfold group_get, merge_extruder. cbn [fold_left idict_get].
    by destruct (Z.eqb 0 pos).
  - intros es pos w Hes Hkeys. rewrite extruder_groups_get, merge_extruder_get by done.
    destruct (group_get es pos key); [done|]. rewrite He. by destruct (Z.eqb pos 0).
Qed.

End SeparationTheorems.

(** ** Strings *)

Lemma eq_nocase_lower s t : eq_nocase s t = String.eqb (lower s) (lower t).
Proof.
  revert t. induction s as [|a s IH]; intros [|b t]; simpl; try done.
  rewrite IH. by destruct (Ascii.eqb (lower_ascii a) (lower_ascii b)).
Qed.

Lemma str_is_true_word s : str_is_true s = is_true_word s.
Proof. unfold str_is_true, is_true_word. by rewrite !eq_nocase_lower. Qed.

Lemma append_nil_r (s : string) : s +:+ "" = s.
Proof.
  induction s as [|c s IH]; [done|].
  change (String c (s +:+ "") = String c s). by rewrite IH.
Qed.

Lemma append_assoc (s t u : string) : s +:+ (t +:+ u) = (s +:+ t) +:+ u.
Proof.
  induction s as [|c s IH]; [done|].
  change (String c (s +:+ (t +:+ u)) = String c ((s +:+ t) +:+ u)). by rewrite IH.
Qed.

Lemma occurs_in_concat (sep x : string) (l : list string) :
  x ∈ l → occurs_in x (String.concat sep l).
Proof.
  induction l as [|y l IH]; intros Hin; [by apply elem_of_nil in Hin|].
  apply elem_of_cons in Hin as [->|Hin].
  - destruct l as [|z l]; simpl.
    + exists "", "". simpl. by rewrite append_nil_r.
    + exists "", (sep +:+ String.concat sep (z :: l)). done.
  - destruct (IH Hin) as (a & b & Hab).
    destruct l as [|z l]; [by apply elem_of_nil in Hin|].
    exists (y +:+ sep +:+ a), b.
    change (String.concat sep (y :: z :: l))
      with (y +:+ sep +:+ String.concat sep (z :: l)).
    rewrite Hab. by rewrite <- !append_assoc.
Qed.

Lemma occurs_in_context (a b x s : string) :
  occurs_in x s → occurs_in x (a +:+ s +:+ b).
Proof.
  intros (u & v & ->). exists (a +:+ u), (v +:+ b).
  by rewrite <- !append_assoc.
Qed.

Lemma occurs_in_after (a x s : string) : occurs_in x s → occurs_in x (a +:+ s).
Proof.
  intros Hx. rewrite <- (append_nil_r s). by apply occurs_in_context.
Qed.

Lemma prefix_append (t b : string) : String.prefix t (t +:+ b) = true.
Proof.
  induction t as [|c t IH]; [by destruct b|].
  change (String c t +:+ b) with (String c (t +:+ b)). simpl.
  by destruct (ascii_dec c c).
Qed.

Lemma occurs_in_occursb (t s : string) : occurs_in t s → occursb t s = true.
Proof.
  intros (a & b & ->). induction a as [|c a IH].
  - change ("" +:+ t +:+ b) with (t +:+ b).
    assert (∀ s, String.prefix t s = true → occursb t s = true) as Hp.
    { intros s Hs. destruct s; cbn [occursb]; by rewrite Hs. }
    apply Hp, prefix_append.
  - change (String c a +:+ t +:+ b) with (String c (a +:+ t +:+ b)).
    cbn [occursb]. rewrite IH. apply orb_true_r.
Qed.

(** ** Type checking *)

Section TypeCheck.
Context `{Builtins}.
Implicit Types (m : SettingMetadata) (info : pydict) (v c : pyval).

Lemma validate_value_record m key info v :
  settings m !! key = Some info →
  validate_value m key v
  = (after ← type_check info (get_or info "type" (PStr "unknown")) v;
     match after with
     | Return r => Ret r
     | Continue value =>
         if (eq_str (get_or info "type" (PStr "unknown")) "int"
             || eq_str (get_or info "type" (PStr "unknown")) "float")%bool
         then range_check info value
         else Ret (true, "")
     end).
Proof. intros Hk. unfold validate_value. by rewrite Hk. Qed.

Lemma type_check_bool info v :
  type_check info (PStr "bool") v = Ret (Continue (PBool (bool_coercion v))).
Proof.
  unfold type_check, type_check_body. cbn [eq_str String.eqb Ascii.eqb Bool.eqb].
  destruct v; cbn; rewrite ?str_is_true_word; done.
Qed.

Lemma type_check_enum info d v :
  get_or info "options" (PDict []) = PDict d →
  type_check info (PStr "enum") v
  = Ret (if hashable v
         then if in_options d v then Continue v
              else Return (false, invalid_option_message v d)
         else Return (false, unhashable_message v)).
Proof.
  intros Hopt. unfold type_check, type_check_body.
  cbn [eq_str String.eqb Ascii.eqb Bool.eqb]. rewrite Hopt. cbn [py_in].
  destruct (hashable v) eqn:Hh; cbn; [|done].
  unfold in_options. destruct v; cbn; try done.
  by destruct (dict_mem d s).
Qed.

End TypeCheck.

Section CoercionTheorems.
Context `{Builtins}.
Implicit Types (m : SettingMetadata) (info : pydict) (v : pyval).

(** C2, in the form that holds of the code. For a setting of schema type
    bool the type check keeps a native boolean, turns a string into True
    exactly when it is "true", "1" or "yes" up to case, and turns any other
    value into its truth value (a non-zero number or a non-empty container
    is True); validation then accepts with no message. *)
Theorem bool_setting_coercion m key info v :
  settings m !! key = Some info →
  get_or info "type" (PStr "unknown") = PStr "bool" →
  type_check info (get_or info "type" (PStr "unknown")) v
  = Ret (Continue (PBool (bool_coercion v)))
  ∧ validate_value m key v = Ret (true, "").
Proof.
  intros Hk Hty. rewrite (validate_value_record m key info v Hk), Hty.
  by rewrite type_check_bool.
Qed.

(** C7, in the form that holds of the code. For an enum setting whose
    options are a dict, a candidate that is not one of the options is
    rejected: a hashable one (None, a boolean, a number, a string) with the
    invalid-option message, in which every option occurs, and an unhashable
    one (a list, a dict) with the type-conversion message of the TypeError
    the lookup raises. *)
Theorem enum_invalid_option m key info d v :
  settings m !! key = Some info →
  get_or info "type" (PStr "unknown") = PStr "enum" →
  get_or info "options" (PDict []) = PDict d →
  in_options d v = false →
  (hashable v = true →
     validate_value m key v = Ret (false, invalid_option_message v d)
     ∧ ∀ o, o ∈ dict_keys d → occurs_in (str_repr o) (invalid_option_message v d))
  ∧ (hashable v = false →
       validate_value m key v = Ret (false, unhashable_message v)).
Proof.
  intros Hk Hty Hopt Hin.
  rewrite (validate_value_record m key info v Hk), Hty.
  rewrite (type_check_enum info d v Hopt), Hin.
  split; intros ->; [split|]; try done.
  intros o Ho. unfold invalid_option_message, str_list_repr.
  do 3 apply occurs_in_after. apply occurs_in_context.
  apply occurs_in_concat, list_elem_of_In, in_map, list_elem_of_In, Ho.
Qed.

End CoercionTheorems.

(** ** The order of numbers *)

Lemma Qltb_lt (p q : Q) : Qltb p q = true ↔ (p < q)%Q.
Proof.
  unfold Qltb. rewrite Qlt_alt. destruct (p ?= q)%Q; split; congruence.
Qed.

Lemma xreal_eqb_not_ltb x y :
  xreal_eqb x y = true → xreal_ltb x y = false ∧ xreal_ltb y x = false.
Proof.
  destruct x as [| |p|], y as [| |q|]; cbn [xreal_eqb xreal_ltb]; try done.
  intros Heq%Qeq_bool_iff.
  split; apply not_true_is_false; intros Hlt%Qltb_lt; lra.
Qed.






(** ** Range checking *)

Section RangeCheck.
Context `{Builtins}.
Implicit Types (m : SettingMetadata) (info : pydict) (raw c b : pyval).

Lemma bound_crossed_lt c b :
  is_Some (as_num c) → bound_ok b → bound_crossed b (py_lt c b) = Ret (below c b).
Proof.
  intros [x Hx] [->|[y Hy]].
  - unfold below. rewrite Hx. reflexivity.
  - unfold bound_crossed, py_lt, below. rewrite Hx, Hy.
    destruct b; (reflexivity || discriminate).
Qed.

Lemma bound_crossed_gt c b :
  is_Some (as_num c) → bound_ok b → bound_crossed b (py_gt c b) = Ret (above c b).
Proof.
  intros [x Hx] [->|[y Hy]].
  - unfold above. rewrite Hx. reflexivity.
  - unfold bound_crossed, py_gt, above. rewrite Hx, Hy.
    destruct b; (reflexivity || discriminate).
Qed.



Lemma range_check_inside info c :
  is_Some (as_num c) →
  bound_ok (get info "minimum_value") →
  bound_ok (get info "maximum_value") →
  bound_ok (get info "minimum_value_warning") →
  bound_ok (get info "maximum_value_warning") →
  below c (get info "minimum_value") = false →
  above c (get info "maximum_value") = false →
  range_check info c
  = Ret (true, advisory c (get info "minimum_value_warning")
                         (get info "maximum_value_warning")).
Proof.
  intros Hc HM HX Hmw Hxw Hb Ha. unfold range_check.
  rewrite (bound_crossed_lt c (get info "minimum_value")) by done.
  cbn [mbind result_bind]. rewrite Hb.
  rewrite (bound_crossed_gt c (get info "maximum_value")) by done.
  cbn [mbind result_bind]. rewrite Ha.
  rewrite (bound_crossed_lt c (get info "minimum_value_warning")) by done.
  cbn [mbind result_bind].
  rewrite (bound_crossed_gt c (get info "maximum_value_warning")) by done.
  cbn [mbind result_bind].
  unfold advisory.
  destruct (below c (get info "minimum_value_warning")),
    (above c (get info "maximum_value_warning")); cbn [app]; done.
Qed.

(** What the type check lets through, and that it never returns True
    from inside the [try] block. *)
Lemma type_check_cases info setting_type raw :
  match type_check info setting_type raw with
  | Ret (Continue c) => coerced_as setting_type raw c
  | Ret (Return r) => r.1 = false
  | Raise _ => True
  end.
Proof.
  unfold type_check, type_check_body, coerced_as.
  destruct (eq_str setting_type "int") eqn:Hint.
  { destruct raw as [|b|z|f|s|l|l|d]; cbn; eauto.
    - destruct f; cbn; eauto.
    - destruct (int_of_str s); cbn; eauto. }
  destruct (eq_str setting_type "float") eqn:Hfloat.
  { destruct raw as [|b|z|f|s|l|l|d]; cbn; eauto.
    destruct (float_of_str s); cbn; eauto. }
  destruct (eq_str setting_type "bool") eqn:Hbool.
  { destruct raw as [|b|z|f|s|l|l|d]; cbn; rewrite ?str_is_true_word; done. }
  destruct (eq_str setting_type "enum") eqn:Henum; [|done].
  destruct (py_in raw _) as [[|]|[]]; cbn; try done.
  destruct (py_keys _) as [keys|[]]; cbn; done.
Qed.

Lemma coerced_as_numeric info raw c :
  numeric_type info →
  coerced_as (get_or info "type" (PStr "unknown")) raw c → is_Some (as_num c).
Proof.
  unfold coerced_as. intros [->| ->]; cbn.
  - intros [z ->]. by eexists.
  - intros [(z & _ & ->)|[f ->]]; by eexists.
Qed.


(** For a numeric setting the verdict is the one of the range check on
    the coerced value. *)
Lemma validate_value_numeric m key info raw c :
  settings m !! key = Some info →
  numeric_type info →
  type_check info (get_or info "type" (PStr "unknown")) raw = Ret (Continue c) →
  validate_value m key raw = range_check info c ∧ is_Some (as_num c).
Proof.
  intros Hk Hty Hc. rewrite (validate_value_record m key info raw Hk), Hc.
  pose proof (type_check_cases info (get_or info "type" (PStr "unknown")) raw) as Hcases.
  rewrite Hc in Hcases. split; [|by eapply coerced_as_numeric].
  by destruct Hty as [-> | ->].
Qed.


End RangeCheck.

Section RangeTheorems.
Context `{Builtins}.
Implicit Types (m : SettingMetadata) (info : pydict) (raw c : pyval).



(** C1, in the form that holds of the code. For a key of the schema and a
    raw value validation accepts, [validate_value] returns the flag True
    with the advisory message (empty when the type is not numeric); the
    coerced value is the local one the type check hands to the range check,
    of the schema's type except that an int stays an int under "float", and
    it is not returned. With [layer_height] declared a float between 0.01
    and 1.0, a float input in that range, such as 0.05, is accepted with no
    advisory and checked as that same float. *)
Theorem validate_value_accepts m key info raw :
  settings m !! key = Some info →
  (∀ adv, validate_value m key raw = Ret (true, adv) →
     ∃ c, type_check info (get_or info "type" (PStr "unknown")) raw = Ret (Continue c)
          ∧ coerced_as (get_or info "type" (PStr "unknown")) raw c
          ∧ (¬ numeric_type info → adv = ""))
  ∧ (info = layer_height_info →
     ∀ q, (1 # 100 <= q)%Q → (q <= 1)%Q →
       type_check info (PStr "float") (PFloat (FFin q)) = Ret (Continue (PFloat (FFin q)))
       ∧ validate_value m key (PFloat (FFin q)) = Ret (true, "")).
Proof.
  intros Hk. split.
  - intros adv. rewrite (validate_value_record m key info raw Hk).
    pose proof (type_check_cases info (get_or info "type" (PStr "unknown")) raw) as Hcases.
    destruct (type_check info _ raw) as [[c|[flag msg]]|e]; cbn [mbind result_bind].
    + intros Hv. exists c. split; [done|]. split; [done|].
      intros Hnot. unfold numeric_type in Hnot.
      destruct (get_or info "type" (PStr "unknown")) as [| | | |s| | |]; cbn in Hv;
        try by simplify_eq.
      destruct (String.eqb_spec s "int") as [->|_]; [by destruct Hnot; left|].
      destruct (String.eqb_spec s "float") as [->|_]; [by destruct Hnot; right|].
      cbn in Hv. by simplify_eq.
    + cbn in Hcases. intros Hv. simplify_eq.
    + done.
  - intros -> q Hlo Hhi.
    rewrite (validate_value_record m key _ _ Hk).
    change (get_or layer_height_info "type" (PStr "unknown")) with (PStr "float").
    assert (type_check layer_height_info (PStr "float") (PFloat (FFin q))
            = Ret (Continue (PFloat (FFin q)))) as Htc by done.
    rewrite Htc. split; [done|]. cbn [mbind result_bind eq_str].
    cbn [String.eqb Ascii.eqb Bool.eqb orb].
    rewrite range_check_inside;
      [reflexivity | by eexists | by right; eexists | by right; eexists
       | by left | by left | |].
    + apply not_true_is_false. intros Hlt. cbn in Hlt.
      apply Qltb_lt in Hlt. lra.
    + apply not_true_is_false. intros Hlt. cbn in Hlt.
      apply Qltb_lt in Hlt. lra.
Qed.

End RangeTheorems.

(** ** Writing the configuration *)

Section Serialization.
Context `{Builtins}.
Implicit Types (self : CuraBuilder) (settings : pydict).

Lemma dict_set_set {A} (d : list (string * A)) k v w :
  dict_set (dict_set d k v) k w = dict_set d k w.
Proof.
  induction d as [|[k' v'] d IH]; simpl.
  - by rewrite String.eqb_refl.
  - destruct (String.eqb k' k) eqn:E; simpl; rewrite E; [done | by rewrite IH].
Qed.

(** The loop over the group never raises once the section exists. *)
Lemma write_values_fold self settings : ∀ (config : ConfigParser.t) options,
  dict_get config "values" = Some options →
  write_values self config settings
  = Ret (dict_set config "values"
           (fold_left
              (λ options kv,
                 dict_set options (ConfigParser.optionxform kv.1)
                          (formatted self kv.1 kv.2))
              settings options)).
Proof.
  induction settings as [|[k v] settings IH]; intros config options Hsec.
  - cbn [write_values fold_left]. f_equal.
    clear -Hsec. induction config as [|[k' v'] config IH]; [done|].
    simpl in *. destruct (String.eqb_spec k' "values") as [->|Hne].
    + by simplify_eq.
    + by rewrite <- IH.
  - cbn [write_values fold_left]. unfold ConfigParser.set. rewrite Hsec.
    cbn [mbind result_bind].
    rewrite (IH _ (dict_set options (ConfigParser.optionxform k) (formatted self k v)))
      by apply dict_get_set_eq.
    by rewrite dict_set_set.
Qed.


Lemma setitem_general (profile_name definition : string) :
  ConfigParser.setitem [] "general"
    [("version", "4"); ("name", profile_name); ("definition", definition)]
  = Ret [("general",
          [("version", "4"); ("name", profile_name); ("definition", definition)])].
Proof. reflexivity. Qed.

Lemma setitem_metadata (general : ConfigParser.section) (quality_type version : string) :
  ConfigParser.setitem [("general", general)] "metadata"
    [("type", "quality_changes"); ("quality_type", quality_type);
     ("setting_version", version)]
  = Ret [("general", general);
         ("metadata",
          [("type", "quality_changes"); ("quality_type", quality_type);
           ("setting_version", version)])].
Proof. reflexivity. Qed.

Lemma set_position (general : ConfigParser.section) (quality_type version position : string) :
  ConfigParser.set
    [("general", general);
     ("metadata",
      [("type", "quality_changes"); ("quality_type", quality_type);
       ("setting_version", version)])]
    "metadata" "position" position
  = Ret [("general", general);
         ("metadata",
          [("type", "quality_changes"); ("quality_type", quality_type);
           ("setting_version", version)] ++ [("position", position)])].
Proof. reflexivity. Qed.

Lemma values_fold_nonempty self settings : ∀ (options : ConfigParser.section),
  options ≠ [] ∨ settings ≠ [] →
  fold_left
    (λ options kv,
       dict_set options (ConfigParser.optionxform kv.1) (formatted self kv.1 kv.2))
    settings options ≠ [].
Proof.
  induction settings as [|[k v] settings IH]; intros options Hne.
  - by destruct Hne.
  - cbn [fold_left]. apply IH. left.
    destruct options as [|[k' v'] options]; simpl; [done|].
    by destruct (String.eqb k' _).
Qed.

(** [generate_inst_cfg] always returns, and what it returns is the text of
    the three sections, the last with the options of [values_options]. *)
Lemma generate_inst_cfg_sections self profile_name definition quality_type settings
    is_extruder extruder_position :
  generate_inst_cfg self profile_name definition quality_type settings
    is_extruder extruder_position
  = Ret (ConfigParser.write
           (inst_cfg_sections self profile_name definition quality_type
              (values_options self settings) is_extruder extruder_position)).
Proof.
  unfold generate_inst_cfg, inst_cfg_sections, values_options.
  rewrite setitem_general. cbn [mbind result_bind].
  rewrite setitem_metadata. cbn [mbind result_bind].
  assert (∀ metadata_options,
            (config ← match settings with
                      | [] => Ret [("general", [("version", "4"); ("name", profile_name);
                                                ("definition", definition)]);
                                   ("metadata", metadata_options)]
                      | _ =>
                          config ← ConfigParser.setitem
                                     [("general", [("version", "4"); ("name", profile_name);
                                                   ("definition", definition)]);
                                      ("metadata", metadata_options)] "values" [];
                          write_values self config settings
                      end;
             Ret (ConfigParser.write config))
            = Ret (ConfigParser.write
                     ([("general", [("version", "4"); ("name", profile_name);
                                    ("definition", definition)]);
                       ("metadata", metadata_options)]
                      ++ match fold_left
                                 (λ options kv,
                                    dict_set options (ConfigParser.optionxform kv.1)
                                             (formatted self kv.1 kv.2))
                                 settings [] with
                         | [] => []
                         | _ :: _ =>
                             [("values",
                               fold_left
                                 (λ options kv,
                                    dict_set options (ConfigParser.optionxform kv.1)
                                             (formatted self kv.1 kv.2))
                                 settings [])]
                         end))) as Hvalues.
  { intros metadata_options. destruct settings as [|kv settings].
    { cbn [mbind result_bind fold_left]. by rewrite app_nil_r. }
    assert (kv :: settings ≠ []) as Hsome by discriminate.
    pose proof (values_fold_nonempty self (kv :: settings) [] (or_intror Hsome)) as Hne.
    change (ConfigParser.setitem ?c "values" [])
      with (Ret (A := ConfigParser.t) (dict_set c "values" [])).
    cbn [mbind result_bind].
    rewrite (write_values_fold self (kv :: settings) _ []) by reflexivity.
    cbn [mbind result_bind].
    destruct (fold_left _ (kv :: settings) []) as [|o options]; [by destruct Hne|].
    reflexivity. }
  destruct is_extruder.
  - rewrite set_position. cbn [mbind result_bind]. apply Hvalues.
  - cbn [mbind result_bind]. rewrite app_nil_r. apply Hvalues.
Qed.

End Serialization.

Section SerializationTheorems.
Context `{Builtins}.


(** C10.  In the loop over the machine's effective settings, for a key
    not collected yet, the value is [effective_value or value or
    default_value]; a None result leaves the key out.  So an
    [effective_value] that is 0, 0.0, False or the empty string is not
    used: [value] is taken when it is truthy, else [default_value], and the
    key is dropped when that last fallback is None. *)
Theorem effective_value_fallback (settings : pydict) (key : string) (d : pydict) :
  dict_mem settings key = false →
  let effective_value := get d "effective_value" in
  let value := get d "value" in
  let default_value := get d "default_value" in
  let chosen := py_or (py_or effective_value value) default_value in
  effective_settings_step settings key (PDict d)
  = Ret (if is_none chosen then settings else dict_set settings key chosen)
  ∧ (effective_value = PInt 0
     ∨ (∃ f, effective_value = PFloat f ∧ float_is_zero f = true)
     ∨ effective_value = PBool false
     ∨ effective_value = PStr "" →
     chosen = py_or value default_value
     ∧ (truthy value = true →
          effective_settings_step settings key (PDict d)
          = Ret (dict_set settings key value))
     ∧ (truthy value = false → default_value ≠ PNone →
          effective_settings_step settings key (PDict d)
          = Ret (dict_set settings key default_value))
     ∧ (truthy value = false → default_value = PNone →
          effective_settings_step settings key (PDict d) = Ret settings
          ∧ dict_get settings key = None)).
Proof.
  intros Hfresh effective_value value default_value chosen.
  assert (effective_settings_step settings key (PDict d)
          = Ret (if is_none chosen then settings else dict_set settings key chosen))
    as Hstep.
  { unfold effective_settings_step. rewrite Hfresh.
    cbn [py_get mbind result_bind]. fold effective_value value default_value.
    unfold chosen, py_or.
    destruct (truthy effective_value) eqn:Hev; cbn [mbind result_bind]; rewrite ?Hev.
    - by destruct (is_none effective_value).
    - destruct (truthy value) eqn:Hv; cbn [mbind result_bind]; rewrite ?Hv.
      + by destruct (is_none value).
      + by destruct (is_none default_value). }
  split; [done|]. intros Hfalsy.
  assert (truthy effective_value = false) as Hev.
  { destruct Hfalsy as [->|[(f & -> & Hf)|[->| ->]]]; cbn; by rewrite ?Hf. }
  assert (chosen = py_or value default_value) as Hchosen.
  { unfold chosen, py_or at 2. by rewrite Hev. }
  rewrite Hstep, Hchosen. unfold py_or.
  split; [done|]. split; [|split].
  - intros Hv. rewrite Hv. by destruct value.
  - intros Hv Hdv. rewrite Hv. by destruct default_value.
  - intros Hv Hdv. rewrite Hv, Hdv. split; [done|].
    unfold dict_mem in Hfresh. by destruct (dict_get settings key).
Qed.

End SerializationTheorems.

(** * Further properties of the code *)

(** ** The batch validator and the build *)

Section BatchTheorems.
Context `{Builtins}.
Implicit Types (self : CuraBuilder) (m : SettingMetadata) (gs : pydict).

Lemma validate_loop_collects m items verdicts : ∀ errors warnings,
  Forall2 (λ kv r, validate_value m kv.1 kv.2 = Ret r) items verdicts →
  validate_loop m items errors warnings
  = Ret (errors ++ error_lines items verdicts, warnings ++ warning_lines items verdicts).
Proof.
  intros errors warnings Hall. revert errors warnings.
  induction Hall as [|[key value] [valid msg] items verdicts Hv Hall IH];
    intros errors warnings.
  - cbn. by rewrite !app_nil_r.
  - cbn [validate_loop]. cbn [fst snd] in Hv. rewrite Hv. cbn [mbind result_bind].
    unfold error_lines, warning_lines in *. cbn [zip zip_with flat_map fst snd].
    destruct valid; cbn [negb andb].
    + destruct (String.eqb msg ""); cbn [negb]; rewrite IH;
        by rewrite <- ?app_assoc.
    + rewrite IH. by rewrite <- ?app_assoc.
Qed.

Lemma error_lines_nil items verdicts :
  length items = length verdicts →
  match error_lines items verdicts with [] => true | _ => false end
  = forallb fst verdicts.
Proof.
  revert verdicts. induction items as [|[key value] items IH];
    intros [|[valid msg] verdicts] Hlen; try done.
  unfold error_lines in *. cbn [zip zip_with flat_map fst snd forallb].
  destruct valid; cbn [app andb]; [|done].
  apply IH. by injection Hlen.
Qed.

(** X1.  When the metadata is loaded and the validation of each setting
    returns, [validate_settings] goes through the whole batch: it reports
    an error line for every invalid setting and a warning line for every
    valid one that has a message, in the order of the batch, and the batch
    is valid exactly when no setting is invalid. *)
Theorem validate_settings_collects self m items verdicts :
  loaded_metadata self = Some m →
  Forall2 (λ kv r, validate_value m kv.1 kv.2 = Ret r) items verdicts →
  validate_settings self items
  = Ret (forallb fst verdicts, error_lines items verdicts, warning_lines items verdicts).
Proof.
  intros Hm Hall. unfold validate_settings. rewrite Hm.
  rewrite (validate_loop_collects m items verdicts [] []) by done.
  cbn [mbind result_bind app]. do 3 f_equal.
  apply error_lines_nil. by eapply Forall2_length.
Qed.

Lemma extruder_files_texts self profile_name definition quality_type
    (groups : list (Z * pydict)) :
  extruder_files self profile_name definition quality_type groups
  = Ret (map (λ ps, (ps.1, inst_cfg_text self profile_name definition quality_type
                             ps.2 true ps.1)) groups).
Proof.
  induction groups as [|[pos settings] groups IH]; [done|].
  cbn [extruder_files map fst snd].
  rewrite generate_inst_cfg_sections, IH. done.
Qed.

(** What [build_curaprofile] returns once the definition is accepted and
    the validation has returned. *)
Lemma build_curaprofile_validated self profile_name definition quality_type gs es
    valid errors warnings :
  definition_accepted self definition = true →
  validate_settings self gs = Ret (valid, errors, warnings) →
  build_curaprofile self profile_name definition quality_type gs es
  = Ret (if valid
         then BuildFiles
                (inst_cfg_text self profile_name definition quality_type
                   (separate self gs).1 false 0)
                (map (λ ps, (ps.1, inst_cfg_text self profile_name definition quality_type
                                     ps.2 true ps.1))
                     (extruder_groups (separate self gs).2 es))
         else BuildFailed (validation_errors_message errors)).
Proof.
  intros Hdef Hval. unfold build_curaprofile, definition_accepted in *.
  apply negb_true_iff in Hdef. rewrite Hdef, Hval. cbn [mbind result_bind].
  destruct valid; cbn [negb]; [|done].
  destruct (separate self gs) as [global_only extruder_only]. cbn [fst snd].
  rewrite generate_inst_cfg_sections. cbn [mbind result_bind].
  rewrite extruder_files_texts. done.
Qed.

(** X2.  [build_curaprofile] answers with the unknown-definition failure
    exactly when some definitions were discovered and the requested one is
    neither among them nor "fdmprinter"; it does so before any setting is
    validated, whatever the settings are. *)
Theorem build_curaprofile_unknown_definition self profile_name definition quality_type
    gs es :
  build_curaprofile self profile_name definition quality_type gs es
  = Ret (BuildFailed (unknown_definition_message self definition))
  ↔ available_definitions self ≠ []
    ∧ (definition ∉ available_definitions self)
    ∧ definition ≠ "fdmprinter".
Proof.
  assert (validate_definition self definition = false
          ↔ (definition ∉ available_definitions self) ∧ definition ≠ "fdmprinter") as Hvd.
  { unfold validate_definition. rewrite orb_false_iff, String.eqb_neq.
    apply and_iff_compat_r. rewrite <- not_true_iff_false, existsb_exists.
    split.
    - intros Hno Hin. apply Hno. exists definition.
      split; [by apply list_elem_of_In | apply String.eqb_refl].
    - intros Hno (x & Hin & Heq). apply String.eqb_eq in Heq. subst x.
      by apply Hno, list_elem_of_In. }
  split.
  - intros Hbuild.
    destruct (definition_accepted self definition) eqn:Hacc.
    + exfalso. unfold build_curaprofile, definition_accepted in *.
      apply negb_true_iff in Hacc. rewrite Hacc in Hbuild.
      destruct (validate_settings self gs) as [[[valid errors] warnings]|e];
        cbn [mbind result_bind] in Hbuild; [|done].
      destruct valid; cbn [negb] in Hbuild; [|done].
      destruct (separate self gs) as [global_only extruder_only].
      rewrite generate_inst_cfg_sections, extruder_files_texts in Hbuild.
      done.
    + unfold definition_accepted in Hacc. apply negb_false_iff, andb_true_iff in Hacc.
      destruct Hacc as [Hsome Hnot%negb_true_iff]. apply Hvd in Hnot.
      split; [|done]. by destruct (available_definitions self).
  - intros (Hsome & Hnot). apply Hvd in Hnot.
    unfold build_curaprofile, unknown_definition_message. rewrite Hnot.
    destruct (available_definitions self); [by destruct Hsome | reflexivity].
Qed.

(** X3.  Once the definition is accepted and the validation of the batch
    has returned, [build_curaprofile] returns too: with errors, the failure
    whose message holds every error line and no file; without, the text of
    the global group and one text for each non-empty per-extruder group. *)
Theorem build_curaprofile_outcome self profile_name definition quality_type gs es
    valid errors warnings :
  definition_accepted self definition = true →
  validate_settings self gs = Ret (valid, errors, warnings) →
  (valid = false →
     build_curaprofile self profile_name definition quality_type gs es
     = Ret (BuildFailed (validation_errors_message errors))
     ∧ ∀ line, line ∈ errors → occurs_in line (validation_errors_message errors))
  ∧ (valid = true →
       build_curaprofile self profile_name definition quality_type gs es
       = Ret (BuildFiles
                (inst_cfg_text self profile_name definition quality_type
                   (separate self gs).1 false 0)
                (map (λ ps, (ps.1, inst_cfg_text self profile_name definition
                                     quality_type ps.2 true ps.1))
                     (extruder_groups (separate self gs).2 es)))
       ∧ ∀ pos group, (pos, group) ∈ extruder_groups (separate self gs).2 es → group ≠ []).
Proof.
  intros Hdef Hval.
  pose proof (build_curaprofile_validated self profile_name definition quality_type
                gs es valid errors warnings Hdef Hval) as Hbuild.
  split; intros ->; (split; [done|]).
  - intros line Hline. unfold validation_errors_message.
    apply occurs_in_after. change (String NL "" +:+ ?x) with ("" +:+ String NL "" +:+ x).
    apply occurs_in_after, occurs_in_after. by apply occurs_in_concat.
  - intros pos group Hin ->. unfold extruder_groups in Hin.
    destruct (separate self gs).2 as [|kv e]; [destruct es as [[|ps es]|]|];
      try (by apply elem_of_nil in Hin);
      apply list_elem_of_In, filter_In in Hin; by destruct Hin.
Qed.

(** X4.  Without loaded metadata nothing is validated and nothing is
    per-extruder: for an accepted definition and no caller's map,
    [build_curaprofile] returns the one global text, which holds the whole
    batch, each value rendered by [str]. *)
Theorem build_curaprofile_without_metadata self profile_name definition quality_type gs :
  loaded_metadata self = None →
  definition_accepted self definition = true →
  NoDup (dict_keys gs) →
  build_curaprofile self profile_name definition quality_type gs None
  = Ret (BuildFiles
           (inst_cfg_text self profile_name definition quality_type gs false 0) [])
  ∧ ∀ key value, formatted self key value = py_str value.
Proof.
  intros Hm Hdef Hnd.
  assert (validate_settings self gs
          = Ret (true, [], ["Validation skipped - metadata not loaded"])) as Hval.
  { unfold validate_settings. by rewrite Hm. }
  rewrite (build_curaprofile_validated self profile_name definition quality_type gs None
             true [] _ Hdef Hval).
  assert (separate self gs = (gs, [])) as Hsep.
  { rewrite separate_filter by done. unfold routed_to_extruder. rewrite Hm. cbn [negb].
    clear. f_equal; induction gs as [|kv gs IH]; cbn [List.filter]; congruence. }
  rewrite Hsep. split; [done|].
  intros key value. unfold formatted. by rewrite Hm.
Qed.

(** X5.  The separation keeps the order of the batch: each of the two
    groups lists its settings as the batch does, and together they have as
    many settings as the batch. *)
Theorem separate_keeps_order self gs :
  NoDup (dict_keys gs) →
  (separate self gs).1 `sublist_of` gs
  ∧ (separate self gs).2 `sublist_of` gs
  ∧ (length (separate self gs).1 + length (separate self gs).2 = length gs)%nat.
Proof.
  intros Hnd. rewrite separate_filter by done. cbn [fst snd].
  clear Hnd. induction gs as [|kv gs (IH1 & IH2 & IH3)]; [by repeat constructor|].
  cbn [List.filter length]. destruct (routed_to_extruder self kv.1); cbn [negb length].
  - split; [by apply sublist_cons|]. split; [by apply sublist_skip | lia].
  - split; [by apply sublist_skip|]. split; [by apply sublist_cons | lia].
Qed.

End BatchTheorems.

(** ** Formatting the values *)

Lemma char_in_append (c : ascii) (s t : string) :
  char_in c (s +:+ t) = (char_in c s || char_in c t)%bool.
Proof.
  induction s as [|x s IH]; [done|].
  change (String x s +:+ t) with (String x (s +:+ t)). cbn [char_in].
  rewrite IH. by destruct (Ascii.eqb x c).
Qed.

(** A replaced character is gone, unless the replacement brings it. *)
Lemma char_in_replace_same (c : ascii) (by_ s : string) :
  char_in c by_ = false → char_in c (replace_char c by_ s) = false.
Proof.
  intros Hby. induction s as [|x s IH]; [done|]. cbn [replace_char].
  destruct (Ascii.eqb x c) eqn:E.
  - by rewrite char_in_append, Hby, IH.
  - cbn [char_in]. by rewrite E, IH.
Qed.

Lemma char_in_replace_other (c d : ascii) (by_ s : string) :
  char_in c by_ = false → char_in c s = false →
  char_in c (replace_char d by_ s) = false.
Proof.
  intros Hby. induction s as [|x s IH]; [done|]. cbn [char_in replace_char].
  intros [Hx Hs]%orb_false_iff. destruct (Ascii.eqb x d).
  - by rewrite char_in_append, Hby, IH.
  - cbn [char_in]. by rewrite Hx, IH.
Qed.

Lemma replace_char_absent (c : ascii) (by_ s : string) :
  char_in c s = false → replace_char c by_ s = s.
Proof.
  induction s as [|x s IH]; [done|]. cbn [char_in replace_char].
  intros [Hx Hs]%orb_false_iff. by rewrite Hx, IH.
Qed.

Section FormatTheorems.
Context `{Builtins}.
Implicit Types (m : SettingMetadata) (info : pydict).

(** X6.  For a setting of schema type "str" or "extruder" and a string
    value, the formatted text holds no newline and no tab, so the writer
    puts the option on one line, with no continuation line. *)
Theorem format_value_one_line m key info (s : string) :
  settings m !! key = Some info →
  get_or info "type" (PStr "unknown") = PStr "str"
  ∨ get_or info "type" (PStr "unknown") = PStr "extruder" →
  char_in NL (format_value_for_cfg m key (PStr s)) = false
  ∧ char_in TAB (format_value_for_cfg m key (PStr s)) = false
  ∧ ∀ option,
      ConfigParser.write_option (option, format_value_for_cfg m key (PStr s))
      = option +:+ " = " +:+ format_value_for_cfg m key (PStr s) +:+ String NL "".
Proof.
  intros Hk Hty.
  assert (format_value_for_cfg m key (PStr s)
          = replace_char TAB (String BACKSLASH "t")
              (replace_char NL (String BACKSLASH "n") s)) as ->.
  { unfold format_value_for_cfg, get_type. rewrite Hk. by destruct Hty as [-> | ->]. }
  assert (char_in NL (replace_char TAB (String BACKSLASH "t")
                        (replace_char NL (String BACKSLASH "n") s)) = false) as Hnl.
  { apply char_in_replace_other; [done|]. by apply char_in_replace_same. }
  split; [done|]. split; [by apply char_in_replace_same|].
  intros option. unfold ConfigParser.write_option. cbn [fst snd].
  by rewrite replace_char_absent.
Qed.

(** X7.  For a setting of schema type bool the written text is "True" or
    "False" by the truth value of the raw value: a string is written
    "False" only when it is empty.  So a non-empty string that is none of
    "true", "1", "yes", such as "no", passes validation, where it counts as
    False, and is written "True". *)
Theorem format_value_bool_string m key info (s : string) :
  settings m !! key = Some info →
  get_or info "type" (PStr "unknown") = PStr "bool" →
  (∀ v, format_value_for_cfg m key v = if truthy v then "True" else "False")
  ∧ (format_value_for_cfg m key (PStr s) = "False" ↔ s = "")
  ∧ (s ≠ "" → is_true_word s = false →
     type_check info (PStr "bool") (PStr s) = Ret (Continue (PBool false))
     ∧ validate_value m key (PStr s) = Ret (true, "")
     ∧ format_value_for_cfg m key (PStr s) = "True").
Proof.
  intros Hk Hty.
  assert (∀ v, format_value_for_cfg m key v = if truthy v then "True" else "False") as Hfmt.
  { intros v. unfold format_value_for_cfg, get_type. by rewrite Hk, Hty. }
  split; [done|]. split.
  - rewrite Hfmt. cbn [truthy]. destruct (String.eqb_spec s "") as [->|Hne]; cbn; split;
      done.
  - intros Hne Hword. rewrite type_check_bool. cbn [bool_coercion]. rewrite Hword.
    split; [done|]. split.
    + rewrite (validate_value_record m key info _ Hk), Hty, type_check_bool. done.
    + rewrite Hfmt. cbn [truthy]. by destruct (String.eqb_spec s "").
Qed.

End FormatTheorems.

(** ** Presets *)

Section DictKeys.
Context {A : Type}.
Implicit Types (d s : list (string * A)) (k : string) (v : A).

Lemma dict_keys_set d k v :
  dict_keys (dict_set d k v) = if dict_mem d k then dict_keys d else dict_keys d ++ [k].
Proof.
  unfold dict_mem, dict_keys. induction d as [|[k' v'] d IH]; [done|].
  cbn [dict_set dict_get].
  destruct (String.eqb_spec k' k) as [->|Hne]; [done|].
  cbn [map fst]. rewrite IH. by destruct (dict_get d k).
Qed.

Lemma dict_set_NoDup d k v : NoDup (dict_keys d) → NoDup (dict_keys (dict_set d k v)).
Proof.
  intros Hnd. rewrite dict_keys_set. unfold dict_mem.
  destruct (dict_get d k) eqn:Hk; [done|].
  apply dict_get_None in Hk. apply NoDup_app. split; [done|].
  split; [|apply NoDup_singleton].
  intros x Hx ->%list_elem_of_singleton. done.
Qed.

Lemma dict_update_NoDup d s : NoDup (dict_keys d) → NoDup (dict_keys (dict_update d s)).
Proof.
  unfold dict_update. revert d.
  induction s as [|[k v] s IH]; intros d Hnd; [done|].
  cbn [fold_left]. apply IH. by apply dict_set_NoDup.
Qed.

End DictKeys.

Lemma lower_ascii_idemp (c : ascii) : lower_ascii (lower_ascii c) = lower_ascii c.
Proof. by destruct c as [[] [] [] [] [] [] [] []]. Qed.

Lemma lower_idemp (s : string) : lower (lower s) = lower s.
Proof.
  induction s as [|c s IH]; [done|]. cbn [lower]. by rewrite lower_ascii_idemp, IH.
Qed.

Lemma preset_settings_NoDup (name : string) (p : preset) :
  dict_get MATERIAL_PRESETS name = Some p ∨ dict_get QUALITY_PRESETS name = Some p →
  NoDup (dict_keys p.2).
Proof.
  assert (Forall (λ np : string * preset, NoDup (dict_keys np.2.2))
                 (MATERIAL_PRESETS ++ QUALITY_PRESETS)) as Hall.
  { apply (bool_decide_unpack _). by vm_compute. }
  rewrite Forall_forall in Hall.
  intros [Hp%dict_get_Some_elem|Hp%dict_get_Some_elem];
    apply (Hall (name, p)), elem_of_app; auto.
Qed.

Lemma material_known (name : string) :
  dict_get MATERIAL_PRESETS name = None ↔ name ∉ ["PLA"; "PETG"; "ABS"; "TPU"; "ASA"].
Proof. apply dict_get_None. Qed.

Lemma quality_known (name : string) :
  dict_get QUALITY_PRESETS name = None ↔ name ∉ ["draft"; "normal"; "fine"; "ultra"].
Proof. apply dict_get_None. Qed.

Section PresetTheorems.
Context `{Builtins}.
Implicit Types (self : CuraBuilder).

(** X8.  For a known material and a known quality, [build_from_preset]
    builds the profile of the lower-cased quality name from the merged
    settings, in which a key has the value of the custom overrides when
    they set it, else the material's, else the quality's. *)
Theorem build_from_preset_merge self profile_name definition material_preset
    quality_preset custom_overrides (material quality : preset) :
  dict_get MATERIAL_PRESETS (upper material_preset) = Some material →
  dict_get QUALITY_PRESETS (lower quality_preset) = Some quality →
  NoDup (dict_keys (overrides_of custom_overrides)) →
  let settings := merged_preset_settings quality.2 material.2 custom_overrides in
  build_from_preset self profile_name definition material_preset quality_preset
    custom_overrides
  = build_curaprofile self profile_name definition (lower quality_preset) settings None
  ∧ NoDup (dict_keys settings)
  ∧ ∀ k, dict_get settings k
         = match dict_get (overrides_of custom_overrides) k with
           | Some v => Some v
           | None => match dict_get material.2 k with
                     | Some v => Some v
                     | None => dict_get quality.2 k
                     end
           end.
Proof.
  intros Hm Hq Hnd settings.
  assert (settings = dict_update (dict_update (dict_update [] quality.2) material.2)
                                 (overrides_of custom_overrides)) as Hsettings.
  { unfold settings, merged_preset_settings. by destruct custom_overrides as [[|kv o]|]. }
  split; [|split].
  - unfold build_from_preset. by rewrite Hm, Hq.
  - rewrite Hsettings. do 3 apply dict_update_NoDup. constructor.
  - intros k. rewrite Hsettings.
    rewrite dict_get_update by done.
    rewrite dict_get_update by (eapply preset_settings_NoDup; eauto).
    rewrite dict_get_update by (eapply preset_settings_NoDup; eauto).
    by destruct (dict_get quality.2 k).
Qed.

(** X9.  The material is matched upper-cased and the quality lower-cased:
    an unknown material fails with a message that gives the name as typed
    and the five materials, whatever the quality; a known material with an
    unknown quality fails likewise with the four qualities; and known names
    build the same profile in any case of their letters. *)
Theorem build_from_preset_names self profile_name definition material_preset
    quality_preset custom_overrides :
  (upper material_preset ∉ ["PLA"; "PETG"; "ABS"; "TPU"; "ASA"] →
     build_from_preset self profile_name definition material_preset quality_preset
       custom_overrides
     = Ret (BuildFailed ("Unknown material: " +:+ material_preset +:+ ". Available: "
                         +:+ str_list_repr ["PLA"; "PETG"; "ABS"; "TPU"; "ASA"])))
  ∧ (upper material_preset ∈ ["PLA"; "PETG"; "ABS"; "TPU"; "ASA"] →
     lower quality_preset ∉ ["draft"; "normal"; "fine"; "ultra"] →
       build_from_preset self profile_name definition material_preset quality_preset
         custom_overrides
       = Ret (BuildFailed ("Unknown quality: " +:+ quality_preset +:+ ". Available: "
                           +:+ str_list_repr ["draft"; "normal"; "fine"; "ultra"])))
  ∧ (upper material_preset ∈ ["PLA"; "PETG"; "ABS"; "TPU"; "ASA"] →
     lower quality_preset ∈ ["draft"; "normal"; "fine"; "ultra"] →
       build_from_preset self profile_name definition material_preset quality_preset
         custom_overrides
       = build_from_preset self profile_name definition (upper material_preset)
           (lower quality_preset) custom_overrides).
Proof.
  split; [|split].
  - intros Hm. apply (proj2 (material_known _)) in Hm.
    unfold build_from_preset. rewrite Hm. reflexivity.
  - intros Hm Hq. apply (proj2 (quality_known _)) in Hq. unfold build_from_preset.
    destruct (dict_get MATERIAL_PRESETS (upper material_preset)) eqn:E.
    + rewrite Hq. reflexivity.
    + exfalso. by apply (proj1 (material_known _) E).
  - intros Hm Hq. unfold build_from_preset. rewrite lower_idemp.
    assert (upper (upper material_preset) = upper material_preset) as ->.
    { repeat (apply elem_of_cons in Hm as [->|Hm]; [reflexivity|]).
      by apply elem_of_nil in Hm. }
    destruct (dict_get MATERIAL_PRESETS (upper material_preset)) eqn:Em;
      [|exfalso; by apply (proj1 (material_known _) Em)].
    destruct (dict_get QUALITY_PRESETS (lower quality_preset)) eqn:Eq;
      [done | exfalso; by apply (proj1 (quality_known _) Eq)].
Qed.

End PresetTheorems.

(** ** The --settings argument *)

Lemma split_char_absent (c : ascii) (s : string) :
  char_in c s = false → split_char c s = [s].
Proof.
  induction s as [|x s IH]; [done|]. cbn [char_in split_char].
  intros [Hx Hs]%orb_false_iff. by rewrite Hx, IH.
Qed.

Lemma split_char_app (c : ascii) (a b : string) :
  char_in c a = false → split_char c (a +:+ String c b) = a :: split_char c b.
Proof.
  induction a as [|x a IH].
  - intros _. change ("" +:+ String c b) with (String c b). cbn [split_char].
    by rewrite Ascii.eqb_refl.
  - cbn [char_in]. intros [Hx Ha]%orb_false_iff.
    change (String x a +:+ String c b) with (String x (a +:+ String c b)).
    cbn [split_char]. by rewrite Hx, IH.
Qed.

(** Splitting what was joined gives the items back. *)
Lemma split_char_concat (c : ascii) (items : list string) :
  items ≠ [] →
  Forall (λ item, char_in c item = false) items →
  split_char c (String.concat (String c "") items) = items.
Proof.
  induction items as [|item items IH]; [done|]. intros _ [Hitem Hitems]%Forall_cons.
  destruct items as [|next items].
  - by apply split_char_absent.
  - change (String.concat (String c "") (item :: next :: items))
      with (item +:+ String c "" +:+ String.concat (String c "") (next :: items)).
    change (String c "" +:+ ?x) with (String c x).
    rewrite split_char_app by done. by rewrite IH.
Qed.

Lemma split_once_absent (c : ascii) (s : string) :
  char_in c s = false → split_once c s = None.
Proof.
  induction s as [|x s IH]; [done|]. cbn [char_in split_once].
  intros [Hx Hs]%orb_false_iff. by rewrite Hx, IH.
Qed.

Lemma split_once_app (c : ascii) (a b : string) :
  char_in c a = false → split_once c (a +:+ String c b) = Some (a, b).
Proof.
  induction a as [|x a IH].
  - intros _. change ("" +:+ String c b) with (String c b). cbn [split_once].
    by rewrite Ascii.eqb_refl.
  - cbn [char_in]. intros [Hx Ha]%orb_false_iff.
    change (String x a +:+ String c b) with (String x (a +:+ String c b)).
    cbn [split_once]. by rewrite Hx, IH.
Qed.

Lemma split_char_keeps_absent (e c : ascii) (s : string) :
  char_in e s = false → Forall (λ item, char_in e item = false) (split_char c s).
Proof.
  induction s as [|x s IH]; [by repeat constructor|]. cbn [char_in split_char].
  intros [Hx Hs]%orb_false_iff. specialize (IH Hs).
  destruct (Ascii.eqb x c); [by constructor|].
  destruct (split_char c s) as [|first others]; [repeat constructor; cbn; by rewrite Hx|].
  apply Forall_cons in IH as [Hfirst Hothers].
  constructor; [|done]. cbn [char_in]. by rewrite Hx.
Qed.

Section ManualSettingsTheorems.
Context `{Builtins}.

(** X10.  The --settings parser reads back what was written as
    "key=value" items joined by commas, for keys without "=" and ",", and
    values without ",": each item sets the stripped key to the typed value
    (the value may itself hold "="), a later item for the same key
    replacing the earlier value.  And an argument with no "=" at all gives
    no setting. *)
Theorem parse_settings_rendered (kvs : list (string * string)) :
  Forall (λ kv, char_in "=" kv.1 = false ∧ char_in "," kv.1 = false
                ∧ char_in "," kv.2 = false) kvs →
  parse_settings (String.concat "," (map (λ kv, kv.1 +:+ "=" +:+ kv.2) kvs))
  = fold_left (λ settings kv, dict_set settings (strip kv.1) (sniff_value kv.2)) kvs []
  ∧ ∀ arg, char_in "=" arg = false → parse_settings arg = [].
Proof.
  intros Hkvs. split.
  - unfold parse_settings.
    assert (∀ acc,
              fold_left settings_item (map (λ kv, kv.1 +:+ "=" +:+ kv.2) kvs) acc
              = fold_left (λ settings kv,
                             dict_set settings (strip kv.1) (sniff_value kv.2)) kvs acc)
      as Hfold.
    { induction Hkvs as [|[k v] kvs (Hk & _ & _) _ IH]; intros acc; [done|].
      cbn [map fold_left fst snd]. rewrite <- IH. f_equal.
      unfold settings_item. change ("=" +:+ v) with (String "=" v).
      by rewrite split_once_app. }
    destruct kvs as [|kv kvs]; [done|].
    rewrite split_char_concat; [apply Hfold | done |].
    apply Forall_forall. intros item [[k v] [<- Hin]]%list_elem_of_In%in_map_iff.
    rewrite Forall_forall in Hkvs.
    destruct (Hkvs (k, v)) as (_ & Hk & Hv); [by apply list_elem_of_In|].
    cbn [fst snd] in *. change ("=" +:+ v) with (String "=" v).
    rewrite char_in_append. cbn [char_in]. by rewrite Hk, Hv.
  - intros arg Harg. unfold parse_settings.
    pose proof (split_char_keeps_absent "=" "," arg Harg) as Hitems.
    induction Hitems as [|item items Hitem _ IH]; [done|].
    cbn [fold_left]. unfold settings_item at 2. by rewrite split_once_absent.
Qed.

End ManualSettingsTheorems.

(** ** Collecting the settings of an extraction file *)

Section JsonSettingsTheorems.
Context `{Builtins}.
Implicit Types (settings : pydict).

Lemma key_settings_fold (ks : pydict) : ∀ settings k,
  NoDup (dict_keys ks) →
  dict_get (fold_left (λ s kv, key_settings_step s kv.1 kv.2) ks settings) k
  = match dict_get ks k with
    | Some info =>
        match curated_value info with
        | Some v => Some v
        | None => dict_get settings k
        end
    | None => dict_get settings k
    end.
Proof.
  induction ks as [|[k' info] ks IH]; intros settings k Hnd; [done|].
  cbn [dict_keys map fst] in Hnd. apply NoDup_cons in Hnd as [Hk' Hnd].
  cbn [fold_left dict_get fst snd]. rewrite IH by done.
  destruct (String.eqb_spec k' k) as [->|Hne].
  - assert (dict_get ks k = None) as -> by by apply dict_get_None.
    unfold key_settings_step, curated_value.
    destruct info; rewrite ?dict_get_set_eq; try done.
    destruct (is_none (get d "value")); [done | by rewrite dict_get_set_eq].
  - assert (dict_get (key_settings_step settings k' info) k = dict_get settings k) as Hsame.
    { unfold key_settings_step.
      destruct info; rewrite ?dict_get_set_ne; try done.
      destruct (is_none (get d "value")); [done | by rewrite dict_get_set_ne]. }
    rewrite Hsame. done.
Qed.

(** The loop over the effective settings, when all of them are objects. *)
Lemma effective_settings_loop_objects (es : pydict) : ∀ settings,
  NoDup (dict_keys es) →
  Forall (λ kv, ∃ d, kv.2 = PDict d) es →
  ∃ settings',
    effective_settings_loop settings es = Ret settings'
    ∧ ∀ k, dict_get settings' k
           = match dict_get settings k with
             | Some v => Some v
             | None => dict_get es k ≫= effective_of
             end.
Proof.
  induction es as [|[k' info] es IH]; intros settings Hnd Hobj.
  - exists settings. split; [done|]. intros k. by destruct (dict_get settings k).
  - cbn [dict_keys map fst] in Hnd. apply NoDup_cons in Hnd as [Hk' Hnd].
    apply Forall_cons in Hobj as [[d Hd] Hobj]. cbn [snd] in Hd. subst info.
    cbn [effective_settings_loop].
    assert (∃ next,
              effective_settings_step settings k' (PDict d) = Ret next
              ∧ ∀ k, dict_get next k
                     = match dict_get settings k with
                       | Some v => Some v
                       | None => if String.eqb k' k then effective_of (PDict d) else None
                       end) as (next & Hnext & Hget).
    { unfold effective_settings_step, dict_mem.
      destruct (dict_get settings k') as [old|] eqn:Hold.
      - exists settings. split; [done|]. intros k.
        destruct (String.eqb_spec k' k) as [->|Hne]; [by rewrite Hold|].
        by destruct (dict_get settings k).
      - exists (match effective_of (PDict d) with
                | Some v => dict_set settings k' v
                | None => settings
                end).
        split.
        + cbn [py_get mbind result_bind effective_of]. unfold py_or.
          destruct (truthy (get d "effective_value")) eqn:He; cbn [mbind result_bind];
            rewrite ?He.
          * by destruct (is_none (get d "effective_value")).
          * destruct (truthy (get d "value")) eqn:Hv; cbn [mbind result_bind]; rewrite ?Hv.
            -- by destruct (is_none (get d "value")).
            -- by destruct (is_none (get d "default_value")).
        + intros k. destruct (String.eqb_spec k' k) as [->|Hne].
          * rewrite Hold. destruct (effective_of (PDict d)); [by rewrite dict_get_set_eq|done].
          * destruct (effective_of (PDict d)); [|by destruct (dict_get settings k)].
            rewrite dict_get_set_ne by done. by destruct (dict_get settings k). }
    rewrite Hnext. cbn [mbind result_bind].
    destruct (IH next Hnd Hobj) as (settings' & Hloop & Hfinal).
    exists settings'. split; [done|]. intros k. rewrite Hfinal, Hget.
    cbn [dict_get]. destruct (dict_get settings k); [done|].
    destruct (String.eqb_spec k' k) as [->|Hne]; [|done].
    assert (dict_get es k = None) as -> by by apply dict_get_None.
    cbn [mbind option_bind]. by destruct (effective_of (PDict d)).
Qed.

(** X11.  From an extraction document with an object of curated
    [_key_settings] and a machine whose [effective_settings] are all
    objects, [build_from_json] collects, for each key that passes the
    filter, the curated value when there is one and else the effective
    one; it collects nothing for the other keys. *)
Theorem build_from_json_settings_lookup (data ks machine es : pydict)
    (setting_filter : option (list string)) :
  dict_get data "_key_settings" = Some (PDict ks) →
  dict_get data "machine" = Some (PDict machine) →
  dict_get machine "effective_settings" = Some (PDict es) →
  NoDup (dict_keys ks) →
  NoDup (dict_keys es) →
  Forall (λ kv, ∃ d, kv.2 = PDict d) es →
  ∃ settings,
    build_from_json_settings data setting_filter = Ret settings
    ∧ ∀ k, dict_get settings k
           = if passes_filter setting_filter k
             then match dict_get ks k ≫= curated_value with
                  | Some v => Some v
                  | None => dict_get es k ≫= effective_of
                  end
             else None.
Proof.
  intros Hks Hmachine Hes Hnd_ks Hnd_es Hobj.
  unfold build_from_json_settings. rewrite Hks, Hmachine.
  cbn [py_items py_in hashable mbind result_bind]. unfold dict_mem. rewrite Hes.
  cbn [mbind result_bind py_getitem]. rewrite Hes. cbn [mbind result_bind py_items].
  destruct (effective_settings_loop_objects es
              (fold_left (λ s kv, key_settings_step s kv.1 kv.2) ks []) Hnd_es Hobj)
    as (collected & -> & Hget).
  cbn [mbind result_bind].
  assert (∀ k, dict_get collected k
               = match dict_get ks k ≫= curated_value with
                 | Some v => Some v
                 | None => dict_get es k ≫= effective_of
                 end) as Hcollected.
  { intros k. rewrite Hget, key_settings_fold by done. cbn [dict_get].
    destruct (dict_get ks k) as [info|]; cbn [mbind option_bind]; [|done].
    by destruct (curated_value info). }
  destruct setting_filter as [[|name names]|]; cbn [passes_filter];
    try (eexists; split; [done|]; apply Hcollected).
  eexists. split; [done|]. intros k.
  rewrite (dict_get_filter (λ k, existsb (String.eqb k) (name :: names))).
  by rewrite Hcollected.
Qed.

(** X12.  An entry of the effective settings that is not an object stops
    the collection with an AttributeError, unless its key was collected
    before, in which case the entry is not looked at. *)
Theorem effective_settings_not_an_object (settings : pydict) (key : string) (info : pyval) :
  (∀ d, info ≠ PDict d) →
  effective_settings_step settings key info
  = if dict_mem settings key then Ret settings
    else Raise (AttributeError ("'" +:+ type_name info +:+ "' object has no attribute 'get'")).
Proof.
  intros Hinfo. unfold effective_settings_step.
  destruct (dict_mem settings key); [done|].
  destruct info; try done. by destruct (Hinfo d).
Qed.

End JsonSettingsTheorems.

(** ** The schema index *)

(** Induction on a value with its components at hand. *)
Lemma pyval_nested_ind (P : pyval → Prop) :
  P PNone → (∀ b, P (PBool b)) → (∀ z, P (PInt z)) → (∀ f, P (PFloat f)) →
  (∀ s, P (PStr s)) →
  (∀ l, Forall P l → P (PList l)) →
  (∀ l, Forall P l → P (PTuple l)) →
  (∀ d, Forall (λ kv, P kv.2) d → P (PDict d)) →
  ∀ v, P v.
Proof.
  intros HNone HBool HInt HFloat HStr HList HTuple HDict.
  fix IH 1. intros [| | | | |l|l|d]; [apply HNone | apply HBool | apply HInt | apply HFloat | apply HStr | | | ].
  - apply HList. induction l as [|x l IHl]; constructor; [apply IH | apply IHl].
  - apply HTuple. induction l as [|x l IHl]; constructor; [apply IH | apply IHl].
  - apply HDict. induction d as [|[k x] d IHd]; constructor; [apply IH | apply IHd].
Qed.

(** Induction along the objects of a document: to show a property of a
    value, one may assume it of every entry of every object that the value,
    when an object, has under a key. *)
Lemma pyval_tree_ind (P : pyval → Prop) :
  (∀ v, (∀ d k items, v = PDict d → dict_get d k = Some (PDict items) →
         Forall (λ kv, P kv.2) items) → P v) →
  ∀ v, P v.
Proof.
  intros Hstep v.
  enough (P v ∧ ∀ items, v = PDict items → Forall (λ kv, P kv.2) items) as [Hv _] by done.
  induction v as [| | | | | | |d IH] using pyval_nested_ind;
    try (split; [apply Hstep; intros; discriminate | intros; discriminate]).
  split.
  - apply Hstep. intros d' k items [= <-] Hget.
    apply dict_get_Some_elem in Hget. rewrite Forall_forall in IH.
    by apply (IH _ Hget).
  - intros items [= <-]. eapply Forall_impl; [exact IH|]. by intros kv [Hkv _].
Qed.

Lemma forallb_elem {A} (f : A → bool) (l : list A) (x : A) :
  forallb f l = true → x ∈ l → f x = true.
Proof. rewrite forallb_forall. intros Hall Hin. by apply Hall, list_elem_of_In. Qed.

Lemma at_key_get {A} (k : string) (body : pyval → A) (missing : A) (d : pydict) :
  at_key k body missing d = match dict_get d k with Some v => body v | None => missing end.
Proof.
  induction d as [|[k' v] d IH]; [done|]. cbn [at_key dict_get].
  destruct (String.eqb k' k); [done | apply IH].
Qed.

(** A loop keeps what each of its turns keeps. *)
Lemma for_items_inv {S} (body : string → pyval → S → result S) (I : S → Prop)
    (items : pydict) : ∀ s,
  Forall (λ kv, ∀ s, I s → ∃ s', body kv.1 kv.2 s = Ret s' ∧ I s') items →
  I s →
  ∃ s', for_items body items s = Ret s' ∧ I s'.
Proof.
  induction items as [|[key value] items IH]; intros s Hall Hs.
  - by exists s.
  - apply Forall_cons in Hall as [Hstep Hall].
    destruct (Hstep s Hs) as (s1 & Hs1 & HI). cbn [fst snd] in Hs1.
    cbn [for_items]. rewrite Hs1. cbn [mbind result_bind].
    by apply IH.
Qed.

Lemma setting_tree_dict (d : pydict) :
  setting_tree (PDict d)
  = match dict_get d "children" with
    | Some (PDict items) => forallb (λ '(_, child), setting_tree child) items
    | Some _ => false
    | None => true
    end.
Proof. cbn [setting_tree]. by rewrite at_key_get. Qed.

Lemma no_category_below_dict (d : pydict) :
  no_category_below (PDict d)
  = match dict_get d "children" with
    | Some (PDict items) =>
        forallb (λ '(_, child), negb (category_node child) && no_category_below child) items
    | _ => true
    end.
Proof. cbn [no_category_below]. rewrite at_key_get. by destruct (dict_get d "children"). Qed.

Lemma extracted_props_NoDup : NoDup extracted_props.
Proof. apply (bool_decide_unpack _). by vm_compute. Qed.

(** The listed properties of a node, appended in the order of the list. *)
Lemma copy_fold (d : pydict) (props : list string) : ∀ info : pydict,
  NoDup props →
  (∀ p, p ∈ props → dict_get info p = None) →
  fold_left (λ acc p, match dict_get d p with Some v => dict_set acc p v | None => acc end)
            props info
  = info ++ omap (λ prop, pair prop <$> dict_get d prop) props.
Proof.
  induction props as [|p props IH]; intros info Hnd Hfresh.
  - cbn. by rewrite app_nil_r.
  - apply NoDup_cons in Hnd as [Hp Hnd]. cbn [fold_left omap list_omap].
    destruct (dict_get d p) as [v|] eqn:Hv; cbn [fmap option_fmap option_map].
    + rewrite IH; [|done|].
      * rewrite dict_set_fresh by (apply Hfresh; left). by rewrite <- app_assoc.
      * intros q Hq. rewrite dict_get_set_ne by (intros ->; done).
        apply Hfresh. by right.
    + apply IH; [done|]. intros q Hq. apply Hfresh. by right.
Qed.

Lemma omap_props_get (d : pydict) (props : list string) (p : string) :
  dict_get (omap (λ prop, pair prop <$> dict_get d prop) props) p
  = if bool_decide (p ∈ props) then dict_get d p else None.
Proof.
  induction props as [|q props IH]; [done|]. cbn [omap list_omap].
  destruct (String.eqb_spec q p) as [->|Hne].
  - rewrite bool_decide_eq_true_2 by left.
    destruct (dict_get d p) as [v|] eqn:Hv; cbn [fmap option_fmap option_map].
    + cbn [dict_get]. by rewrite String.eqb_refl.
    + fold (omap (λ prop, pair prop <$> dict_get d prop) props). rewrite IH.
      by destruct (bool_decide (p ∈ props)).
  - assert (bool_decide (p ∈ q :: props) = bool_decide (p ∈ props)) as ->.
    { apply bool_decide_ext. rewrite elem_of_cons.
      split; [intros [Heq|Hin]; [by destruct Hne | done] | by right]. }
    destruct (dict_get d q) as [v|]; cbn [fmap option_fmap option_map].
    + cbn [dict_get]. apply String.eqb_neq in Hne. by rewrite Hne.
    + apply IH.
Qed.

(** A field of the record of a setting. *)
Lemma record_of_get (d : pydict) (category p : string) :
  dict_get (record_of d category) p
  = if String.eqb p "_category" then Some (PStr category)
    else if bool_decide (p ∈ extracted_props) then dict_get d p else None.
Proof.
  unfold record_of. cbn [dict_get]. rewrite (String.eqb_sym p).
  destruct (String.eqb "_category" p); [done | apply omap_props_get].
Qed.

Lemma record_of_leaf (d : pydict) (category : string) (t : pyval) :
  dict_get d "type" = Some t → eq_str t "category" = false →
  leaf_record (record_of d category).
Proof.
  intros Ht Hcat. split; [|split].
  - by exists category.
  - exists t. by rewrite record_of_get.
  - intros p. unfold dict_mem. rewrite record_of_get.
    destruct (String.eqb_spec p "_category") as [->|_]; [by left|].
    destruct (bool_decide (p ∈ extracted_props)) eqn:Hp; [|done].
    apply bool_decide_eq_true in Hp. by right.
Qed.

Lemma walked_refl tagged category (st : schema) : walked tagged category st st.
Proof. split; [done | by left]. Qed.

Lemma walked_trans tagged category (a b c : schema) :
  walked tagged category a b → walked tagged category b c → walked tagged category a c.
Proof.
  intros [Hab Hgab] [Hbc Hgbc]. split; [by etrans|].
  intros key record Hc. destruct (Hgbc key record Hc) as [Hb|Hadded]; [|by right].
  by apply Hgab.
Qed.

Lemma walked_weaken tagged tagged' category category' (a b : schema) :
  (tagged' = true → tagged = true ∧ category = category') →
  walked tagged category a b → walked tagged' category' a b.
Proof.
  intros Himp [Hab Hget]. split; [done|]. intros key record Hb.
  destruct (Hget key record Hb) as [Ha|[Hleaf Htag]]; [by left|right].
  split; [done|]. intros Ht. destruct (Himp Ht) as [Ht' <-]. by apply Htag.
Qed.

Lemma walked_set tagged category (st : schema) (path : string) (record : pydict) :
  leaf_record record →
  dict_get record "_category" = Some (PStr category) →
  walked tagged category st (dict_set st path record).
Proof.
  intros Hleaf Hcat. split.
  - rewrite dict_keys_set. destruct (dict_mem st path); [done | by apply prefix_app_r].
  - intros key r. destruct (String.eqb_spec path key) as [->|Hne].
    + rewrite dict_get_set_eq. intros [= <-]. by right.
    + rewrite dict_get_set_ne by done. by left.
Qed.

Lemma dict_mem_set {A} (d : list (string * A)) (k k' : string) (v : A) :
  dict_mem (dict_set d k v) k' = (dict_mem d k' || String.eqb k k')%bool.
Proof.
  unfold dict_mem. destruct (String.eqb_spec k k') as [->|Hne].
  - rewrite dict_get_set_eq. by rewrite orb_true_r.
  - rewrite dict_get_set_ne by done. by rewrite orb_false_r.
Qed.

Lemma dict_mem_update {A} (s : list (string * A)) : ∀ (d : list (string * A)) (k : string),
  dict_mem (dict_update d s) k = (dict_mem d k || dict_mem s k)%bool.
Proof.
  unfold dict_update.
  induction s as [|[k' v] s IH]; intros d k; cbn [fold_left fst snd].
  - by rewrite orb_false_r.
  - rewrite IH, dict_mem_set. unfold dict_mem at 4. cbn [dict_get].
    destruct (String.eqb k' k); [|by rewrite orb_false_r].
    by rewrite orb_true_r, !orb_true_l.
Qed.

Lemma list_to_map_get {A} (l : list (string * A)) (k : string) :
  (list_to_map l : gmap string A) !! k = dict_get l k.
Proof.
  induction l as [|[k' v] l IH]; [done|]. cbn [list_to_map foldr dict_get].
  destruct (String.eqb_spec k' k) as [->|Hne].
  - apply lookup_insert_eq.
  - by rewrite lookup_insert_ne.
Qed.

(** Only a string is the same key as a string. *)
Lemma key_eqb_str (c : pyval) (s : string) : key_eqb c (PStr s) = eq_str c s.
Proof. destruct c as [| | |f| | | |]; try done. all: by destruct f. Qed.

Lemma categories_get_set (cats : categories) (s s' : string) (keys : list string) :
  categories_get (categories_set cats (PStr s) keys) (PStr s')
  = if String.eqb s s' then Some keys else categories_get cats (PStr s').
Proof.
  induction cats as [|[c keys'] cats IH]; cbn [categories_set categories_get].
  - by rewrite key_eqb_str.
  - rewrite !key_eqb_str. destruct (eq_str c s) eqn:Hc.
    + destruct c; try discriminate. apply String.eqb_eq in Hc as ->.
      cbn [categories_get eq_str]. rewrite key_eqb_str. cbn [eq_str].
      by destruct (String.eqb s s').
    + cbn [categories_get]. rewrite key_eqb_str, IH.
      destruct (eq_str c s') eqn:Hc'; [|done].
      destruct c; try discriminate. cbn [eq_str] in *.
      apply String.eqb_eq in Hc'. subst.
      destruct (String.eqb_spec s s') as [->|_]; [by rewrite String.eqb_refl in Hc | done].
Qed.

Section SchemaIndexTheorems.
Context `{Builtins}.
Variable update_other : pydict → pyval → pydict * option pyexn.
Implicit Types (d : pydict) (st : schema) (path category : string).

Lemma copy_props_dict d (props : list string) : ∀ info : pydict,
  copy_props (PDict d) props info
  = Ret (fold_left (λ acc p, match dict_get d p with Some v => dict_set acc p v | None => acc end)
                   props info).
Proof.
  induction props as [|p props IH]; intros info; [done|].
  cbn [copy_props fold_left py_in hashable mbind result_bind py_getitem]. unfold dict_mem.
  destruct (dict_get d p); cbn [mbind result_bind]; apply IH.
Qed.

Lemma copy_props_record d category :
  copy_props (PDict d) extracted_props [("_category", PStr category)]
  = Ret (record_of d category).
Proof.
  rewrite copy_props_dict, copy_fold; [done | apply extracted_props_NoDup |].
  intros p Hp. apply dict_get_None. cbn. intros ->%list_elem_of_singleton.
  revert Hp. apply (bool_decide_unpack _). by vm_compute.
Qed.

(** [recurse] on an object, with the lookups done. *)
Lemma recurse_dict d path category st :
  recurse (PDict d) path category st
  = settings ← match dict_get d "children" with
               | Some (PDict items) =>
                   for_items (λ key child s,
                                recurse child key
                                  (category_in_force (PDict d) path category) s)
                             items st
               | Some children => _ ← py_items children; Ret st
               | None => Ret st
               end;
    match dict_get d "type" with
    | Some t =>
        if eq_str t "category" then Ret settings
        else Ret (dict_set settings path
                    (record_of d (category_in_force (PDict d) path category)))
    | None => Ret settings
    end.
Proof.
  cbn [recurse]. unfold type_is_category, type_is_setting, category_in_force.
  cbn [py_in hashable mbind result_bind py_getitem category_node]. unfold dict_mem.
  destruct (dict_get d "type") as [t|] eqn:Ht; cbn [mbind result_bind];
    rewrite ?at_key_get;
    destruct (dict_get d "children") as [children|] eqn:Hc; cbn [mbind result_bind].
  all: try (destruct children; cbn [py_items mbind result_bind]; try done).
  all: try (match goal with
            | |- context [for_items ?b ?i ?s] => destruct (for_items b i s); [|done]
            end; cbn [mbind result_bind]).
  all: try (destruct (eq_str t "category"); cbn [negb]; [done|]).
  all: try (rewrite copy_props_record; cbn [mbind result_bind]; unfold record_of; done).
  all: done.
Qed.

(** The plain reading of [recurse], on any node. *)
Lemma recurse_children (node : pyval) path category st :
  recurse node path category st
  = (is_category ← type_is_category node;
     let current_category := if is_category : bool then path else category in
     has_children ← py_in (PStr "children") node;
     settings ← (if has_children : bool
                 then children ← py_getitem node "children";
                      items ← py_items children;
                      for_items (λ key child s, recurse child key current_category s)
                                items st
                 else Ret st);
     is_setting ← type_is_setting node;
     if is_setting : bool
     then
       setting_info ← copy_props node extracted_props
                        [("_category", PStr current_category)];
       match setting_info with
       | [] => Ret settings
       | _ => Ret (dict_set settings path setting_info)
       end
     else Ret settings).
Proof.
  destruct node as [| | | | | | |d]; cbn [recurse].
  1-7: destruct (type_is_category _) as [is_category|e]; [|done];
       cbn [mbind result_bind];
       destruct (py_in (PStr "children") _) as [[|]|e]; done.
  unfold type_is_category.
  cbn [py_in hashable mbind result_bind py_getitem]. unfold dict_mem.
  destruct (dict_get d "type") as [t|]; cbn [mbind result_bind]; rewrite at_key_get;
    destruct (dict_get d "children") as [children|]; cbn [mbind result_bind]; try done.
  all: by destruct children.
Qed.

(** The walk of a tree of objects returns, and does to the index what
    [walked] says. *)
Lemma recurse_tree_walked (node : pyval) :
  setting_tree node = true →
  ∀ path category st,
    ∃ st', recurse node path category st = Ret st'
           ∧ walked (no_category_below node) (category_in_force node path category) st st'.
Proof.
  induction node as [node IH] using pyval_tree_ind.
  intros Htree path category st. destruct node as [| | | | | | |d]; try discriminate.
  rewrite setting_tree_dict in Htree. rewrite recurse_dict.
  set (current := category_in_force (PDict d) path category).
  assert (∃ st1,
            match dict_get d "children" with
            | Some (PDict items) =>
                for_items (λ key child s, recurse child key current s) items st
            | Some children => _ ← py_items children; Ret st
            | None => Ret st
            end = Ret st1
            ∧ walked (no_category_below (PDict d)) current st st1) as (st1 & -> & Hst1).
  { rewrite no_category_below_dict.
    destruct (dict_get d "children") as [children|] eqn:Hc;
      [|exists st; split; [done | apply walked_refl]].
    destruct children as [| | | | | | |items]; try discriminate.
    specialize (IH d "children" items eq_refl Hc).
    apply (for_items_inv _
             (walked (forallb (λ '(_, child),
                                 negb (category_node child) && no_category_below child)
                              items) current st));
      [|apply walked_refl].
    apply Forall_forall. intros [key child] Hin s Hs. cbn [fst snd].
    rewrite Forall_forall in IH.
    apply (forallb_elem _ _ _ Htree) in Hin as Hchild. cbn in Hchild.
    rename Hchild into Htree'.
    destruct (IH _ Hin Htree' key current s) as (s' & Hs' & Hwalked). cbn [snd] in *.
    exists s'. split; [done|]. eapply walked_trans; [exact Hs|].
    eapply walked_weaken; [|exact Hwalked].
    intros Hall. apply (forallb_elem _ _ _ Hall) in Hin as Hplain. cbn in Hplain.
    apply andb_true_iff in Hplain as [Hcat%negb_true_iff Hbelow].
    cbn [snd]. split; [done|]. unfold category_in_force. by rewrite Hcat. }
  cbn [mbind result_bind].
  destruct (dict_get d "type") as [t|] eqn:Ht; [|by exists st1].
  destruct (eq_str t "category") eqn:Hcat; [by exists st1|].
  eexists. split; [done|]. eapply walked_trans; [exact Hst1|].
  apply walked_set; [by eapply record_of_leaf | by rewrite record_of_get].
Qed.

(** X13.  A setting, that is an object of a tree of objects whose type is
    not "category", ends in the index under its key with the record of its
    own listed properties and the category it was given, whatever the
    nodes below it are called; when it has no children, that is all the
    walk does. *)
Theorem recurse_own_record d (t : pyval) path category st :
  setting_tree (PDict d) = true →
  dict_get d "type" = Some t →
  eq_str t "category" = false →
  ∃ st', recurse (PDict d) path category st = Ret st'
         ∧ dict_get st' path = Some (record_of d category)
         ∧ (∀ prop, dict_get (record_of d category) prop
                    = if String.eqb prop "_category" then Some (PStr category)
                      else if bool_decide (prop ∈ extracted_props) then dict_get d prop
                      else None)
         ∧ (dict_get d "children" = None → st' = dict_set st path (record_of d category)).
Proof.
  intros Htree Ht Hcat. rewrite setting_tree_dict in Htree. rewrite recurse_dict.
  assert (category_in_force (PDict d) path category = category) as ->.
  { unfold category_in_force, category_node. by rewrite Ht, Hcat. }
  rewrite Ht, Hcat.
  destruct (dict_get d "children") as [children|] eqn:Hc.
  - destruct children as [| | | | | | |items]; try discriminate.
    destruct (for_items_inv (λ key child s, recurse child key category s)
                (λ _, True) items st) as (st1 & -> & _); [|done|].
    + apply Forall_forall. intros [key child] Hin s _. cbn [fst snd].
      apply (forallb_elem _ _ _ Htree) in Hin as Hchild. cbn in Hchild.
      destruct (recurse_tree_walked child Hchild key category s) as (s' & Hs' & _).
      by exists s'.
    + cbn [mbind result_bind]. eexists. split; [done|].
      split; [apply dict_get_set_eq|]. split; [apply record_of_get | done].
  - cbn [mbind result_bind]. eexists. split; [done|].
    split; [apply dict_get_set_eq|]. split; [apply record_of_get | done].
Qed.

(** X14.  The walk of a tree of objects returns.  It leaves the keys the
    index had where they are, and every record is afterwards the one it
    was or a leaf record: a string category, a type that is not "category"
    and listed properties only.  When no node below is a category, the
    new records all carry the category in force at the node: its own key
    when it is a category, else the category it was given. *)
Theorem recurse_walks_tree (node : pyval) path category st :
  setting_tree node = true →
  ∃ st', recurse node path category st = Ret st'
         ∧ dict_keys st `prefix_of` dict_keys st'
         ∧ ∀ key record,
             dict_get st' key = Some record →
             dict_get st key = Some record
             ∨ (leaf_record record
                ∧ (no_category_below node = true →
                   dict_get record "_category"
                   = Some (PStr (if category_node node then path else category)))).
Proof.
  intros Htree.
  destruct (recurse_tree_walked node Htree path category st) as (st' & Hst' & Hkeys & Hget).
  by exists st'.
Qed.

(** X15.  From a document whose "settings" are an object of trees of
    objects, the first loop of [extract_settings_from_def] returns an index
    of leaf records; when categories occur at the top level only, the
    category of every record is the key of a top-level entry. *)
Theorem settings_of_tree_records (def_data cats : pydict) :
  dict_get def_data "settings" = Some (PDict cats) →
  Forall (λ kv, setting_tree kv.2 = true) cats →
  ∃ base,
    settings_of_tree def_data = Ret base
    ∧ ∀ key record,
        dict_get base key = Some record →
        leaf_record record
        ∧ (Forall (λ kv, no_category_below kv.2 = true) cats →
           ∃ top, top ∈ dict_keys cats ∧ dict_get record "_category" = Some (PStr top)).
Proof.
  intros Hsettings Htrees. unfold settings_of_tree. rewrite Hsettings.
  cbn [py_items mbind result_bind].
  apply (for_items_inv _
           (λ st : schema,
              ∀ key record,
                dict_get st key = Some record →
                leaf_record record
                ∧ (Forall (λ kv, no_category_below kv.2 = true) cats →
                   ∃ top, top ∈ dict_keys cats
                          ∧ dict_get record "_category" = Some (PStr top))));
    [|done].
  apply Forall_forall. intros [top node] Hin st Hst. cbn [fst snd].
  rewrite Forall_forall in Htrees.
  destruct (recurse_tree_walked node (Htrees _ Hin) top top st) as (st' & Hst' & _ & Hget).
  exists st'. split; [done|]. intros key record Hrecord.
  destruct (Hget key record Hrecord) as [Hold|[Hleaf Htag]]; [by apply (Hst key)|].
  split; [done|]. intros Hplain. exists top. split; [by eapply elem_dict_keys|].
  rewrite Forall_forall in Hplain. rewrite (Htag (Hplain _ Hin)).
  unfold category_in_force. by destruct (category_node node).
Qed.

Lemma apply_override_get (def_data : pydict) st (key : string) (o : pydict) :
  ∃ st',
    apply_override update_other def_data st key (PDict o) = Ret st'
    ∧ ∀ k, dict_get st' k
           = if String.eqb key k
             then Some (overridden (dict_get st key) o
                          (get_or def_data "_filename" (PStr "unknown")))
             else dict_get st k.
Proof.
  unfold apply_override, dict_update_any, overridden, dict_mem.
  eexists. split; [done|]. intros k.
  destruct (String.eqb_spec key k) as [<-|Hne].
  - rewrite dict_get_set_eq. destruct (dict_get st key) eqn:E; [by rewrite E|].
    by rewrite dict_get_set_eq.
  - rewrite dict_get_set_ne by done.
    destruct (dict_get st key); [done | by rewrite dict_get_set_ne].
Qed.

Lemma overrides_loop (def_data os : pydict) : ∀ st,
  NoDup (dict_keys os) →
  Forall (λ kv, ∃ o, kv.2 = PDict o) os →
  ∃ st',
    for_items (λ key override s, apply_override update_other def_data s key override) os st
    = Ret st'
    ∧ ∀ k, dict_get st' k
           = match dict_get os k with
             | Some (PDict o) =>
                 Some (overridden (dict_get st k) o
                         (get_or def_data "_filename" (PStr "unknown")))
             | _ => dict_get st k
             end.
Proof.
  induction os as [|[key override] os IH]; intros st Hnd Hobj.
  - by exists st.
  - cbn [dict_keys map fst] in Hnd. apply NoDup_cons in Hnd as [Hkey Hnd].
    apply Forall_cons in Hobj as [[o Ho] Hobj]. cbn [snd] in Ho. subst override.
    destruct (apply_override_get def_data st key o) as (st1 & Hst1 & Hget1).
    destruct (IH st1 Hnd Hobj) as (st' & Hst' & Hget).
    exists st'. cbn [for_items]. rewrite Hst1. cbn [mbind result_bind].
    split; [done|]. intros k. rewrite Hget, Hget1. cbn [dict_get].
    destruct (String.eqb_spec key k) as [<-|Hne]; [|done].
    assert (dict_get os key = None) as -> by by apply dict_get_None.
    done.
Qed.

(** X16.  The overrides, when they are an object of objects, are merged
    into the index by key: the record of an overridden key is the record
    the key had, or an empty one when it had none, updated with the
    override, so that a field of the override takes precedence over the
    field of the base record; its "_source" is the "_filename" of the
    document, whatever the override says.  The other records are left as
    they are. *)
Theorem overrides_take_precedence (def_data os : pydict) (base : schema) :
  dict_get def_data "overrides" = Some (PDict os) →
  NoDup (dict_keys os) →
  Forall (λ kv, ∃ o, kv.2 = PDict o) os →
  let source := get_or def_data "_filename" (PStr "unknown") in
  ∃ st',
    settings_with_overrides update_other def_data base = Ret st'
    ∧ (∀ key, dict_get os key = None → dict_get st' key = dict_get base key)
    ∧ ∀ key o,
        dict_get os key = Some (PDict o) →
        dict_get st' key = Some (overridden (dict_get base key) o source)
        ∧ (NoDup (dict_keys o) →
           ∀ prop,
             dict_get (overridden (dict_get base key) o source) prop
             = if String.eqb prop "_source" then Some source
               else match dict_get o prop with
                    | Some v => Some v
                    | None => dict_get base key ≫= λ old, dict_get old prop
                    end).
Proof.
  intros Hos Hnd Hobj source. unfold settings_with_overrides. rewrite Hos.
  cbn [py_items mbind result_bind].
  destruct (overrides_loop def_data os base Hnd Hobj) as (st' & Hst' & Hget).
  exists st'. split; [done|]. split.
  - intros key Hkey. by rewrite Hget, Hkey.
  - intros key o Hkey. split; [by rewrite Hget, Hkey|].
    intros Hndo prop. unfold overridden.
    destruct (String.eqb_spec prop "_source") as [->|Hne]; [apply dict_get_set_eq|].
    rewrite dict_get_set_ne by done. rewrite dict_get_update by done.
    destruct (dict_get o prop); [done|]. by destruct (dict_get base key).
Qed.

(** X17.  A key that only the overrides have, with an override that gives
    no "type", gets a record without a type: once the index is loaded, the
    type of the key is "unknown" and every value is accepted for it,
    without a message. *)
Theorem override_without_type_accepts (def_data os o : pydict) (base : schema)
    (key : string) :
  settings_of_tree def_data = Ret base →
  dict_get base key = None →
  dict_get def_data "overrides" = Some (PDict os) →
  NoDup (dict_keys os) →
  Forall (λ kv, ∃ o, kv.2 = PDict o) os →
  dict_get os key = Some (PDict o) →
  NoDup (dict_keys o) →
  dict_get o "type" = None →
  ∃ extracted,
    extract_settings_from_def update_other def_data = Ret extracted
    ∧ ∀ m, settings m = list_to_map extracted →
           get_type m key = PStr "unknown"
           ∧ ∀ value, validate_value m key value = Ret (true, "").
Proof.
  intros Hbase Hfresh Hos Hnd Hobj Hkey Hndo Htype.
  unfold extract_settings_from_def, settings_with_overrides.
  rewrite Hbase, Hos. cbn [py_items mbind result_bind].
  destruct (overrides_loop def_data os base Hnd Hobj) as (st' & Hst' & Hget).
  exists st'. split; [done|]. intros m Hm.
  assert (∃ info, settings m !! key = Some info
                  ∧ get_or info "type" (PStr "unknown") = PStr "unknown")
    as (info & Hinfo & Hunknown).
  { eexists. split; [by rewrite Hm, list_to_map_get, Hget, Hkey|].
    unfold get_or, overridden. rewrite dict_get_set_ne by done.
    rewrite dict_get_update by done. rewrite Htype, Hfresh. done. }
  split.
  - unfold get_type. by rewrite Hinfo.
  - intros value. rewrite (validate_value_record m key info value Hinfo), Hunknown.
    reflexivity.
Qed.

Lemma categories_loop_strings (items : schema) : ∀ cats : categories,
  Forall (λ kv, ∃ c, get_or kv.2 "_category" (PStr "other") = PStr c) items →
  ∃ cats',
    categories_loop items cats = Ret cats'
    ∧ ∀ c, default [] (categories_get cats' (PStr c))
           = default [] (categories_get cats (PStr c))
             ++ dict_keys (List.filter
                             (λ kv, eq_str (get_or kv.2 "_category" (PStr "other")) c)
                             items).
Proof.
  induction items as [|[key info] items IH]; intros cats Hstr.
  - exists cats. split; [done|]. intros c. cbn. by rewrite app_nil_r.
  - apply Forall_cons in Hstr as [[c0 Hc0] Hstr]. cbn [snd] in Hc0.
    cbn [categories_loop]. rewrite Hc0. cbn [unhashable].
    assert (∀ c, default [] (categories_get
                               match categories_get cats (PStr c0) with
                               | Some _ => cats
                               | None => categories_set cats (PStr c0) []
                               end (PStr c))
                 = default [] (categories_get cats (PStr c))) as Hsame.
    { intros c. destruct (categories_get cats (PStr c0)) eqn:E; [done|].
      rewrite categories_get_set. destruct (String.eqb_spec c0 c) as [<-|_]; [|done].
      by rewrite E. }
    match goal with
    | |- context [categories_loop items ?next] =>
        destruct (IH next Hstr) as (cats' & Hloop & Hget)
    end.
    exists cats'. split; [done|]. intros c. rewrite Hget.
    rewrite categories_get_set.
    cbn [List.filter snd]. rewrite Hc0. cbn [eq_str].
    destruct (String.eqb_spec c0 c) as [->|Hne].
    + cbn [default dict_keys map fst]. unfold id. rewrite Hsame, <- app_assoc. done.
    + by rewrite Hsame.
Qed.

Lemma categories_loop_unhashable (items : schema) : ∀ cats : categories,
  Exists (λ kv, unhashable (get_or kv.2 "_category" (PStr "other")) ≠ None) items →
  ∃ msg, categories_loop items cats = Raise (TypeError msg).
Proof.
  induction items as [|[key info] items IH]; intros cats Hex.
  - by apply Exists_nil in Hex.
  - cbn [categories_loop].
    destruct (unhashable (get_or info "_category" (PStr "other"))) as [t|] eqn:Ht;
      [by eexists|].
    apply Exists_cons in Hex as [Hhere|Hlater]; [by cbn [snd] in Hhere|].
    by apply IH.
Qed.

(** X18.  [load] fails, and leaves the metadata as they are, when the file
    is missing or cannot be read, and also when the document is an object
    that has a key "_error" of its own, or is no object and makes the
    update of the parse result raise.  For another object it returns
    True as soon as the extraction and the category loop return: the
    metadata are then loaded and hold the extracted index, and the source
    that overridden records name is the "_filename" of the document, or
    fdmprinter.def.json when it has none. *)
Theorem load_outcome (self : SettingMetadata) (cats : categories) (filepath : string) :
  (∀ file, file = NotFound ∨ (∃ message, file = Unreadable message) →
           load update_other self cats filepath file = Ret (false, self, cats))
  ∧ (∀ doc, dict_mem doc "_error" = true →
            load update_other self cats filepath (Parsed (PDict doc))
            = Ret (false, self, cats))
  ∧ (∀ data rest e,
       (∀ d, data ≠ PDict d) →
       update_other [("_filepath", PStr filepath); ("_filename", PStr "fdmprinter.def.json")]
                    data
       = (rest, Some e) →
       load update_other self cats filepath (Parsed data) = Ret (false, self, cats))
  ∧ ∀ doc extracted cats',
      NoDup (dict_keys doc) →
      dict_mem doc "_error" = false →
      extract_settings_from_def update_other
        (parse_def_json update_other filepath "fdmprinter.def.json" (Parsed (PDict doc)))
      = Ret extracted →
      categories_loop extracted cats = Ret cats' →
      (∃ m, load update_other self cats filepath (Parsed (PDict doc)) = Ret (true, m, cats')
            ∧ loaded m = true
            ∧ ∀ key, settings m !! key = dict_get extracted key)
      ∧ get_or (parse_def_json update_other filepath "fdmprinter.def.json"
                  (Parsed (PDict doc))) "_filename" (PStr "unknown")
        = get_or doc "_filename" (PStr "fdmprinter.def.json").
Proof.
  split; [|split; [|split]].
  - by intros file [->|[message ->]].
  - intros doc Herr. unfold load, parse_def_json, dict_update_any.
    by rewrite dict_mem_update, Herr, orb_true_r.
  - intros data rest e Hdata Hupdate. unfold load, parse_def_json, dict_update_any.
    destruct data as [| | | | | | |d]; try (by destruct (Hdata d));
      rewrite Hupdate, dict_mem_set, String.eqb_refl, orb_true_r; done.
  - intros doc extracted cats' Hnd Herr Hextract Hcats. split.
    + unfold load. unfold parse_def_json, dict_update_any in *.
      rewrite dict_mem_update, Herr, Hextract. cbn [mbind result_bind].
      rewrite Hcats. cbn [mbind result_bind]. eexists. split; [done|].
      split; [done|]. intros key. apply list_to_map_get.
    + unfold parse_def_json, dict_update_any, get_or.
      rewrite dict_get_update by done. by destruct (dict_get doc "_filename").
Qed.

(** X19.  When the category of every record is a string ("other" standing
    for a record without one), the loop of [load] returns an index that
    lists, under each category, the keys of the records of that category,
    in the order of the extraction.  A record without "_category" is
    listed under "other", while [get_category] answers "unknown" for its
    key.  And a record whose category cannot be hashed stops the loop with
    a TypeError. *)
Theorem category_index (extracted : schema) :
  Forall (λ kv, ∃ c, get_or kv.2 "_category" (PStr "other") = PStr c) extracted →
  (∃ cats,
     categories_loop extracted [] = Ret cats
     ∧ (∀ c, get_settings_in_category cats (PStr c)
             = Ret (dict_keys (List.filter
                                 (λ kv, eq_str (get_or kv.2 "_category" (PStr "other")) c)
                                 extracted)))
     ∧ ∀ m key info,
         settings m = list_to_map extracted →
         dict_get extracted key = Some info →
         dict_get info "_category" = None →
         (∃ keys, get_settings_in_category cats (PStr "other") = Ret keys ∧ key ∈ keys)
         ∧ get_category m key = PStr "unknown")
  ∧ ∀ items cats0,
      Exists (λ kv, unhashable (get_or kv.2 "_category" (PStr "other")) ≠ None) items →
      ∃ msg, categories_loop items cats0 = Raise (TypeError msg).
Proof.
  intros Hstr. split; [|apply categories_loop_unhashable].
  destruct (categories_loop_strings extracted [] Hstr) as (cats & Hloop & Hget).
  assert (∀ c, get_settings_in_category cats (PStr c)
               = Ret (dict_keys (List.filter
                                   (λ kv, eq_str (get_or kv.2 "_category" (PStr "other")) c)
                                   extracted))) as Hlist.
  { intros c. unfold get_settings_in_category. cbn [unhashable]. by rewrite Hget. }
  exists cats. split; [done|]. split; [done|].
  intros m key info Hm Hkey Hnone. split.
  - eexists. split; [apply Hlist|].
    apply dict_get_Some_elem in Hkey. apply list_elem_of_In.
    change key with (key, info).1. apply in_map, filter_In.
    split; [by apply list_elem_of_In|]. cbn [snd]. unfold get_or. by rewrite Hnone.
  - unfold get_category, get_or. by rewrite Hm, list_to_map_get, Hkey, Hnone.
Qed.

End SchemaIndexTheorems.

(** ** Exceptions that leave the validation *)

Section ValidationErrors.
Context `{Builtins}.
Implicit Types (self : CuraBuilder) (m : SettingMetadata) (info : pydict).

Lemma validate_loop_raises m (before after : pydict) (key : string) (value : pyval)
    (e : pyexn) (verdicts : list (bool * string)) : ∀ errors warnings,
  Forall2 (λ kv r, validate_value m kv.1 kv.2 = Ret r) before verdicts →
  validate_value m key value = Raise e →
  validate_loop m (before ++ (key, value) :: after) errors warnings = Raise e.
Proof.
  intros errors warnings Hall Hraise. revert errors warnings.
  induction Hall as [|[k v] [valid msg] before verdicts Hv Hall IH]; intros errors warnings.
  - cbn [app validate_loop]. by rewrite Hraise.
  - cbn [app validate_loop]. cbn [fst snd] in Hv. rewrite Hv. cbn [mbind result_bind].
    destruct valid; cbn [negb]; [destruct (String.eqb msg ""); cbn [negb]|]; apply IH.
Qed.

(** X20.  An exception raised by the validation of one setting is not
    collected: when the settings before it validate, [validate_settings]
    raises it, whatever comes after, and so does [build_curaprofile] for
    an accepted definition. *)
Theorem validation_exception_aborts self m (before after : pydict) (key : string)
    (value : pyval) (e : pyexn) (verdicts : list (bool * string)) :
  loaded_metadata self = Some m →
  Forall2 (λ kv r, validate_value m kv.1 kv.2 = Ret r) before verdicts →
  validate_value m key value = Raise e →
  validate_settings self (before ++ (key, value) :: after) = Raise e
  ∧ ∀ profile_name definition quality_type es,
      definition_accepted self definition = true →
      build_curaprofile self profile_name definition quality_type
        (before ++ (key, value) :: after) es
      = Raise e.
Proof.
  intros Hm Hall Hraise.
  assert (validate_settings self (before ++ (key, value) :: after) = Raise e) as Hval.
  { unfold validate_settings. rewrite Hm.
    by rewrite (validate_loop_raises m before after key value e verdicts). }
  split; [done|]. intros profile_name definition quality_type es Hdef.
  unfold build_curaprofile, definition_accepted in *.
  apply negb_true_iff in Hdef. by rewrite Hdef, Hval.
Qed.

(** X21.  For a setting of type int, a NaN is rejected with the message of
    the failed conversion, but an infinite float is not: [int] raises
    OverflowError, which the handler of the type check does not catch, and
    [validate_value] raises it. *)
Theorem validate_int_not_finite m key info :
  settings m !! key = Some info →
  get_or info "type" (PStr "unknown") = PStr "int" →
  validate_value m key (PFloat FNan)
  = Ret (false, "Type conversion failed: cannot convert float NaN to integer")
  ∧ ∀ negative,
      validate_value m key (PFloat (FInf negative))
      = Raise (OverflowError "cannot convert float infinity to integer").
Proof.
  intros Hk Hty. split; [|intros negative];
    rewrite (validate_value_record m key info _ Hk), Hty; reflexivity.
Qed.

(** X22.  The bounds are compared outside the type check: for a numeric
    setting whose minimum is a string, the validation of a value that
    passes the type check raises the TypeError of the comparison of a
    number with a string; so does a maximum that is a string when the
    minimum is None. *)
Theorem text_bound_raises m key info (raw c : pyval) (s : string) :
  settings m !! key = Some info →
  numeric_type info →
  type_check info (get_or info "type" (PStr "unknown")) raw = Ret (Continue c) →
  (get info "minimum_value" = PStr s →
   validate_value m key raw
   = Raise (TypeError ("'<' not supported between instances of '" +:+ type_name c
                       +:+ "' and 'str'")))
  ∧ (get info "minimum_value" = PNone → get info "maximum_value" = PStr s →
     validate_value m key raw
     = Raise (TypeError ("'>' not supported between instances of '" +:+ type_name c
                         +:+ "' and 'str'"))).
Proof.
  intros Hk Hty Hc.
  destruct (validate_value_numeric m key info raw c Hk Hty Hc) as [-> [x Hx]].
  unfold range_check. split.
  - intros ->. cbn [bound_crossed is_none]. unfold py_lt. rewrite Hx.
    cbn [as_num mbind result_bind]. by destruct c.
  - intros -> ->. cbn [bound_crossed is_none mbind result_bind]. unfold py_gt. rewrite Hx.
    cbn [as_num mbind result_bind]. by destruct c.
Qed.

(** X23.  For a setting of type int, a finite float is checked as the
    integer it truncates to, towards zero, while the text written for it is
    that of the float itself: a value such as 100.9 passes a maximum of 100
    and is written as 100.9. *)
Theorem int_setting_truncates m key info (q : Q) :
  settings m !! key = Some info →
  get_or info "type" (PStr "unknown") = PStr "int" →
  validate_value m key (PFloat (FFin q))
  = range_check info (PInt (Z.quot (Qnum q) (Z.pos (Qden q))))
  ∧ format_value_for_cfg m key (PFloat (FFin q)) = float_repr (FFin q).
Proof.
  intros Hk Hty. split.
  - rewrite (validate_value_record m key info _ Hk), Hty. reflexivity.
  - unfold format_value_for_cfg, get_type. rewrite Hk, Hty. reflexivity.
Qed.

End ValidationErrors.

(** ** The discovery of the machine definitions *)

Lemma rfind_last (c : ascii) (y t : string) :
  char_in c t = false → rfind c (y +:+ String c t) = Some (String.length y).
Proof.
  intros Ht.
  assert (rfind c t = None) as Hnone.
  { induction t as [|x t IH]; [done|]. cbn [char_in] in Ht.
    apply orb_false_iff in Ht as [Hx Ht]. cbn [rfind]. by rewrite IH, Hx. }
  induction y as [|x y IH].
  - change ("" +:+ String c t) with (String c t). cbn [rfind].
    by rewrite Hnone, Ascii.eqb_refl.
  - change (String x y +:+ String c t) with (String x (y +:+ String c t)).
    cbn [rfind String.length]. by rewrite IH.
Qed.

Lemma substring_prefix (y t : string) : String.substring 0 (String.length y) (y +:+ t) = y.
Proof.
  induction y as [|x y IH]; [by destruct t|].
  change (String x y +:+ t) with (String x (y +:+ t)).
  cbn [String.length String.substring]. by rewrite IH.
Qed.

Lemma length_append (y t : string) :
  String.length (y +:+ t) = (String.length y + String.length t)%nat.
Proof.
  induction y as [|x y IH]; [done|].
  change (String x y +:+ t) with (String x (y +:+ t)). cbn [String.length]. by rewrite IH.
Qed.

(** The stem of the name of a definition file keeps the ".def". *)
Lemma stem_def_json (x : string) : stem (x +:+ ".def.json") = x +:+ ".def".
Proof.
  assert (x +:+ ".def.json" = (x +:+ ".def") +:+ String "." "json") as ->.
  { by rewrite <- append_assoc. }
  unfold stem. rewrite rfind_last by done.
  assert ((0 <? String.length (x +:+ ".def"))%nat = true) as ->.
  { apply Nat.ltb_lt. rewrite length_append. cbn [String.length]. lia. }
  assert ((String.length (x +:+ ".def")
           <? String.length ((x +:+ ".def") +:+ String "." "json") - 1)%nat = true) as ->.
  { apply Nat.ltb_lt. rewrite !length_append. cbn [String.length]. lia. }
  cbn [andb]. apply substring_prefix.
Qed.

Lemma has_suffix_append (x t : string) : has_suffix t (x +:+ t) = true.
Proof.
  induction x as [|c x IH].
  - change ("" +:+ t) with t. destruct t; cbn [has_suffix]; by rewrite String.eqb_refl.
  - change (String c x +:+ t) with (String c (x +:+ t)). cbn [has_suffix].
    by rewrite IH, orb_true_r.
Qed.

Lemma insert_sorted_elem (x : string) (l : list string) (n : string) :
  n ∈ insert_sorted x l ↔ n = x ∨ n ∈ l.
Proof.
  induction l as [|y l IH]; cbn [insert_sorted].
  - by rewrite elem_of_cons.
  - destruct (String.leb x y); [by rewrite elem_of_cons|].
    rewrite !elem_of_cons, IH. tauto.
Qed.

Lemma sorted_elem (l : list string) (n : string) : n ∈ sorted l ↔ n ∈ l.
Proof.
  unfold sorted. induction l as [|x l IH]; [done|]. cbn [fold_right].
  by rewrite insert_sorted_elem, IH, elem_of_cons.
Qed.

Lemma insert_sorted_length (x : string) (l : list string) :
  length (insert_sorted x l) = S (length l).
Proof.
  induction l as [|y l IH]; [done|]. cbn [insert_sorted].
  destruct (String.leb x y); [done|]. cbn [length]. by rewrite IH.
Qed.

Lemma sorted_length (l : list string) : length (sorted l) = length l.
Proof.
  unfold sorted. induction l as [|x l IH]; [done|]. cbn [fold_right length].
  by rewrite insert_sorted_length, IH.
Qed.

(** No stem of a definition file is one of the two names to skip. *)
Lemma stems_not_skipped (bases : list string) :
  List.filter (λ name, negb (String.eqb name "fdmprinter" || String.eqb name "fdmextruder"))
              (map stem (map (λ x, x +:+ ".def.json") bases))
  = map (λ x, x +:+ ".def") bases.
Proof.
  induction bases as [|x bases IH]; [done|]. cbn [map List.filter].
  rewrite stem_def_json, IH.
  assert (∀ name, has_suffix ".def" name = false → String.eqb (x +:+ ".def") name = false)
    as Hother.
  { intros name Hname. apply String.eqb_neq. intros <-.
    by rewrite has_suffix_append in Hname. }
  by rewrite !Hother.
Qed.

Section DiscoveryTheorems.
Context `{Builtins}.
Implicit Types (self : CuraBuilder).

Lemma discovered_list (install_path : string) (bases : list string) :
  _discover_definitions (Some install_path) (Some (map (λ x, x +:+ ".def.json") bases))
  = sorted (map (λ x, x +:+ ".def") bases).
Proof. unfold _discover_definitions. by rewrite stems_not_skipped. Qed.

(** X24.  [_discover_definitions] takes the stem of each definition file,
    which is the file name without ".json" only: the name it lists for
    x.def.json is "x.def".  So no file is skipped, the two base
    definitions fdmprinter and fdmextruder no more than the others, and
    every listed name ends with ".def". *)
Theorem discovered_names_keep_def (install_path : string) (bases : list string) :
  let discovered :=
    _discover_definitions (Some install_path) (Some (map (λ x, x +:+ ".def.json") bases)) in
  (∀ name, name ∈ discovered ↔ ∃ x, x ∈ bases ∧ name = x +:+ ".def")
  ∧ length discovered = length bases
  ∧ ∀ name, name ∈ discovered → has_suffix ".def" name = true.
Proof.
  cbn zeta. rewrite discovered_list.
  assert (∀ name, name ∈ sorted (map (λ x, x +:+ ".def") bases)
                  ↔ ∃ x, x ∈ bases ∧ name = x +:+ ".def") as Hnames.
  { intros name. rewrite sorted_elem, list_elem_of_fmap.
    split; [intros (x & -> & Hin) | intros (x & Hin & ->)]; by exists x. }
  split; [done|]. split; [by rewrite sorted_length, length_map|].
  intros name (x & _ & ->)%Hnames. apply has_suffix_append.
Qed.

Lemma build_curaprofile_rejects self profile_name definition quality_type gs es :
  available_definitions self ≠ [] →
  definition ∉ available_definitions self →
  definition ≠ "fdmprinter" →
  build_curaprofile self profile_name definition quality_type gs es
  = Ret (BuildFailed (unknown_definition_message self definition)).
Proof.
  intros Hsome Hnot Hne.
  assert (validate_definition self definition = false) as Hvd.
  { unfold validate_definition. apply orb_false_iff. split; [|by apply String.eqb_neq].
    apply not_true_iff_false. intros (x & Hin & Heq)%existsb_exists.
    apply String.eqb_eq in Heq. subst x. by apply Hnot, list_elem_of_In. }
  unfold build_curaprofile, unknown_definition_message. rewrite Hvd.
  destruct (available_definitions self); [by destruct Hsome | reflexivity].
Qed.

(** X25.  With the definitions discovered from a directory that has
    definition files, [build_curaprofile] refuses every definition name
    that does not end with ".def", "fdmprinter" apart, as an unknown
    definition: the name x of a machine is refused although x.def.json is
    among the files. *)
Theorem discovered_definition_unknown self (install_path : string) (bases : list string)
    profile_name definition quality_type gs es :
  available_definitions self
  = _discover_definitions (Some install_path) (Some (map (λ x, x +:+ ".def.json") bases)) →
  bases ≠ [] →
  has_suffix ".def" definition = false →
  definition ≠ "fdmprinter" →
  build_curaprofile self profile_name definition quality_type gs es
  = Ret (BuildFailed (unknown_definition_message self definition)).
Proof.
  intros Havailable Hbases Hsuffix Hne. rewrite discovered_list in Havailable.
  apply build_curaprofile_rejects; [| |done]; rewrite Havailable.
  - intros Hnil. apply (f_equal length) in Hnil.
    rewrite sorted_length, length_map in Hnil. by destruct bases.
  - intros (x & -> & _)%sorted_elem%list_elem_of_fmap.
    by rewrite has_suffix_append in Hsuffix.
Qed.

End DiscoveryTheorems.

(** * Examples

    The theorems at concrete inputs, with the decimal builtins and the
    example schema, and the inputs at which the statements of the
    specification, as worded, fail. *)

Section Examples.
Import Decimal.

Lemma example_batch_NoDup : NoDup (dict_keys example_batch).
Proof. apply (bool_decide_unpack _). vm_compute. exact I. Defined.

(** C1: the scenario of the specification. *)
Lemma validate_value_accepts_witness :
  validate_value example_metadata "layer_height" (PFloat (FFin (5 # 100))) = Ret (true, "").
Proof.
  assert (settings example_metadata !! "layer_height" = Some layer_height_info) as Hk
    by (vm_compute; reflexivity).
  destruct (validate_value_accepts example_metadata "layer_height" layer_height_info
              (PFloat (FFin (5 # 100))) Hk) as [_ Hscenario].
  apply (Hscenario eq_refl (5 # 100)); vm_compute; discriminate.
Defined.

(** C1 in the wording of the specification fails: the tuple returned for the
    accepted input 0.05 is (True, ""), whose first component is the flag and
    not the coerced value 0.05; and a raw string that is accepted stays a
    string in the batch that is partitioned. *)
Lemma validate_value_returns_flag_counterexample :
  type_check layer_height_info (PStr "float") (PFloat (FFin (5 # 100)))
  = Ret (Continue (PFloat (FFin (5 # 100))))
  ∧ validate_value example_metadata "layer_height" (PFloat (FFin (5 # 100)))
    = Ret (true, "")
  ∧ (∀ advisory, returned_tuple (true, "") ≠ PTuple [PFloat (FFin (5 # 100)); advisory])
  ∧ type_check layer_height_info (PStr "float") (PStr "0.05")
    = Ret (Continue (PFloat (FFin (1 # 20))))
  ∧ validate_value example_metadata "layer_height" (PStr "0.05") = Ret (true, "")
  ∧ separate example_builder [("layer_height", PStr "0.05")]
    = ([("layer_height", PStr "0.05")], []).
Proof.
  split; [reflexivity|]. split; [vm_compute; reflexivity|].
  split; [intros advisory; discriminate|].
  split; [vm_compute; reflexivity|]. split; vm_compute; reflexivity.
Qed.

(** C2: "Yes" is True. *)
Lemma bool_setting_coercion_witness :
  type_check retraction_enable_info (PStr "bool") (PStr "Yes") = Ret (Continue (PBool true))
  ∧ validate_value example_metadata "retraction_enable" (PStr "Yes") = Ret (true, "").
Proof.
  apply (bool_setting_coercion example_metadata "retraction_enable"
           retraction_enable_info (PStr "Yes")).
  - vm_compute. reflexivity.
  - reflexivity.
Defined.

(** C2 in the wording of the specification fails: the integer 2 is no
    boolean and none of the three words, and it is coerced to True. *)
Lemma bool_coercion_counterexample :
  type_check retraction_enable_info (PStr "bool") (PInt 2) = Ret (Continue (PBool true))
  ∧ bool_coercion_spec (PInt 2) = false
  ∧ type_check retraction_enable_info (PStr "bool") (PInt 2)
    ≠ Ret (Continue (PBool (bool_coercion_spec (PInt 2)))).
Proof. split; [reflexivity|]. split; [reflexivity | discriminate]. Qed.



(** C5: the example batch, split. *)
Lemma separation_total_witness :
  dict_get (separate example_builder example_batch).1 "layer_height"
  = Some (PFloat (FFin (28 # 100)))
  ∧ dict_get (separate example_builder example_batch).2 "layer_height" = None
  ∧ merge_extruder (separate example_builder example_batch).2 None
    = [(0, (separate example_builder example_batch).2)].
Proof.
  destruct (separation_total example_builder example_batch example_batch_NoDup)
    as (Hone & _ & _ & Hzero & _ & _).
  destruct (Hone "layer_height" (PFloat (FFin (28 # 100))) eq_refl)
    as [(_ & Hg & He)|(Hr & _)].
  - done.
  - vm_compute in Hr. discriminate.
Defined.

(** C6: a key the schema does not know. *)
Lemma validate_value_unknown_key_witness :
  validate_value example_metadata "my_custom_flag" (PList [PInt 1; PStr "x"]) = Ret (true, "").
Proof.
  apply (validate_value_unknown_key example_metadata "my_custom_flag").
  vm_compute. reflexivity.
Defined.

(** C7: "none" is not an adhesion type. *)
Lemma enum_invalid_option_witness :
  validate_value example_metadata "adhesion_type" (PStr "none")
  = Ret (false, "Invalid option 'none'. Valid: ['skirt', 'brim', 'raft']").
Proof.
  assert (settings example_metadata !! "adhesion_type" = Some adhesion_type_info) as Hk
    by (vm_compute; reflexivity).
  destruct (enum_invalid_option example_metadata "adhesion_type" adhesion_type_info
              [("skirt", PStr "Skirt"); ("brim", PStr "Brim"); ("raft", PStr "Raft")]
              (PStr "none") Hk eq_refl eq_refl eq_refl) as [Hhashable _].
  destruct (Hhashable eq_refl) as [Hv _]. rewrite Hv. reflexivity.
Defined.

(** C7 in the wording of the specification fails: a list is not one of the
    options, and it is rejected with the type-conversion message, in which
    no option occurs. *)
Lemma enum_unhashable_counterexample :
  in_options [("skirt", PStr "Skirt"); ("brim", PStr "Brim"); ("raft", PStr "Raft")]
    (PList [PStr "skirt"]) = false
  ∧ validate_value example_metadata "adhesion_type" (PList [PStr "skirt"])
    = Ret (false, "Type conversion failed: unhashable type: 'list'")
  ∧ ¬ occurs_in (str_repr "skirt") "Type conversion failed: unhashable type: 'list'".
Proof.
  split; [reflexivity|]. split; [vm_compute; reflexivity|].
  intros Hocc%occurs_in_occursb. vm_compute in Hocc. discriminate.
Qed.



(** C9: the custom key of the example batch. *)
Lemma unknown_key_stays_global_witness :
  is_per_extruder example_metadata "my_custom_flag" = PBool false
  ∧ dict_get (separate example_builder example_batch).1 "my_custom_flag" = Some (PStr "on")
  ∧ dict_get (separate example_builder example_batch).2 "my_custom_flag" = None.
Proof.
  destruct (unknown_key_stays_global example_builder example_metadata "my_custom_flag")
    as [Hper Hgroups].
  - reflexivity.
  - vm_compute. reflexivity.
  - destruct (Hgroups example_batch (PStr "on") example_batch_NoDup eq_refl)
      as (_ & Hg & He & _).
    done.
Defined.

(** C10: an effective value 0 and an empty value fall back to the
    default. *)
Lemma effective_value_fallback_witness :
  effective_settings_step [] "material_bed_temperature" (PDict example_effective_info)
  = Ret [("material_bed_temperature", PInt 60)].
Proof.
  destruct (effective_value_fallback [] "material_bed_temperature" example_effective_info)
    as [_ Hfalsy]; [reflexivity|].
  destruct Hfalsy as (_ & _ & Hdefault & _); [by left|].
  apply Hdefault; [reflexivity | discriminate].
Defined.

(** ** The further properties at concrete inputs *)

(** X1: a batch with an error and a warning. *)
Lemma validate_settings_collects_witness :
  validate_settings example_builder example_checked_batch
  = Ret (false, ["cool_fan_speed: Value 150 above maximum 100"],
         ["retraction_amount: Value 0.3 below recommended 0.5"]).
Proof.
  apply (validate_settings_collects example_builder example_metadata
           example_checked_batch example_verdicts).
  - reflexivity.
  - repeat constructor; vm_compute; reflexivity.
Defined.

(** X3: the batch with an error does not build. *)
Lemma build_curaprofile_outcome_witness :
  build_curaprofile example_builder "My Profile" "creality_ender3pro" "normal"
    example_checked_batch None
  = Ret (BuildFailed
           (validation_errors_message ["cool_fan_speed: Value 150 above maximum 100"])).
Proof.
  assert (definition_accepted example_builder "creality_ender3pro" = true) as Hdef
    by reflexivity.
  assert (validate_settings example_builder example_checked_batch
          = Ret (false, ["cool_fan_speed: Value 150 above maximum 100"],
                 ["retraction_amount: Value 0.3 below recommended 0.5"])) as Hval
    by (vm_compute; reflexivity).
  destruct (build_curaprofile_outcome example_builder "My Profile" "creality_ender3pro"
              "normal" example_checked_batch None _ _ _ Hdef Hval) as [Hfailed _].
  destruct (Hfailed eq_refl) as [Hbuild _]. exact Hbuild.
Defined.

(** X4: the example batch without metadata. *)
Lemma build_curaprofile_without_metadata_witness :
  build_curaprofile example_bare_builder "My Profile" "creality_ender3pro" "normal"
    example_batch None
  = Ret (BuildFiles
           (inst_cfg_text example_bare_builder "My Profile" "creality_ender3pro" "normal"
              example_batch false 0) []).
Proof.
  destruct (build_curaprofile_without_metadata example_bare_builder "My Profile"
              "creality_ender3pro" "normal" example_batch) as [Hbuild _].
  - reflexivity.
  - reflexivity.
  - exact example_batch_NoDup.
  - exact Hbuild.
Defined.

(** X5: the example batch, split. *)
Lemma separate_keeps_order_witness :
  (separate example_builder example_batch).1 `sublist_of` example_batch
  ∧ (separate example_builder example_batch).2 `sublist_of` example_batch
  ∧ (length (separate example_builder example_batch).1
     + length (separate example_builder example_batch).2 = length example_batch)%nat.
Proof. exact (separate_keeps_order example_builder example_batch example_batch_NoDup). Defined.

(** X6: a start G-code of two lines. *)
Lemma format_value_one_line_witness :
  char_in NL (format_value_for_cfg example_gcode_metadata "machine_start_gcode"
                (PStr ("G28" +:+ String NL "G1 Z5"))) = false
  ∧ char_in TAB (format_value_for_cfg example_gcode_metadata "machine_start_gcode"
                   (PStr ("G28" +:+ String NL "G1 Z5"))) = false.
Proof.
  destruct (format_value_one_line example_gcode_metadata "machine_start_gcode"
              [("type", PStr "str")] ("G28" +:+ String NL "G1 Z5")) as (Hnl & Htab & _).
  - vm_compute. reflexivity.
  - left. reflexivity.
  - split; [exact Hnl | exact Htab].
Defined.

(** X7: "no" for a boolean setting. *)
Lemma format_value_bool_string_witness :
  validate_value example_metadata "retraction_enable" (PStr "no") = Ret (true, "")
  ∧ format_value_for_cfg example_metadata "retraction_enable" (PStr "no") = "True".
Proof.
  destruct (format_value_bool_string example_metadata "retraction_enable"
              retraction_enable_info "no") as (_ & _ & Hno).
  - vm_compute. reflexivity.
  - reflexivity.
  - destruct Hno as (_ & Hvalid & Htext); [discriminate | reflexivity |].
    split; [exact Hvalid | exact Htext].
Defined.

(** X8: the scenario of the specification, PLA and draft. *)
Lemma build_from_preset_merge_witness :
  dict_get (merged_preset_settings (quality_settings double_0_28 double_0_28)
              (material_settings 200 60 50 double_0_8 45 100) None) "layer_height"
  = Some (PFloat (FFin double_0_28))
  ∧ dict_get (merged_preset_settings (quality_settings double_0_28 double_0_28)
                (material_settings 200 60 50 double_0_8 45 100) None)
             "material_print_temperature"
    = Some (PInt 200).
Proof.
  destruct (build_from_preset_merge example_builder "My Profile" "creality_ender3pro"
              "pla" "Draft" None
              ("Standard PLA - good all-around starter settings",
               material_settings 200 60 50 double_0_8 45 100)
              ("Fast draft - 0.28mm layers, quick prints",
               quality_settings double_0_28 double_0_28)) as (_ & _ & Hget).
  - reflexivity.
  - reflexivity.
  - constructor.
  - cbn [snd] in Hget. rewrite !Hget. split; reflexivity.
Defined.

(** X9: an unknown material. *)
Lemma build_from_preset_names_witness :
  build_from_preset example_builder "My Profile" "creality_ender3pro" "pvc" "draft" None
  = Ret (BuildFailed
           "Unknown material: pvc. Available: ['PLA', 'PETG', 'ABS', 'TPU', 'ASA']").
Proof.
  destruct (build_from_preset_names example_builder "My Profile" "creality_ender3pro"
              "pvc" "draft" None) as (Hunknown & _ & _).
  apply Hunknown. apply (bool_decide_unpack _). vm_compute. exact I.
Defined.

(** X10: the scenario of the specification. *)
Lemma parse_settings_rendered_witness :
  parse_settings "retraction_amount=0.8,cool_fan_speed=100"
  = [("retraction_amount", PFloat (FFin (4 # 5))); ("cool_fan_speed", PInt 100)].
Proof.
  destruct (parse_settings_rendered
              [("retraction_amount", "0.8"); ("cool_fan_speed", "100")]) as [Hparse _].
  - repeat constructor.
  - exact Hparse.
Defined.

(** X11: the curated layer height comes before the effective one. *)
Lemma build_from_json_settings_lookup_witness :
  ∃ settings,
    build_from_json_settings example_extraction None = Ret settings
    ∧ dict_get settings "layer_height" = Some (PFloat (FFin (2 # 10)))
    ∧ dict_get settings "material_bed_temperature" = Some (PInt 60).
Proof.
  destruct (build_from_json_settings_lookup example_extraction
              [("layer_height", PDict [("value", PFloat (FFin (2 # 10)))]);
               ("adhesion_type", PStr "brim")]
              [("effective_settings",
                PDict [("layer_height", PDict [("effective_value", PFloat (FFin (3 # 10)))]);
                       ("material_bed_temperature", PDict example_effective_info)])]
              [("layer_height", PDict [("effective_value", PFloat (FFin (3 # 10)))]);
               ("material_bed_temperature", PDict example_effective_info)]
              None) as (settings & Hsettings & Hget).
  - reflexivity.
  - reflexivity.
  - reflexivity.
  - apply (bool_decide_unpack _). vm_compute. exact I.
  - apply (bool_decide_unpack _). vm_compute. exact I.
  - repeat constructor; eexists; reflexivity.
  - exists settings. split; [exact Hsettings|]. rewrite !Hget. split; reflexivity.
Defined.

(** X12: an effective setting that is a number. *)
Lemma effective_settings_not_an_object_witness :
  effective_settings_step [] "layer_height" (PInt 5)
  = Raise (AttributeError "'int' object has no attribute 'get'").
Proof.
  apply (effective_settings_not_an_object [] "layer_height" (PInt 5)).
  intros d. discriminate.
Defined.

(** X13: the layer height of the example document, which has a setting
    below it. *)
Lemma recurse_own_record_witness :
  ∃ st',
    recurse (PDict example_layer_height) "layer_height" "resolution" [] = Ret st'
    ∧ dict_get st' "layer_height"
      = Some [("_category", PStr "resolution"); ("default_value", PFloat (FFin (1 # 10)));
              ("type", PStr "float"); ("label", PStr "Layer Height")].
Proof.
  destruct (recurse_own_record example_layer_height (PStr "float") "layer_height"
              "resolution" []) as (st' & Hst' & Hget & _).
  - reflexivity.
  - reflexivity.
  - reflexivity.
  - exists st'. split; [exact Hst' | exact Hget].
Defined.

(** X14: the category of the example document. *)
Lemma recurse_walks_tree_witness :
  ∃ st',
    recurse (PDict example_resolution) "resolution" "resolution" [] = Ret st'
    ∧ ∀ key record,
        dict_get st' key = Some record →
        dict_get record "_category" = Some (PStr "resolution").
Proof.
  destruct (recurse_walks_tree (PDict example_resolution) "resolution" "resolution" [])
    as (st' & Hst' & _ & Hget).
  - reflexivity.
  - exists st'. split; [exact Hst'|]. intros key record Hrecord.
    destruct (Hget key record Hrecord) as [Hold|[_ Htag]]; [discriminate|].
    apply Htag. reflexivity.
Defined.

(** X15: the settings of the example document. *)
Lemma settings_of_tree_records_witness :
  ∃ base,
    settings_of_tree example_document = Ret base
    ∧ ∀ key record, dict_get base key = Some record → leaf_record record.
Proof.
  destruct (settings_of_tree_records example_document
              [("resolution", PDict example_resolution)]) as (base & Hbase & Hrecords).
  - reflexivity.
  - repeat constructor.
  - exists base. split; [exact Hbase|]. intros key record Hrecord.
    destruct (Hrecords key record Hrecord) as [Hleaf _]. exact Hleaf.
Defined.

(** X16: the overrides of the example document on the index of its
    settings. *)
Lemma overrides_take_precedence_witness :
  ∃ st',
    settings_with_overrides not_iterable_update example_def_data example_index = Ret st'
    ∧ (∃ record,
         dict_get st' "layer_height" = Some record
         ∧ dict_get record "default_value" = Some (PFloat (FFin (2 # 10)))
         ∧ dict_get record "type" = Some (PStr "float")
         ∧ dict_get record "_source" = Some (PStr "fdmprinter.def.json"))
    ∧ dict_get st' "layer_height_0" = dict_get example_index "layer_height_0".
Proof.
  destruct (overrides_take_precedence not_iterable_update example_def_data
              example_overrides example_index) as (st' & Hst' & Hsame & Hover).
  - reflexivity.
  - apply (bool_decide_unpack _). vm_compute. exact I.
  - repeat constructor; eexists; reflexivity.
  - exists st'. split; [exact Hst'|]. split; [|apply Hsame; reflexivity].
    destruct (Hover "layer_height" [("default_value", PFloat (FFin (2 # 10)))] eq_refl)
      as [Hrecord Hfields].
    eexists. split; [exact Hrecord|].
    assert (NoDup (dict_keys [("default_value", PFloat (FFin (2 # 10)))])) as Hnd
      by (apply (bool_decide_unpack _); vm_compute; exact I).
    rewrite !(Hfields Hnd). repeat split; reflexivity.
Defined.

(** X17: the gantry height, which only the overrides have. *)
Lemma override_without_type_accepts_witness :
  ∃ extracted,
    extract_settings_from_def not_iterable_update example_def_data = Ret extracted
    ∧ ∀ m, settings m = list_to_map extracted →
           ∀ value, validate_value m "machine_gantry_height" value = Ret (true, "").
Proof.
  destruct (override_without_type_accepts not_iterable_update example_def_data
              example_overrides [("default_value", PInt 55)] example_index
              "machine_gantry_height") as (extracted & Hextracted & Haccepts).
  - reflexivity.
  - reflexivity.
  - reflexivity.
  - apply (bool_decide_unpack _). vm_compute. exact I.
  - repeat constructor; eexists; reflexivity.
  - reflexivity.
  - apply (bool_decide_unpack _). vm_compute. exact I.
  - reflexivity.
  - exists extracted. split; [exact Hextracted|]. intros m Hm.
    destruct (Haccepts m Hm) as [_ Hall]. exact Hall.
Defined.

(** X18: no file, and a document that says "_error". *)
Lemma load_outcome_witness :
  load not_iterable_update example_metadata [] "fdmprinter.def.json" NotFound
  = Ret (false, example_metadata, [])
  ∧ load not_iterable_update example_metadata [] "fdmprinter.def.json"
      (Parsed (PDict [("_error", PStr "none"); ("settings", PDict [])]))
    = Ret (false, example_metadata, []).
Proof.
  destruct (load_outcome not_iterable_update example_metadata [] "fdmprinter.def.json")
    as (Hmissing & Herror & _ & _).
  split.
  - apply Hmissing. left. reflexivity.
  - apply Herror. reflexivity.
Defined.

(** X19: the index of the example document. *)
Lemma category_index_witness :
  ∃ cats,
    categories_loop example_index [] = Ret cats
    ∧ get_settings_in_category cats (PStr "resolution")
      = Ret ["layer_height_0"; "layer_height"].
Proof.
  destruct (category_index example_index) as [(cats & Hcats & Hlist & _) _].
  - repeat constructor; eexists; reflexivity.
  - exists cats. split; [exact Hcats|]. rewrite Hlist. reflexivity.
Defined.

(** X20: an infinite fan speed after a layer height. *)
Lemma validation_exception_aborts_witness :
  validate_settings example_builder
    [("layer_height", PFloat (FFin (2 # 10))); ("cool_fan_speed", PFloat (FInf false))]
  = Raise (OverflowError "cannot convert float infinity to integer").
Proof.
  destruct (validation_exception_aborts example_builder example_metadata
              [("layer_height", PFloat (FFin (2 # 10)))] [] "cool_fan_speed"
              (PFloat (FInf false))
              (OverflowError "cannot convert float infinity to integer")
              [(true, "")]) as [Hraise _].
  - reflexivity.
  - repeat constructor.
  - vm_compute. reflexivity.
  - exact Hraise.
Defined.

(** X21: a fan speed that is not a number. *)
Lemma validate_int_not_finite_witness :
  validate_value example_metadata "cool_fan_speed" (PFloat FNan)
  = Ret (false, "Type conversion failed: cannot convert float NaN to integer")
  ∧ validate_value example_metadata "cool_fan_speed" (PFloat (FInf true))
    = Raise (OverflowError "cannot convert float infinity to integer").
Proof.
  destruct (validate_int_not_finite example_metadata "cool_fan_speed" cool_fan_speed_info)
    as [Hnan Hinf].
  - vm_compute. reflexivity.
  - reflexivity.
  - split; [exact Hnan | exact (Hinf true)].
Defined.

(** X22: a minimum given as a formula. *)
Lemma text_bound_raises_witness :
  validate_value example_formula_metadata "layer_height" (PFloat (FFin (2 # 10)))
  = Raise (TypeError "'<' not supported between instances of 'float' and 'str'").
Proof.
  destruct (text_bound_raises example_formula_metadata "layer_height" example_formula_info
              (PFloat (FFin (2 # 10))) (PFloat (FFin (2 # 10))) "0.001") as [Hmin _].
  - vm_compute. reflexivity.
  - right. reflexivity.
  - reflexivity.
  - apply Hmin. reflexivity.
Defined.

(** X23: a fan speed of 100.9 for a maximum of 100. *)
Lemma int_setting_truncates_witness :
  validate_value example_metadata "cool_fan_speed" (PFloat (FFin (1009 # 10)))
  = Ret (true, "")
  ∧ format_value_for_cfg example_metadata "cool_fan_speed" (PFloat (FFin (1009 # 10)))
    = "100.9".
Proof.
  destruct (int_setting_truncates example_metadata "cool_fan_speed" cool_fan_speed_info
              (1009 # 10)) as [Hvalid Htext].
  - vm_compute. reflexivity.
  - reflexivity.
  - rewrite Hvalid, Htext. split; vm_compute; reflexivity.
Defined.

(** X25: the Ender 3 Pro, whose definition file is there. *)
Lemma discovered_definition_unknown_witness :
  build_curaprofile example_discovered_builder "My Profile" "creality_ender3pro" "normal"
    example_batch None
  = Ret (BuildFailed
           ("Unknown definition: creality_ender3pro. Examples: "
            +:+ "['creality_ender3pro.def', 'fdmprinter.def']...")).
Proof.
  rewrite (discovered_definition_unknown example_discovered_builder "/opt/cura"
             ["fdmprinter"; "creality_ender3pro"] "My Profile" "creality_ender3pro" "normal"
             example_batch None).
  - vm_compute. reflexivity.
  - reflexivity.
  - discriminate.
  - reflexivity.
  - discriminate.
Defined.

End Examples.
